(** * AI Study Assistant: the HTTP boundary of [src/api/main.py]

    A shallow embedding of the route handlers of the FastAPI application
    together with the state they act on: the three module-level globals
    ([vector_store], [rag_system], [quiz_generator]), the part of the file
    system that the handlers reach through [os], [shutil] and [open], and
    the collaborator objects ([DocumentIngestion], [RAGSystem],
    [QuizGenerator]) whose code lives in other modules.

    Conventions.
    - A handler is a computation in a state-and-exception monad [M]: it
      either returns a JSON body (a [pyval]) or raises an exception.  A
      raised [HTTPException s d] is what FastAPI turns into the response
      with status [s] and body [{"detail": d}].
    - Collaborators are parameters: each call is a function on the world
      (file system and the collaborators' private state) that returns or
      raises.  Every call is recorded, with its outcome, in a ghost trace.
    - Strings are byte strings: a Python [str] is its UTF-8 encoding, which
      is what reaches the file system.  ["/"], ["."] and the ASCII letters
      are single bytes that occur in no other character, so the path and
      suffix operations are the same on bytes and on code points.
    - Paths are resolved the way Linux does it, against a fixed working
      directory, with the limits [NAME_MAX] and [PATH_MAX]; symbolic links,
      permissions and device errors are not modelled.
    - Console output ([print]) is not modelled; expressions evaluated
      inside an f-string are, because they may raise. *)

From Stdlib Require Import ZArith Ascii String List.
From stdpp Require Import base option list strings pretty gmap fin_maps.

Local Open Scope string_scope.
Local Open Scope Z_scope.
Local Set Warnings "-register-all".

(** ** Strings: the [str] and [pathlib] operations the handlers use *)

Module Py.

(** [s.split(sep)] for a one-character separator. *)
Fixpoint split (sep : ascii) (s : string) : list string :=
  match s with
  | EmptyString => [EmptyString]
  | String c s' =>
      let r := split sep s' in
      if Ascii.eqb c sep then EmptyString :: r
      else String c (List.hd EmptyString r) :: List.tl r
  end.

(** [s.rfind(c)]: index of the last occurrence, [None] for Python's -1. *)
Fixpoint rfind (c : ascii) (s : string) : option nat :=
  match s with
  | EmptyString => None
  | String a s' =>
      match rfind c s' with
      | Some i => Some (S i)
      | None => if Ascii.eqb a c then Some O else None
      end
  end.

(** [c in s] for a character. *)
Fixpoint contains (c : ascii) (s : string) : bool :=
  match s with
  | EmptyString => false
  | String a s' => Ascii.eqb a c || contains c s'
  end.

(** [s.startswith(c)] for a character. *)
Definition startswith (c : ascii) (s : string) : bool :=
  match s with
  | String a _ => Ascii.eqb a c
  | EmptyString => false
  end.

Definition lower_ascii (c : ascii) : ascii :=
  let n := nat_of_ascii c in
  if ((65 <=? n)%nat && (n <=? 90)%nat)%bool then ascii_of_nat (n + 32) else c.

(** The ASCII letters of [s] lowered, every other byte as it is. *)
Fixpoint ascii_lower (s : string) : string :=
  match s with
  | EmptyString => EmptyString
  | String c s' => String (lower_ascii c) (ascii_lower s')
  end.

(** [s.isascii()] *)
Fixpoint is_ascii (s : string) : bool :=
  match s with
  | EmptyString => true
  | String c s' => (nat_of_ascii c <? 128)%nat && is_ascii s'
  end.

(** [s.lower()].  On an ASCII string it lowers the letters A-Z.  On any
    other string it follows the case tables of the Unicode database and
    the rule for a final sigma, which looks at the neighbours of a
    character: that part, [unicode_lower], comes with the interpreter. *)
Definition lower (unicode_lower : string -> string) (s : string) : string :=
  if is_ascii s then ascii_lower s else unicode_lower s.

(** [PurePosixPath(s).name]: the last component that is neither empty nor
    ["."], or the empty string when there is none. *)
Definition path_name (s : string) : string :=
  List.last (List.filter (fun x => negb (String.eqb x "" || String.eqb x "."))
                         (split "/" s)) "".

(** [PurePosixPath.suffix] as a function of the name (CPython up to 3.13):
    [i = name.rfind('.')]; the suffix is [name[i:]] when
    [0 < i < len(name) - 1], and empty otherwise. *)
Definition name_suffix (name : string) : string :=
  match rfind "." name with
  | Some i =>
      if ((0 <? i)%nat && (S i <? String.length name)%nat)%bool
      then String.substring i (String.length name - i) name
      else ""
  | None => ""
  end.

(** [Path(s).suffix]. *)
Definition suffix (s : string) : string := name_suffix (path_name s).

(** [posixpath.join(a, b)]. *)
Definition path_join (a b : string) : string :=
  if startswith "/" b then b
  else if (String.eqb a "" || String.eqb (String.substring (String.length a - 1) 1 a) "/")%bool
       then a ++ b
       else a ++ "/" ++ b.

End Py.

(** ** Python values and exceptions *)

(** The JSON-like values that cross the HTTP boundary.  A [dict] with
    string keys is the list of its items. *)
Inductive pyval :=
  | PNone
  | PBool (b : bool)
  | PInt (z : Z)
  | PStr (s : string)
  | PList (l : list pyval)
  | PDict (d : list (string * pyval)).

Abbreviation pydict := (list (string * pyval)).

(** Exceptions, as far as the [except] clauses of the handlers tell them
    apart: FastAPI's [HTTPException], any other subclass of [Exception]
    (carrying what [str(e)] returns), and exceptions that derive from
    [BaseException] only ([KeyboardInterrupt], [SystemExit], ...), which
    [except Exception] does not catch. *)
Inductive exn :=
  | HTTPException (status_code : Z) (detail : pyval)
  | Exception (msg : string)
  | BaseException (msg : string).

(** [HTTPException(status_code=500, detail=d)]: Starlette's constructor
    puts the phrase of the status code in the place of a detail that is
    [None].  The other [raise] statements of the module pass a string. *)
Definition HTTPException_500 (detail : pyval) : exn :=
  HTTPException 500
    (match detail with PNone => PStr "Internal Server Error" | _ => detail end).

Definition is_HTTPException (e : exn) : bool :=
  match e with HTTPException _ _ => true | _ => false end.

(** [isinstance(e, Exception)]; [HTTPException] is a subclass. *)
Definition is_Exception (e : exn) : bool :=
  match e with BaseException _ => false | _ => true end.

(** [d[key]] on a dict: the value, or [KeyError(key)], whose [str] is the
    [repr] of the key. *)
Fixpoint dict_get (d : pydict) (key : string) : option pyval :=
  match d with
  | [] => None
  | (k, v) :: d' => if String.eqb k key then Some v else dict_get d' key
  end.

Definition KeyError (key : string) : exn := Exception ("'" ++ key ++ "'").

Definition py_getitem (d : pydict) (key : string) : exn + pyval :=
  match dict_get d key with
  | Some v => inr v
  | None => inl (KeyError key)
  end.

(** [len(v)]: defined on strings, lists and dicts; a [TypeError] on the
    other values. *)
Definition py_len (v : pyval) : exn + Z :=
  match v with
  | PStr s => inr (Z.of_nat (String.length s))
  | PList l => inr (Z.of_nat (List.length l))
  | PDict d => inr (Z.of_nat (List.length d))
  | PNone => inl (Exception "object of type 'NoneType' has no len()")
  | PBool _ => inl (Exception "object of type 'bool' has no len()")
  | PInt _ => inl (Exception "object of type 'int' has no len()")
  end.

(** ** The file system *)

Module Fs.

(** A node is a regular file with its bytes, or a directory.  The file
    system maps the absolute path of every node, as the list of its
    components from the root, to the node; the root itself is not a key. *)
Inductive node :=
  | RegFile (content : string)
  | Directory.

Abbreviation FS := (gmap (list string) node).

Inductive errno := ENOENT | EEXIST | ENOTDIR | EISDIR | ENAMETOOLONG.

Definition strerror (e : errno) : string :=
  match e with
  | ENOENT => "[Errno 2] No such file or directory"
  | EEXIST => "[Errno 17] File exists"
  | ENOTDIR => "[Errno 20] Not a directory"
  | EISDIR => "[Errno 21] Is a directory"
  | ENAMETOOLONG => "[Errno 36] File name too long"
  end.

(** [str] of the [OSError] that CPython raises for a failed call on [path]. *)
Definition OSError (e : errno) (path : string) : exn :=
  Exception (strerror e ++ ": '" ++ path ++ "'").

Definition ValueError_null : exn := Exception "embedded null byte".

(** The longest name of a directory entry and the longest path that a
    system call takes, in bytes; [PATH_MAX] counts the final null byte. *)
Definition NAME_MAX : nat := 255.
Definition PATH_MAX : nat := 4096.

Definition name_too_long (name : string) : bool :=
  (NAME_MAX <? String.length name)%nat.

Definition path_too_long (path : string) : bool :=
  (PATH_MAX <=? String.length path)%nat.

Definition is_dir (fs : FS) (p : list string) : bool :=
  match p with
  | [] => true
  | _ => match fs !! p with Some Directory => true | _ => false end
  end.

Definition is_file (fs : FS) (p : list string) : bool :=
  match fs !! p with Some (RegFile _) => true | _ => false end.

Definition present (fs : FS) (p : list string) : bool :=
  match p with
  | [] => true
  | _ => bool_decide (is_Some (fs !! p))
  end.

(** The names of the entries of directory [d]. *)
Definition children (fs : FS) (d : list string) : list string :=
  omap (fun kv : list string * node =>
          if decide (kv.1 <> [] /\ removelast kv.1 = d)
          then Some (List.last kv.1 "") else None)
       (map_to_list fs).

(** A name that a directory entry can have. *)
Definition valid_name (n : string) : Prop :=
  n <> "" /\ n <> "." /\ n <> ".." /\
  Py.contains "/" n = false /\ Py.contains "000" n = false /\
  name_too_long n = false.

#[global] Instance valid_name_dec n : Decision (valid_name n).
Proof. unfold valid_name. apply _. Defined.

(** Every node has a proper name and lives in a directory. *)
Definition wf (fs : FS) : Prop :=
  map_Forall (fun p _ =>
                p <> [] /\ valid_name (List.last p "") /\
                is_dir fs (removelast p) = true) fs.

#[global] Instance wf_dec fs : Decision (wf fs).
Proof. unfold wf. apply _. Defined.

Section Paths.

(** The working directory of the process, against which relative paths
    are resolved; the program never changes it. *)
Variable cwd : list string.

(** Path resolution, one component at a time: every component is looked
    up in a directory; empty components and ["."] stay, [".."] goes to
    the parent (the root is its own parent), a name that is longer than
    [NAME_MAX] is refused, any other name goes down whether or not the
    entry exists. *)
Fixpoint walk (fs : FS) (cur : list string) (comps : list string) : errno + list string :=
  match comps with
  | [] => inr cur
  | c :: rest =>
      if is_dir fs cur then
        if (String.eqb c "" || String.eqb c ".")%bool then walk fs cur rest
        else if String.eqb c ".." then walk fs (removelast cur) rest
        else if name_too_long c then inl ENAMETOOLONG
        else walk fs (cur ++ [c]) rest
      else inl (if present fs cur then ENOTDIR else ENOENT)
  end.

(** Where the resolution of [path] starts. *)
Definition start (path : string) : list string :=
  if Py.startswith "/" path then [] else cwd.

Definition resolve (fs : FS) (path : string) : errno + list string :=
  if String.eqb path "" then inl ENOENT
  else if path_too_long path then inl ENAMETOOLONG
  else walk fs (start path) (Py.split "/" path).

(** The components of a path without the empty ones at its end. *)
Fixpoint strip_trailing (comps : list string) : list string :=
  match comps with
  | [] => []
  | c :: rest =>
      match strip_trailing rest with
      | [] => if String.eqb c "" then [] else [c]
      | r => c :: r
      end
  end.

Definition is_name (c : string) : bool :=
  negb (String.eqb c "" || String.eqb c "." || String.eqb c "..").

(** For a path that ends in a name followed by slashes, the components
    that lead to the directory of that name. *)
Definition name_with_slash (path : string) : option (list string) :=
  let comps := Py.split "/" path in
  let real := strip_trailing comps in
  if ((List.length real <? List.length comps)%nat && is_name (List.last real ""))%bool
  then Some (removelast real)
  else None.

(** [with open(path, "wb") as f: shutil.copyfileobj(src, f)]: creates or
    truncates the file and writes [content].  The file is opened with
    [O_CREAT]: when the path ends in a name followed by a slash, the
    kernel walks to the directory of that name and then refuses with
    [EISDIR], whether or not the name exists. *)
Definition open_wb (path content : string) (fs : FS) : exn + FS :=
  if Py.contains "000" path then inl ValueError_null
  else match name_with_slash path with
       | Some parent =>
           if path_too_long path then inl (OSError ENAMETOOLONG path)
           else match walk fs (start path) parent with
                | inl e => inl (OSError e path)
                | inr d =>
                    inl (OSError (if is_dir fs d then EISDIR
                                  else if present fs d then ENOTDIR
                                  else ENOENT) path)
                end
       | None =>
           match resolve fs path with
           | inl e => inl (OSError e path)
           | inr p =>
               if is_dir fs p then inl (OSError EISDIR path)
               else inr (<[p := RegFile content]> fs)
           end
       end.

(** [os.listdir(path)]. *)
Definition listdir (path : string) (fs : FS) : exn + list string :=
  if Py.contains "000" path then inl ValueError_null
  else match resolve fs path with
       | inl e => inl (OSError e path)
       | inr p =>
           if is_dir fs p then inr (children fs p)
           else inl (OSError (if present fs p then ENOTDIR else ENOENT) path)
       end.

(** [os.path.isfile(path)]: never raises. *)
Definition isfile (path : string) (fs : FS) : bool :=
  if Py.contains "000" path then false
  else match resolve fs path with
       | inl _ => false
       | inr p => is_file fs p
       end.

(** [os.path.exists(path)]: never raises. *)
Definition exists_ (path : string) (fs : FS) : bool :=
  if Py.contains "000" path then false
  else match resolve fs path with
       | inl _ => false
       | inr p => present fs p
       end.

(** [os.remove(path)]. *)
Definition remove (path : string) (fs : FS) : exn + FS :=
  if Py.contains "000" path then inl ValueError_null
  else match resolve fs path with
       | inl e => inl (OSError e path)
       | inr p =>
           if is_dir fs p then inl (OSError EISDIR path)
           else if is_file fs p then inr (delete p fs)
           else inl (OSError ENOENT path)
       end.

(** [shutil.rmtree(path)]: removes the directory and everything below it. *)
Definition rmtree (path : string) (fs : FS) : exn + FS :=
  if Py.contains "000" path then inl ValueError_null
  else match resolve fs path with
       | inl e => inl (OSError e path)
       | inr p =>
           if is_file fs p then inl (OSError ENOTDIR path)
           else if present fs p
                then inr (filter (fun kv : list string * node => ~ (p `prefix_of` kv.1)) fs)
                else inl (OSError ENOENT path)
       end.

(** [os.makedirs(path, exist_ok=True)] for a relative path of plain
    names: every missing directory on the way is created; a regular file
    in the way is an error. *)
Fixpoint mkdirs (path : string) (cur : list string) (comps : list string) (fs : FS) : exn + FS :=
  match comps with
  | [] => inr fs
  | c :: rest =>
      let p := (cur ++ [c])%list in
      if is_dir fs p then mkdirs path p rest fs
      else if is_file fs p
           then inl (OSError (match rest with [] => EEXIST | _ => ENOTDIR end) path)
           else mkdirs path p rest (<[p := Directory]> fs)
  end.

Definition makedirs (path : string) (fs : FS) : exn + FS :=
  mkdirs path cwd (Py.split "/" path) fs.

End Paths.

Arguments name_too_long : simpl never.
Arguments path_too_long : simpl never.

End Fs.

(** ** The application *)

Module App.

Definition UPLOAD_DIR : string := "data/uploads".
Definition VECTOR_STORE_NAME : string := "study_materials".

(** *** Request models *)

(** Starlette's [UploadFile]: the client-supplied file name, the declared
    content type and the bytes of the body. *)
Module UploadFile.
Record t := { filename : string; content_type : option string; file : string }.
End UploadFile.

Module QuestionRequest.
Record t := { question : string; k : Z }.
End QuestionRequest.

Module SummarizeRequest.
Record t := { topic : option string; summary_type : string; k : Z }.
End SummarizeRequest.

Module QuizRequest.
Record t := { topic : string; num_questions : Z; difficulty : string }.
End QuizRequest.

Module GradeQuizRequest.
Record t := { questions : list pydict; user_answers : list (Z * string) }.
End GradeQuizRequest.

Section WithCollaborators.

(** The objects of the collaborator modules are opaque to this layer:
    text chunks, the vector store, the two engines, and whatever private
    state the collaborators keep ([CS]). *)
Context {Chunk VectorStore RAGSystem QuizGenerator CS : Type}.

(** What a collaborator can read and change. *)
Record World := { fs : Fs.FS; cs : CS }.

(** The outcome of a call: the exception raised or the value returned,
    and the world after the call. *)
Definition Call (A : Type) : Type := World -> (exn + A) * World.

(** Everything the module imports or inherits from its process: the
    working directory, [str.lower] on strings that are not ASCII,
    Starlette's [HTTPException.__str__], and the methods of
    [src.ingestion], [src.rag] and [src.quiz_generator].
    The constructors and the store-producing methods return objects,
    never [None]; ingestion returns a list of chunks; the query and quiz
    methods return dicts, as the docstrings of the handlers describe. *)
Record Env := {
  cwd : list string;
  str_lower : string -> string;
  HTTPException_str : Z -> pyval -> string;
  DocumentIngestion_init : Call unit;
  process_documents : string -> Call (list Chunk);
  create_vector_store : list Chunk -> string -> Call VectorStore;
  add_documents_to_existing_store : list Chunk -> string -> Call unit;
  load_vector_store : string -> Call VectorStore;
  RAGSystem_init : VectorStore -> Call RAGSystem;
  QuizGenerator_init : VectorStore -> Call QuizGenerator;
  rag_ask_question : RAGSystem -> string -> Z -> Call pydict;
  rag_summarize : RAGSystem -> option string -> string -> Z -> Call pydict;
  rag_extract_definitions : RAGSystem -> string -> Call pydict;
  quiz_generate_quiz : QuizGenerator -> string -> Z -> string -> Call pydict;
  quiz_grade_quiz : QuizGenerator -> list pydict -> list (Z * string) -> Call pydict
}.

(** A collaborator call with its arguments and its outcome. *)
Inductive event :=
  | EvDocumentIngestion (res : exn + unit)
  | EvProcessDocuments (file_path : string) (res : exn + list Chunk)
  | EvCreateVectorStore (chunks : list Chunk) (name : string) (res : exn + VectorStore)
  | EvAddDocuments (chunks : list Chunk) (name : string) (res : exn + unit)
  | EvLoadVectorStore (name : string) (res : exn + VectorStore)
  | EvRAGSystem (store : VectorStore) (res : exn + RAGSystem)
  | EvQuizGenerator (store : VectorStore) (res : exn + QuizGenerator)
  | EvAskQuestion (rag : RAGSystem) (question : string) (k : Z) (res : exn + pydict)
  | EvSummarize (rag : RAGSystem) (query : option string) (summary_type : string) (k : Z)
                (res : exn + pydict)
  | EvExtractDefinitions (rag : RAGSystem) (query : string) (res : exn + pydict)
  | EvGenerateQuiz (quiz : QuizGenerator) (topic : string) (num_questions : Z)
                   (difficulty : string) (res : exn + pydict)
  | EvGradeQuiz (quiz : QuizGenerator) (questions : list pydict)
                (user_answers : list (Z * string)) (res : exn + pydict).

Definition raised_of {A} (res : exn + A) : option exn :=
  match res with inl e => Some e | inr _ => None end.

(** The exception a recorded call raised, if it raised. *)
Definition raised (ev : event) : option exn :=
  match ev with
  | EvDocumentIngestion r => raised_of r
  | EvProcessDocuments _ r => raised_of r
  | EvCreateVectorStore _ _ r => raised_of r
  | EvAddDocuments _ _ r => raised_of r
  | EvLoadVectorStore _ r => raised_of r
  | EvRAGSystem _ r => raised_of r
  | EvQuizGenerator _ r => raised_of r
  | EvAskQuestion _ _ _ r => raised_of r
  | EvSummarize _ _ _ _ r => raised_of r
  | EvExtractDefinitions _ _ r => raised_of r
  | EvGenerateQuiz _ _ _ _ r => raised_of r
  | EvGradeQuiz _ _ _ r => raised_of r
  end.

(** The process state: the three module globals, the world, and the
    ghost trace of collaborator calls. *)
Record State := {
  vector_store : option VectorStore;
  rag_system : option RAGSystem;
  quiz_generator : option QuizGenerator;
  world : World;
  trace : list event
}.

(** The session state: the three globals. *)
Definition session (st : State)
  : option VectorStore * option RAGSystem * option QuizGenerator :=
  (vector_store st, rag_system st, quiz_generator st).

Definition uninitialized (st : State) : Prop :=
  vector_store st = None /\ rag_system st = None /\ quiz_generator st = None.

Definition initialized (st : State) : Prop :=
  vector_store st <> None /\ rag_system st <> None /\ quiz_generator st <> None.

(** The index calls of a successful upload that ends with store [v]: the
    index is created when none is active, and otherwise extended and then
    loaded again. *)
Definition index_events (active : option VectorStore) (chunks : list Chunk)
    (v : VectorStore) : list event :=
  match active with
  | None => [EvCreateVectorStore chunks VECTOR_STORE_NAME (inr v)]
  | Some _ => [EvAddDocuments chunks VECTOR_STORE_NAME (inr tt);
               EvLoadVectorStore VECTOR_STORE_NAME (inr v)]
  end.

(** The index call that an upload makes right after ingestion returned
    [chunks]: [create_vector_store] when no index is active, and
    otherwise [add_documents_to_existing_store], followed by
    [load_vector_store] when the extension went through. *)
Definition index_call_follows (active : option VectorStore) (chunks : list Chunk)
    (calls : list event) : Prop :=
  match active with
  | None =>
      exists res, calls !! 1%nat = Some (EvCreateVectorStore chunks VECTOR_STORE_NAME res)
  | Some _ =>
      exists res,
        calls !! 1%nat = Some (EvAddDocuments chunks VECTOR_STORE_NAME res) /\
        (res = inr tt ->
         exists res', calls !! 2%nat = Some (EvLoadVectorStore VECTOR_STORE_NAME res'))
  end.

(** The collaborator calls made between two states of a run. *)
Definition new_events (st st' : State) : list event :=
  drop (List.length (trace st)) (trace st').

(** *** The monad of handlers *)

Definition M (A : Type) : Type := State -> (exn + A) * State.

Definition ret {A} (x : A) : M A := fun st => (inr x, st).

Definition raise {A} (e : exn) : M A := fun st => (inl e, st).

Definition bind {A B} (m : M A) (f : A -> M B) : M B :=
  fun st => match m st with
            | (inr x, st') => f x st'
            | (inl e, st') => (inl e, st')
            end.

(** [try: m except ... as e: h e]; the state changes made by [m] before
    it raised stay. *)
Definition try_except {A} (m : M A) (h : exn -> M A) : M A :=
  fun st => match m st with
            | (inl e, st') => h e st'
            | r => r
            end.

Definition gets {A} (f : State -> A) : M A := fun st => (inr (f st), st).

Definition lift {A} (r : exn + A) : M A := fun st => (r, st).

Definition set_vector_store (v : option VectorStore) : M unit :=
  fun st => (inr tt, {| vector_store := v; rag_system := rag_system st;
                        quiz_generator := quiz_generator st;
                        world := world st; trace := trace st |}).

Definition set_rag_system (r : option RAGSystem) : M unit :=
  fun st => (inr tt, {| vector_store := vector_store st; rag_system := r;
                        quiz_generator := quiz_generator st;
                        world := world st; trace := trace st |}).

Definition set_quiz_generator (q : option QuizGenerator) : M unit :=
  fun st => (inr tt, {| vector_store := vector_store st; rag_system := rag_system st;
                        quiz_generator := q;
                        world := world st; trace := trace st |}).

Definition with_world (w : World) (evs : list event) (st : State) : State :=
  {| vector_store := vector_store st; rag_system := rag_system st;
     quiz_generator := quiz_generator st;
     world := w; trace := (trace st ++ evs)%list |}.

Definition set_fs (fs' : Fs.FS) (st : State) : State :=
  {| vector_store := vector_store st; rag_system := rag_system st;
     quiz_generator := quiz_generator st;
     world := {| fs := fs'; cs := cs (world st) |}; trace := trace st |}.

(** A collaborator call: run it on the current world and record it. *)
Definition call {A} (ev : exn + A -> event) (c : Call A) : M A :=
  fun st => match c (world st) with
            | (r, w) => (r, with_world w [ev r] st)
            end.

(** An [os] function that reads the file system. *)
Definition os_read {A} (f : Fs.FS -> exn + A) : M A :=
  fun st => (f (fs (world st)), st).

(** An [os] function that changes the file system. *)
Definition os_update (f : Fs.FS -> exn + Fs.FS) : M unit :=
  fun st => match f (fs (world st)) with
            | inl e => (inl e, st)
            | inr fs' => (inr tt, set_fs fs' st)
            end.

Fixpoint for_each {A} (l : list A) (body : A -> M unit) : M unit :=
  match l with
  | [] => ret tt
  | x :: l' => bind (body x) (fun _ => for_each l' body)
  end.

Notation "x <- m ;; k" := (bind m (fun x => k))
  (at level 62, m at next level, right associativity).
Notation "m1 ;;; m2" := (bind m1 (fun _ => m2))
  (at level 62, right associativity).

(** *** The handlers *)

Variable E : Env.

(** [str(e)] as the handlers format it into a detail string. *)
Definition str (e : exn) : string :=
  match e with
  | HTTPException s d => HTTPException_str E s d
  | Exception msg => msg
  | BaseException msg => msg
  end.

(** Where [UPLOAD_DIR] and the persisted index resolve to. *)
Definition upload_dir : list string := (cwd E ++ ["data"; "uploads"])%list.

Definition vector_store_dir : list string :=
  (cwd E ++ ["data"; "vector_store"; "study_materials"])%list.

(** Two file systems that agree on the upload directory: on the
    directories that lead to it and on each of its entries. *)
Definition same_uploads (fs1 fs2 : Fs.FS) : Prop :=
  Fs.is_dir fs2 (cwd E) = Fs.is_dir fs1 (cwd E) /\
  Fs.is_dir fs2 (cwd E ++ ["data"]) = Fs.is_dir fs1 (cwd E ++ ["data"]) /\
  Fs.is_dir fs2 upload_dir = Fs.is_dir fs1 upload_dir /\
  forall n, fs2 !! (upload_dir ++ [n])%list = fs1 !! (upload_dir ++ [n])%list.

Definition leaves_uploads_alone {A} (c : Call A) : Prop :=
  forall w, same_uploads (fs w) (fs (c w).2).

(** The collaborators that an upload calls keep out of the upload
    directory. *)
Definition ingestion_leaves_uploads_alone : Prop :=
  (forall p, leaves_uploads_alone (process_documents E p)) /\
  (forall chunks name, leaves_uploads_alone (create_vector_store E chunks name)) /\
  (forall chunks name,
     leaves_uploads_alone (add_documents_to_existing_store E chunks name)) /\
  (forall name, leaves_uploads_alone (load_vector_store E name)) /\
  (forall v, leaves_uploads_alone (RAGSystem_init E v)) /\
  (forall v, leaves_uploads_alone (QuizGenerator_init E v)).

(** A computation that leaves the upload directory as it found it. *)
Definition keeps_uploads {A} (m : M A) : Prop :=
  forall st, same_uploads (fs (world st)) (fs (world (m st).2)).

(** [except Exception as e: h e]: exceptions outside [Exception] pass. *)
Definition except_Exception {A} (h : exn -> M A) (e : exn) : M A :=
  if is_Exception e then h e else raise e.

(** [except HTTPException: raise] followed by [except Exception as e: h e]. *)
Definition except_HTTPException_raise {A} (h : exn -> M A) (e : exn) : M A :=
  if is_HTTPException e then raise e else except_Exception h e.

Definition no_documents : pyval :=
  PStr "No documents uploaded yet. Please upload documents first.".

Definition unsupported_file_type (file_extension : string) : pyval :=
  PStr ("Unsupported file type: " ++ file_extension ++
        ". Only .pdf and .txt are supported.").

Definition extraction_failed : pyval :=
  PStr "Failed to extract content from document".

(** The module body: the ingestion object is built, the globals start as
    [None], the upload directory is created if it is missing. *)
Definition blank (w : World) : State :=
  {| vector_store := None; rag_system := None; quiz_generator := None;
     world := w; trace := [] |}.

Definition module_init : M unit :=
  call EvDocumentIngestion (DocumentIngestion_init E) ;;;
  os_update (Fs.makedirs (cwd E) UPLOAD_DIR).

(** [GET /] *)
Definition root : M pyval :=
  vs <- gets vector_store ;;
  ret (PDict [
    ("message", PStr "AI Study Assistant API - Powered by Ollama");
    ("status", PStr "running");
    ("documents_loaded", PBool (bool_decide (vs <> None)));
    ("ollama_url", PStr "http://localhost:11434");
    ("endpoints", PDict [
       ("upload", PStr "/upload");
       ("ask", PStr "/ask");
       ("summarize", PStr "/summarize");
       ("definitions", PStr "/definitions");
       ("quiz_generate", PStr "/quiz/generate");
       ("quiz_grade", PStr "/quiz/grade");
       ("documents", PStr "/documents")])]).

(** [file_extension = Path(file.filename).suffix.lower()] *)
Definition file_extension (filename : string) : string :=
  Py.lower (str_lower E) (Py.suffix filename).

Definition supported (file_extension : string) : bool :=
  bool_decide (file_extension ∈ [".pdf"; ".txt"]).

(** Lines 114-118: the upload is written under the upload directory. *)
Definition save_upload (file : UploadFile.t) : M string :=
  let file_path := Py.path_join UPLOAD_DIR (UploadFile.filename file) in
  os_update (Fs.open_wb (cwd E) file_path (UploadFile.file file)) ;;;
  ret file_path.

(** Lines 133-146: create the index, or extend it and load it again. *)
Definition create_or_update (chunks : list Chunk) : M VectorStore :=
  try_except
    (vs <- gets vector_store ;;
     match vs with
     | None =>
         v <- call (EvCreateVectorStore chunks VECTOR_STORE_NAME)
                   (create_vector_store E chunks VECTOR_STORE_NAME) ;;
         set_vector_store (Some v) ;;;
         ret v
     | Some _ =>
         call (EvAddDocuments chunks VECTOR_STORE_NAME)
              (add_documents_to_existing_store E chunks VECTOR_STORE_NAME) ;;;
         v <- call (EvLoadVectorStore VECTOR_STORE_NAME)
                   (load_vector_store E VECTOR_STORE_NAME) ;;
         set_vector_store (Some v) ;;;
         ret v
     end)
    (except_Exception (fun e =>
       raise (HTTPException 500
                (PStr ("Failed to create/update vector store: " ++ str e))))).

(** Lines 124-161: everything after the file is on disk. *)
Definition process_upload (file : UploadFile.t) (file_path : string) : M pyval :=
  chunks <- call (EvProcessDocuments file_path) (process_documents E file_path) ;;
  match chunks with
  | [] => raise (HTTPException 500 extraction_failed)
  | _ =>
      v <- create_or_update chunks ;;
      r <- call (EvRAGSystem v) (RAGSystem_init E v) ;;
      set_rag_system (Some r) ;;;
      q <- call (EvQuizGenerator v) (QuizGenerator_init E v) ;;
      set_quiz_generator (Some q) ;;;
      ret (PDict [
        ("message", PStr "Document uploaded and processed successfully");
        ("filename", PStr (UploadFile.filename file));
        ("chunks_created", PInt (Z.of_nat (List.length chunks)));
        ("status", PStr "success")])
  end.

(** [POST /upload] *)
Definition upload_document (file : UploadFile.t) : M pyval :=
  try_except
    (let ext := file_extension (UploadFile.filename file) in
     if supported ext then
       file_path <- save_upload file ;;
       process_upload file file_path
     else raise (HTTPException 400 (unsupported_file_type ext)))
    (except_HTTPException_raise (fun e =>
       raise (HTTPException 500 (PStr ("Upload failed: " ++ str e))))).

(** [POST /ask] *)
Definition ask_question (request : QuestionRequest.t) : M pyval :=
  rs <- gets rag_system ;;
  match rs with
  | None => raise (HTTPException 400 no_documents)
  | Some rag =>
      try_except
        (let question := QuestionRequest.question request in
         let k := QuestionRequest.k request in
         result <- call (EvAskQuestion rag question k)
                        (rag_ask_question E rag question k) ;;
         sources <- lift (py_getitem result "sources") ;;
         lift (py_len sources) ;;;
         ret (PDict result))
        (except_Exception (fun e =>
           raise (HTTPException 500 (PStr ("Question answering failed: " ++ str e)))))
  end.

(** [POST /summarize] *)
Definition summarize (request : SummarizeRequest.t) : M pyval :=
  rs <- gets rag_system ;;
  match rs with
  | None => raise (HTTPException 400 no_documents)
  | Some rag =>
      try_except
        (let query := SummarizeRequest.topic request in
         let summary_type := SummarizeRequest.summary_type request in
         let k := SummarizeRequest.k request in
         result <- call (EvSummarize rag query summary_type k)
                        (rag_summarize E rag query summary_type k) ;;
         sources <- lift (py_getitem result "sources") ;;
         lift (py_len sources) ;;;
         ret (PDict result))
        (except_Exception (fun e =>
           raise (HTTPException 500 (PStr ("Summarization failed: " ++ str e)))))
  end.

(** [POST /definitions]; the query parameter defaults to
    ["definitions terms concepts"]. *)
Definition get_definitions (topic : string) : M pyval :=
  rs <- gets rag_system ;;
  match rs with
  | None => raise (HTTPException 400 no_documents)
  | Some rag =>
      try_except
        (result <- call (EvExtractDefinitions rag topic)
                        (rag_extract_definitions E rag topic) ;;
         sources <- lift (py_getitem result "sources") ;;
         lift (py_len sources) ;;;
         ret (PDict result))
        (except_Exception (fun e =>
           raise (HTTPException 500 (PStr ("Definition extraction failed: " ++ str e)))))
  end.

(** [POST /quiz/generate] *)
Definition generate_quiz (request : QuizRequest.t) : M pyval :=
  qg <- gets quiz_generator ;;
  match qg with
  | None => raise (HTTPException 400 no_documents)
  | Some gen =>
      try_except
        (let topic := QuizRequest.topic request in
         let num_questions := QuizRequest.num_questions request in
         let difficulty := QuizRequest.difficulty request in
         quiz <- call (EvGenerateQuiz gen topic num_questions difficulty)
                      (quiz_generate_quiz E gen topic num_questions difficulty) ;;
         match dict_get quiz "error" with
         | Some detail => raise (HTTPException_500 detail)
         | None =>
             lift (py_len (default (PList []) (dict_get quiz "questions"))) ;;;
             ret (PDict quiz)
         end)
        (except_HTTPException_raise (fun e =>
           raise (HTTPException 500 (PStr ("Quiz generation failed: " ++ str e)))))
  end.

(** [POST /quiz/grade] *)
Definition grade_quiz (request : GradeQuizRequest.t) : M pyval :=
  qg <- gets quiz_generator ;;
  match qg with
  | None => raise (HTTPException 400 no_documents)
  | Some gen =>
      try_except
        (let questions := GradeQuizRequest.questions request in
         let user_answers := GradeQuizRequest.user_answers request in
         results <- call (EvGradeQuiz gen questions user_answers)
                         (quiz_grade_quiz E gen questions user_answers) ;;
         lift (py_getitem results "score") ;;;
         ret (PDict results))
        (except_Exception (fun e =>
           raise (HTTPException 500 (PStr ("Quiz grading failed: " ++ str e)))))
  end.

(** The regular files among the entries of the upload directory. *)
Definition uploaded_files : M (list string) :=
  names <- os_read (Fs.listdir (cwd E) UPLOAD_DIR) ;;
  fs <- gets (fun st => fs (world st)) ;;
  ret (List.filter (fun f => Fs.isfile (cwd E) (Py.path_join UPLOAD_DIR f) fs) names).

(** [GET /documents] *)
Definition list_documents : M pyval :=
  try_except
    (files <- uploaded_files ;;
     ret (PDict [("documents", PList (List.map PStr files));
                 ("count", PInt (Z.of_nat (List.length files)))]))
    (except_Exception (fun e =>
       raise (HTTPException 500 (PStr ("Failed to list documents: " ++ str e))))).

(** The body of the loop of [reset_system] for one directory entry. *)
Definition remove_if_file (file : string) : M unit :=
  let file_path := Py.path_join UPLOAD_DIR file in
  is_file <- gets (fun st => Fs.isfile (cwd E) file_path (fs (world st))) ;;
  if is_file : bool then os_update (Fs.remove (cwd E) file_path) else ret tt.

(** [DELETE /reset] *)
Definition reset_system : M pyval :=
  try_except
    (names <- os_read (Fs.listdir (cwd E) UPLOAD_DIR) ;;
     for_each names remove_if_file ;;;
     let vector_store_path := Py.path_join "data/vector_store" VECTOR_STORE_NAME in
     there <- gets (fun st => Fs.exists_ (cwd E) vector_store_path (fs (world st))) ;;
     (if there : bool then os_update (Fs.rmtree (cwd E) vector_store_path) else ret tt) ;;;
     set_vector_store None ;;;
     set_rag_system None ;;;
     set_quiz_generator None ;;;
     ret (PDict [("message", PStr "System reset successfully");
                 ("status", PStr "success")]))
    (except_Exception (fun e =>
       raise (HTTPException 500 (PStr ("Reset failed: " ++ str e))))).

(** *** The route table *)

Inductive request :=
  | GET_root
  | POST_upload (file : UploadFile.t)
  | POST_ask (body : QuestionRequest.t)
  | POST_summarize (body : SummarizeRequest.t)
  | POST_definitions (topic : option string)
  | POST_quiz_generate (body : QuizRequest.t)
  | POST_quiz_grade (body : GradeQuizRequest.t)
  | GET_documents
  | DELETE_reset.

Definition handle (req : request) : M pyval :=
  match req with
  | GET_root => root
  | POST_upload file => upload_document file
  | POST_ask body => ask_question body
  | POST_summarize body => summarize body
  | POST_definitions topic =>
      get_definitions (default "definitions terms concepts" topic)
  | POST_quiz_generate body => generate_quiz body
  | POST_quiz_grade body => grade_quiz body
  | GET_documents => list_documents
  | DELETE_reset => reset_system
  end.

(** The process serves requests one after the other. *)
Definition is_upload (req : request) : bool :=
  match req with POST_upload _ => true | _ => false end.

Fixpoint serve (reqs : list request) (st : State) : State :=
  match reqs with
  | [] => st
  | req :: reqs' => serve reqs' (handle req st).2
  end.

(** The requests of a run, each with its response. *)
Fixpoint responses (reqs : list request) (st : State)
  : list (request * (exn + pyval)) :=
  match reqs with
  | [] => []
  | req :: reqs' => (req, (handle req st).1) :: responses reqs' (handle req st).2
  end.

(** An upload that was answered with its success body. *)
Definition upload_succeeded (x : request * (exn + pyval)) : bool :=
  match x with
  | (POST_upload _, inr _) => true
  | _ => false
  end.

(** No upload of the run went through. *)
Definition no_successful_upload (reqs : list request) (st : State) : bool :=
  forallb (fun x => negb (upload_succeeded x)) (responses reqs st).

(** A call of the constructor of the RAG engine that returned. *)
Definition rag_built (ev : event) : bool :=
  match ev with EvRAGSystem _ (inr _) => true | _ => false end.

(** No upload of the run got as far as building the RAG engine. *)
Definition no_rag_built (reqs : list request) (st : State) : bool :=
  forallb (fun ev => negb (rag_built ev)) (new_events st (serve reqs st)).

(** The four endpoints that answer from the documents. *)
Definition is_query (req : request) : bool :=
  match req with
  | POST_ask _ | POST_summarize _ | POST_definitions _ | POST_quiz_generate _ => true
  | _ => false
  end.

(** *** Statements that the handlers do not meet as they stand *)

(** "After a successful reset the upload directory has no entries and the
    session is cleared." *)
Definition reset_empties_upload_dir (st : State) : Prop :=
  forall body st',
    reset_system st = (inr body, st') ->
    Fs.listdir (cwd E) UPLOAD_DIR (fs (world st')) = inr [] /\ uninitialized st'.

(** "As long as no upload has succeeded since the start or the last
    reset, the four query endpoints answer with the 400 that asks for an
    upload, and leave the state, hence the trace, as it is." *)
Definition queries_need_successful_upload (reqs : list request) (st0 : State) : Prop :=
  uninitialized st0 ->
  no_successful_upload reqs st0 = true ->
  forall req,
    is_query req = true ->
    handle req (serve reqs st0) =
      (inl (HTTPException 400 no_documents), serve reqs st0).

(** "On every upload the index is built when none is active and extended
    otherwise, and in both cases the session is then loaded again from
    the persisted index." *)
Definition upload_reloads_index (file : UploadFile.t) (st : State) : Prop :=
  let calls := new_events st (upload_document file st).2 in
  match vector_store st with
  | None => exists chunks res, EvCreateVectorStore chunks VECTOR_STORE_NAME res ∈ calls
  | Some _ => exists chunks res, EvAddDocuments chunks VECTOR_STORE_NAME res ∈ calls
  end /\
  exists v,
    EvLoadVectorStore VECTOR_STORE_NAME (inr v) ∈ calls /\
    vector_store (upload_document file st).2 = Some v.

(** "An upload over a stored file of the same name succeeds, and the
    file then holds the new contents." *)
Definition reupload_succeeds (file : UploadFile.t) (st : State) : Prop :=
  let entry := (upload_dir ++ [UploadFile.filename file])%list in
  (exists old, fs (world st) !! entry = Some (Fs.RegFile old)) ->
  supported (file_extension (UploadFile.filename file)) = true ->
  exists body,
    (upload_document file st).1 = inr body /\
    fs (world (upload_document file st).2) !! entry =
      Some (Fs.RegFile (UploadFile.file file)).

(** "Whatever a collaborator raises during a request, the response is a
    500 whose detail ends with the message of the exception." *)
Definition collaborator_exceptions_become_500 (req : request) (st : State) : Prop :=
  forall ev e,
    ev ∈ new_events st (handle req st).2 ->
    raised ev = Some e ->
    exists prefix,
      (handle req st).1 = inl (HTTPException 500 (PStr (prefix ++ str e))).

(** *** Reading the trace *)

(** The calls that only an upload makes. *)
Definition upload_event (ev : event) : bool :=
  match ev with
  | EvProcessDocuments _ _ | EvCreateVectorStore _ _ _ | EvAddDocuments _ _ _
  | EvLoadVectorStore _ _ | EvRAGSystem _ _ | EvQuizGenerator _ _ => true
  | _ => false
  end.

(** The calls of the index step of an upload. *)
Definition index_event (ev : event) : bool :=
  match ev with
  | EvCreateVectorStore _ _ _ | EvAddDocuments _ _ _ | EvLoadVectorStore _ _ => true
  | _ => false
  end.

(** The calls that sit under [except HTTPException: raise], with no
    [except Exception] of their own in between: those of /upload outside
    the index step, and the one of /quiz/generate. *)
Definition under_http_reraise (ev : event) : bool :=
  match ev with
  | EvProcessDocuments _ _ | EvRAGSystem _ _ | EvQuizGenerator _ _
  | EvGenerateQuiz _ _ _ _ _ => true
  | _ => false
  end.

(** The dict that a call to the RAG engine returned. *)
Definition answered (ev : event) : option pydict :=
  match ev with
  | EvAskQuestion _ _ _ (inr d) => Some d
  | EvSummarize _ _ _ _ (inr d) => Some d
  | EvExtractDefinitions _ _ (inr d) => Some d
  | _ => None
  end.

(** The dict that [generate_quiz] of the quiz engine returned. *)
Definition quiz_generated (ev : event) : option pydict :=
  match ev with
  | EvGenerateQuiz _ _ _ _ (inr d) => Some d
  | _ => None
  end.

(** The dict that [grade_quiz] of the quiz engine returned. *)
Definition quiz_graded (ev : event) : option pydict :=
  match ev with
  | EvGradeQuiz _ _ _ (inr d) => Some d
  | _ => None
  end.

(** [len(result['sources'])], which the query handlers evaluate before
    they return. *)
Definition sources_len (result : pydict) : exn + Z :=
  match py_getitem result "sources" with
  | inl e => inl e
  | inr sources => py_len sources
  end.

(** [len(quiz.get('questions', []))] *)
Definition questions_len (quiz : pydict) : exn + Z :=
  py_len (default (PList []) (dict_get quiz "questions")).

(** The body of a successful upload. *)
Definition upload_success_body (filename : string) (chunks_created : nat) : pyval :=
  PDict [("message", PStr "Document uploaded and processed successfully");
         ("filename", PStr filename);
         ("chunks_created", PInt (Z.of_nat chunks_created));
         ("status", PStr "success")].

(** The body of GET /documents for the listed names. *)
Definition documents_body (files : list string) : pyval :=
  PDict [("documents", PList (List.map PStr files));
         ("count", PInt (Z.of_nat (List.length files)))].

(** The module is imported on [w]: the state in which the first request
    is served, or the exception that ends the start-up. *)
Definition start (w : World) : (exn + unit) * State := module_init (blank w).

End WithCollaborators.

Arguments World : clear implicits.
Arguments Env : clear implicits.
Arguments event : clear implicits.
Arguments State : clear implicits.

End App.

(** ** A concrete deployment, for running the handlers *)

Module Demo.

Import App.

(** The process runs in [/srv/app]; [data/uploads] exists and holds one
    earlier upload. *)
Definition cwd : list string := ["srv"; "app"].

Definition data : list string := ["srv"; "app"; "data"].
Definition uploads : list string := ["srv"; "app"; "data"; "uploads"].

Definition fs0 : Fs.FS :=
  <[ [ "srv" ] := Fs.Directory ]>
  (<[ cwd := Fs.Directory ]>
  (<[ data := Fs.Directory ]>
  (<[ uploads := Fs.Directory ]> ∅))).

Definition fs1 : Fs.FS :=
  <[ (uploads ++ ["notes.txt"])%list := Fs.RegFile "old notes" ]> fs0.

(** An upload directory that also holds a subdirectory. *)
Definition fs2 : Fs.FS :=
  <[ (uploads ++ ["archive"])%list := Fs.Directory ]> fs1.

(** Starlette's [HTTPException.__str__], the status code and the detail
    with a colon in between, for the details that the collaborators of
    this deployment use: strings, numbers, booleans and [None]. *)
Definition http_str (status_code : Z) (detail : pyval) : string :=
  pretty status_code ++ ": " ++
  match detail with
  | PStr s => s
  | PInt z => pretty z
  | PBool b => if b then "True" else "False"
  | PNone => "None"
  | PList _ => "[]"
  | PDict _ => "{}"
  end.

(** Collaborators that do not touch the world.  Ingestion returns
    [chunks]; the store is identified by the number of its chunks, an
    engine by its store; a query echoes an empty source list.  The file
    names of this deployment are ASCII. *)
Definition env (chunks : exn + list string) (answer : exn + pydict)
  : Env string nat nat nat unit :=
  {| App.cwd := cwd;
     str_lower := Py.ascii_lower;
     HTTPException_str := http_str;
     DocumentIngestion_init := fun w => (inr tt, w);
     process_documents := fun _ w => (chunks, w);
     create_vector_store := fun cs _ w => (inr (List.length cs), w);
     add_documents_to_existing_store := fun _ _ w => (inr tt, w);
     load_vector_store := fun _ w => (inr 7%nat, w);
     RAGSystem_init := fun v w => (inr v, w);
     QuizGenerator_init := fun v w => (inr v, w);
     rag_ask_question := fun _ _ _ w => (answer, w);
     rag_summarize := fun _ _ _ _ w => (answer, w);
     rag_extract_definitions := fun _ _ w => (answer, w);
     quiz_generate_quiz := fun _ _ _ _ w => (answer, w);
     quiz_grade_quiz := fun _ _ _ w => (answer, w) |}.

Definition ok_env := env (inr ["chunk one"; "chunk two"]) (inr [("sources", PList [])]).

(** Ingestion that extracts nothing. *)
Definition no_chunks_env := env (inr []) (inr [("sources", PList [])]).

(** Collaborators whose ingestion and queries raise [e]. *)
Definition raising_env (e : exn) := env (inl e) (inl e).

Definition state0 (fs : Fs.FS) : State string nat nat nat unit :=
  blank {| App.fs := fs; cs := tt |}.

(** The state after an earlier upload of two chunks. *)
Definition loaded (fs : Fs.FS) : State string nat nat nat unit :=
  {| vector_store := Some 2%nat; rag_system := Some 2%nat;
     quiz_generator := Some 2%nat;
     world := {| App.fs := fs; cs := tt |}; trace := [] |}.

Definition upload (name body : string) : UploadFile.t :=
  {| UploadFile.filename := name;
     UploadFile.content_type := None;
     UploadFile.file := body |}.

Definition question : QuestionRequest.t :=
  {| QuestionRequest.question := "What is a chunk?"; QuestionRequest.k := 5 |}.

(** A process directory in which [data/] does not exist yet. *)
Definition fs_bare : Fs.FS :=
  <[ [ "srv" ] := Fs.Directory ]> (<[ cwd := Fs.Directory ]> ∅).

(** An upload directory in which [notes.txt] is a directory. *)
Definition fs3 : Fs.FS :=
  <[ (uploads ++ ["notes.txt"])%list := Fs.Directory ]> fs0.

(** A persisted index next to one stored upload. *)
Definition fs4 : Fs.FS :=
  <[ (data ++ ["vector_store"; "study_materials"; "index.faiss"])%list
       := Fs.RegFile "index" ]>
  (<[ (data ++ ["vector_store"; "study_materials"])%list := Fs.Directory ]>
  (<[ (data ++ ["vector_store"])%list := Fs.Directory ]> fs1)).

Definition fail {A} (e : option exn) (x : A) : exn + A :=
  match e with Some e => inl e | None => inr x end.

(** Collaborators as in [ok_env], except that building the index, the
    RAG engine or the quiz engine raises the given exception. *)
Definition faulty_env (index rag quiz : option exn) (answer : pydict)
  : Env string nat nat nat unit :=
  {| App.cwd := cwd;
     str_lower := Py.ascii_lower;
     HTTPException_str := http_str;
     DocumentIngestion_init := fun w => (inr tt, w);
     process_documents := fun _ w => (inr ["chunk one"; "chunk two"], w);
     create_vector_store := fun cs _ w => (fail index (List.length cs), w);
     add_documents_to_existing_store := fun _ _ w => (fail index tt, w);
     load_vector_store := fun _ w => (inr 7%nat, w);
     RAGSystem_init := fun v w => (fail rag v, w);
     QuizGenerator_init := fun v w => (fail quiz v, w);
     rag_ask_question := fun _ _ _ w => (inr answer, w);
     rag_summarize := fun _ _ _ _ w => (inr answer, w);
     rag_extract_definitions := fun _ _ w => (inr answer, w);
     quiz_generate_quiz := fun _ _ _ _ w => (inr answer, w);
     quiz_grade_quiz := fun _ _ _ w => (inr answer, w) |}.

(** Collaborators whose engines answer with [answer]. *)
Definition answering_env (answer : pydict) := faulty_env None None None answer.

Definition summary : SummarizeRequest.t :=
  {| SummarizeRequest.topic := Some "chunks";
     SummarizeRequest.summary_type := "bullets";
     SummarizeRequest.k := 10 |}.

Definition quiz : QuizRequest.t :=
  {| QuizRequest.topic := "chunks"; QuizRequest.num_questions := 3;
     QuizRequest.difficulty := "easy" |}.

(** A plain name of 256 bytes, one more than [NAME_MAX]. *)
Definition long_name : string :=
  string_of_list_ascii (List.repeat "a"%char 252) ++ ".txt".

Definition grading : GradeQuizRequest.t :=
  {| GradeQuizRequest.questions := [[("correct_answer", PStr "A")]];
     GradeQuizRequest.user_answers := [(0, "A")] |}.

End Demo.

(** * Properties of the file system *)

Section FsFacts.

Variable cwd : list string.
Implicit Types fs : Fs.FS.

Lemma is_dir_mono fs fs' q :
  fs' ⊆ fs -> Fs.is_dir fs' q = true -> Fs.is_dir fs q = true.
Proof.
  unfold Fs.is_dir. destruct q as [|c q]; [done|]. intros Hsub.
  destruct (fs' !! (c :: q)) as [nd|] eqn:Hq; [|done].
  by rewrite (lookup_weaken _ _ _ _ Hq Hsub).
Qed.

Lemma is_file_mono fs fs' q :
  fs' ⊆ fs -> Fs.is_file fs' q = true -> Fs.is_file fs q = true.
Proof.
  unfold Fs.is_file. intros Hsub.
  destruct (fs' !! q) as [nd|] eqn:Hq; [|done].
  by rewrite (lookup_weaken _ _ _ _ Hq Hsub).
Qed.

(** Resolution succeeds on a larger file system with the same result. *)
Lemma walk_mono fs fs' comps :
  fs' ⊆ fs ->
  forall cur p, Fs.walk fs' cur comps = inr p -> Fs.walk fs cur comps = inr p.
Proof.
  intros Hsub. induction comps as [|c comps IH]; intros cur p; simpl; [done|].
  destruct (Fs.is_dir fs' cur) eqn:Hd; [|done].
  rewrite (is_dir_mono _ _ _ Hsub Hd).
  repeat case_match; auto.
Qed.

Lemma resolve_mono fs fs' path p :
  fs' ⊆ fs -> Fs.resolve cwd fs' path = inr p -> Fs.resolve cwd fs path = inr p.
Proof.
  unfold Fs.resolve. intros Hsub. repeat case_match; try done. by apply walk_mono.
Qed.

(** Deleting entries never turns a path into a regular file. *)
Lemma isfile_mono fs fs' path :
  fs' ⊆ fs -> Fs.isfile cwd path fs' = true -> Fs.isfile cwd path fs = true.
Proof.
  unfold Fs.isfile. intros Hsub. case_match; [done|].
  destruct (Fs.resolve cwd fs' path) as [e|p] eqn:Hres; [done|].
  rewrite (resolve_mono _ _ _ _ Hsub Hres). by apply is_file_mono.
Qed.

Lemma remove_inv path fs fs' :
  Fs.remove cwd path fs = inr fs' ->
  exists p, Fs.resolve cwd fs path = inr p /\ Fs.is_file fs p = true /\
            fs' = delete p fs.
Proof.
  unfold Fs.remove. repeat case_match; intros; simplify_eq. eauto.
Qed.

Lemma remove_subseteq path fs fs' :
  Fs.remove cwd path fs = inr fs' -> fs' ⊆ fs.
Proof. intros (p & _ & _ & ->)%remove_inv. apply delete_subseteq. Qed.

Lemma remove_is_dir path fs fs' q :
  Fs.remove cwd path fs = inr fs' -> Fs.is_dir fs' q = Fs.is_dir fs q.
Proof.
  intros (p & _ & Hfile & ->)%remove_inv. unfold Fs.is_dir, Fs.is_file in *.
  destruct q as [|c q]; [done|].
  destruct (decide (p = c :: q)) as [->|Hne].
  - rewrite lookup_delete_eq. by destruct (fs !! (c :: q)) as [[]|].
  - by rewrite lookup_delete_ne.
Qed.

Lemma isfile_after_remove path fs fs' :
  Fs.remove cwd path fs = inr fs' -> Fs.isfile cwd path fs' = false.
Proof.
  intros Hrm. pose proof (remove_subseteq _ _ _ Hrm) as Hsub.
  destruct (remove_inv _ _ _ Hrm) as (p & Hres & _ & ->).
  unfold Fs.isfile. case_match; [done|].
  destruct (Fs.resolve cwd (delete p fs) path) as [e|p'] eqn:Hres'; [done|].
  apply (resolve_mono _ _ _ _ Hsub) in Hres'. rewrite Hres in Hres'.
  simplify_eq. unfold Fs.is_file. by rewrite lookup_delete_eq.
Qed.

Lemma rmtree_inv path fs fs' :
  Fs.rmtree cwd path fs = inr fs' ->
  exists p, Fs.resolve cwd fs path = inr p /\
            fs' = filter (fun kv : list string * Fs.node => ~ (p `prefix_of` kv.1)) fs.
Proof.
  unfold Fs.rmtree. repeat case_match; intros; simplify_eq. eauto.
Qed.

Lemma rmtree_subseteq path fs fs' :
  Fs.rmtree cwd path fs = inr fs' -> fs' ⊆ fs.
Proof. intros (p & _ & ->)%rmtree_inv. apply map_filter_subseteq. Qed.

(** The names listed in a directory after deletions were listed before. *)
Lemma elem_of_children fs d n :
  n ∈ Fs.children fs d <->
  exists p nd, fs !! p = Some nd /\ p <> [] /\ removelast p = d /\ List.last p "" = n.
Proof.
  unfold Fs.children. rewrite list_elem_of_omap. split.
  - intros ([p nd] & Hin & Hsome). apply elem_of_map_to_list in Hin.
    simpl in Hsome. case_decide as Hp; [|done]. destruct Hp. simplify_eq.
    eauto 10.
  - intros (p & nd & Hp & Hne & Hd & Hn). exists (p, nd). split.
    + by apply elem_of_map_to_list.
    + simpl. rewrite decide_True by done. by rewrite Hn.
Qed.

Lemma children_mono fs fs' d n :
  fs' ⊆ fs -> n ∈ Fs.children fs' d -> n ∈ Fs.children fs d.
Proof.
  intros Hsub (p & nd & Hp & H)%elem_of_children. apply elem_of_children.
  exists p, nd. split; [|done]. by eapply lookup_weaken.
Qed.

Lemma wf_lookup fs p nd :
  Fs.wf fs -> fs !! p = Some nd ->
  p <> [] /\ Fs.valid_name (List.last p "") /\ Fs.is_dir fs (removelast p) = true.
Proof. intros Hwf Hp. exact (Hwf p nd Hp). Qed.

Lemma is_dir_lookup fs p :
  p <> [] -> Fs.is_dir fs p = true -> fs !! p = Some Fs.Directory.
Proof.
  unfold Fs.is_dir. destruct p; [done|]. intros _.
  by destruct (fs !! _) as [[]|].
Qed.

(** In a well-formed file system the parent of a directory is one. *)
Lemma wf_parent_dir fs d c :
  Fs.wf fs -> Fs.is_dir fs (d ++ [c]) = true -> Fs.is_dir fs d = true.
Proof.
  intros Hwf Hd. apply is_dir_lookup in Hd; [|by destruct d].
  apply (wf_lookup _ _ _ Hwf) in Hd as (_ & _ & Hd).
  by rewrite removelast_last in Hd.
Qed.

Lemma string_length_app (s1 s2 : string) :
  String.length (s1 ++ s2) = (String.length s1 + String.length s2)%nat.
Proof. induction s1 as [|c s1 IH]; [done|]. simpl. by rewrite IH. Qed.

Lemma split_plain n :
  Py.contains "/" n = false -> Py.split "/" n = [n].
Proof.
  induction n as [|c n IH]; [done|]. simpl.
  destruct (Ascii.eqb c "/") eqn:Hc; [done|]. simpl.
  intros Hn. by rewrite (IH Hn).
Qed.

Lemma split_app_plain pre n :
  Py.contains "/" pre = false ->
  Py.split "/" (pre ++ String "/" n) = pre :: Py.split "/" n.
Proof.
  induction pre as [|c pre IH]; [done|]. simpl.
  destruct (Ascii.eqb c "/") eqn:Hc; [done|]. simpl.
  intros Hpre. by rewrite (IH Hpre).
Qed.

Lemma startswith_plain n :
  Py.contains "/" n = false -> Py.startswith "/" n = false.
Proof. destruct n as [|c n]; [done|]. simpl. by intros [? ?]%orb_false_elim. Qed.

(** A plain name under [dir/sub] resolves to the entry of that name. *)
Lemma resolve_entry fs (dir sub n : string) :
  Fs.valid_name dir -> Fs.valid_name sub -> Fs.valid_name n ->
  Fs.is_dir fs cwd = true ->
  Fs.is_dir fs (cwd ++ [dir]) = true ->
  Fs.is_dir fs (cwd ++ [dir; sub]) = true ->
  Fs.walk fs cwd [dir; sub; n] = inr (cwd ++ [dir; sub; n])%list.
Proof.
  intros (Hd1 & Hd2 & Hd3 & _ & _ & Hd4) (Hs1 & Hs2 & Hs3 & _ & _ & Hs4)
         (Hn1 & Hn2 & Hn3 & _ & _ & Hn4).
  intros Hcwd Hdir Hsub. cbn [Fs.walk].
  rewrite Hcwd, Hd4, Hs4, Hn4.
  rewrite !(proj2 (String.eqb_neq _ _)) by done. cbn [orb].
  rewrite Hdir.
  rewrite <- (app_assoc cwd [dir] [sub]). cbn [app]. rewrite Hsub.
  by rewrite <- (app_assoc cwd [dir; sub] [n]).
Qed.

End FsFacts.

(** * Properties of the handlers *)

Import App.

Section Properties.

Context {Chunk VectorStore RAGSystem QuizGenerator CS : Type}.
Variable E : Env Chunk VectorStore RAGSystem QuizGenerator CS.
Implicit Type st : State Chunk VectorStore RAGSystem QuizGenerator CS.

Ltac unfold_monad :=
  cbv beta iota zeta delta
    [bind ret raise try_except gets lift call os_read os_update
     set_vector_store set_rag_system set_quiz_generator
     except_HTTPException_raise except_Exception HTTPException_500] in *.

(** Case analysis on the innermost scrutinee of the goal: the next
    collaborator or [os] result in program order. *)
Ltac inner_scrutinee x :=
  lazymatch x with
  | context [match ?y with _ => _ end] => inner_scrutinee y
  | _ => x
  end.

Ltac case_inner :=
  match goal with
  | |- context [match ?x with _ => _ end] =>
      let y := inner_scrutinee x in destruct y eqn:?
  end.

Ltac trace_simpl :=
  cbv beta iota zeta delta [new_events session with_world set_fs
    trace vector_store rag_system quiz_generator world fst snd] in *;
  rewrite <- ?app_assoc in *; rewrite ?drop_app_length, ?drop_all in *.

Ltac trace_cases :=
  cbn [app] in *;
  repeat match goal with
         | H : _ ∈ [] |- _ => by apply elem_of_nil in H
         | H : _ ∈ _ :: _ |- _ => apply elem_of_cons in H as [H|H]; simplify_eq
         end.

Ltac run_upload :=
  cbv beta iota zeta delta
    [upload_document save_upload process_upload create_or_update] in *;
  unfold_monad.

(** *** Guards *)

Lemma upload_rejected file st :
  supported (file_extension E (UploadFile.filename file)) = false ->
  upload_document E file st =
    (inl (HTTPException 400
            (unsupported_file_type (file_extension E (UploadFile.filename file)))),
     st).
Proof.
  intros Hext. unfold upload_document. unfold_monad.
  rewrite Hext. reflexivity.
Qed.

Lemma ask_question_guard body st :
  rag_system st = None ->
  ask_question E body st = (inl (HTTPException 400 no_documents), st).
Proof. intros H. unfold ask_question. unfold_monad. rewrite H. reflexivity. Qed.

Lemma summarize_guard body st :
  rag_system st = None ->
  summarize E body st = (inl (HTTPException 400 no_documents), st).
Proof. intros H. unfold summarize. unfold_monad. rewrite H. reflexivity. Qed.

Lemma get_definitions_guard topic st :
  rag_system st = None ->
  get_definitions E topic st = (inl (HTTPException 400 no_documents), st).
Proof. intros H. unfold get_definitions. unfold_monad. rewrite H. reflexivity. Qed.

Lemma generate_quiz_guard body st :
  quiz_generator st = None ->
  generate_quiz E body st = (inl (HTTPException 400 no_documents), st).
Proof. intros H. unfold generate_quiz. unfold_monad. rewrite H. reflexivity. Qed.


(** *** The upload directory and the reset *)

Lemma listdir_uploads_inv fs names :
  Fs.listdir (cwd E) UPLOAD_DIR fs = inr names ->
  Fs.is_dir fs (cwd E) = true /\
  Fs.is_dir fs (cwd E ++ ["data"]) = true /\
  Fs.is_dir fs (upload_dir E) = true /\
  names = Fs.children fs (upload_dir E).
Proof.
  unfold Fs.listdir, Fs.resolve, Fs.start, upload_dir.
  change (Py.contains "000" UPLOAD_DIR) with false.
  change (String.eqb UPLOAD_DIR "") with false.
  change (Fs.path_too_long UPLOAD_DIR) with false.
  change (Py.startswith "/" UPLOAD_DIR) with false.
  change (Py.split "/" UPLOAD_DIR) with ["data"; "uploads"].
  cbn [Fs.walk String.eqb Ascii.eqb Bool.eqb orb].
  change (Fs.name_too_long "data") with false.
  change (Fs.name_too_long "uploads") with false.
  cbv iota.
  rewrite <- (app_assoc (cwd E) ["data"] ["uploads"]). cbn [app].
  repeat case_match; intros; simplify_eq; done.
Qed.

Lemma listdir_uploads_intro fs :
  Fs.is_dir fs (cwd E) = true ->
  Fs.is_dir fs (cwd E ++ ["data"]) = true ->
  Fs.is_dir fs (upload_dir E) = true ->
  Fs.listdir (cwd E) UPLOAD_DIR fs = inr (Fs.children fs (upload_dir E)).
Proof.
  unfold Fs.listdir, Fs.resolve, Fs.start, upload_dir.
  change (Py.contains "000" UPLOAD_DIR) with false.
  change (String.eqb UPLOAD_DIR "") with false.
  change (Fs.path_too_long UPLOAD_DIR) with false.
  change (Py.startswith "/" UPLOAD_DIR) with false.
  change (Py.split "/" UPLOAD_DIR) with ["data"; "uploads"].
  cbn [Fs.walk String.eqb Ascii.eqb Bool.eqb orb].
  change (Fs.name_too_long "data") with false.
  change (Fs.name_too_long "uploads") with false.
  cbv iota.
  rewrite <- (app_assoc (cwd E) ["data"] ["uploads"]). cbn [app].
  by intros -> -> ->.
Qed.

Lemma resolve_vector_store fs p :
  Fs.resolve (cwd E) fs (Py.path_join "data/vector_store" VECTOR_STORE_NAME) = inr p ->
  p = vector_store_dir E.
Proof.
  unfold Fs.resolve, Fs.start, vector_store_dir.
  change (Py.path_join "data/vector_store" VECTOR_STORE_NAME)
    with "data/vector_store/study_materials".
  change (String.eqb "data/vector_store/study_materials" "") with false.
  change (Fs.path_too_long "data/vector_store/study_materials") with false.
  change (Py.startswith "/" "data/vector_store/study_materials") with false.
  change (Py.split "/" "data/vector_store/study_materials")
    with ["data"; "vector_store"; "study_materials"].
  cbn [Fs.walk String.eqb Ascii.eqb Bool.eqb orb].
  change (Fs.name_too_long "data") with false.
  change (Fs.name_too_long "vector_store") with false.
  change (Fs.name_too_long "study_materials") with false.
  cbv iota.
  repeat case_match; intros; simplify_eq.
  by rewrite <- !app_assoc.
Qed.

(** The reset loop: it only deletes regular files, and afterwards none of
    the names it went through is a regular file of the upload directory. *)
Lemma for_each_remove_outcome names st r st' :
  for_each names (remove_if_file E) st = (r, st') ->
  trace st' = trace st /\ session st' = session st /\
  cs (world st') = cs (world st) /\
  fs (world st') ⊆ fs (world st) /\
  (forall q, Fs.is_dir (fs (world st')) q = Fs.is_dir (fs (world st)) q) /\
  (forall e, r = inl e -> exists msg, e = Exception msg) /\
  (forall u, r = inr u ->
     forall n, n ∈ names ->
       Fs.isfile (cwd E) (Py.path_join UPLOAD_DIR n) (fs (world st')) = false).
Proof.
  revert st. induction names as [|n names IH]; intros st; simpl.
  - unfold ret. intros [= <- <-]. repeat split; try done.
    intros _ _ n Hn. by apply elem_of_nil in Hn.
  - unfold bind at 1. unfold remove_if_file at 1. unfold_monad.
    destruct (Fs.isfile _ _ _) eqn:Hfile.
    + destruct (Fs.remove _ _ _) as [e|fs'] eqn:Hrm.
      * intros [= <- <-]. repeat split; try done.
        intros e' [= <-]. revert Hrm. unfold Fs.remove, Fs.OSError, Fs.ValueError_null.
        repeat case_match; intros; simplify_eq; eauto.
      * intros Hrun. apply IH in Hrun as (Ht & Hs & Hc & Hsub & Hd & He & Hok).
        simpl in *.
        pose proof (remove_subseteq _ _ _ _ Hrm) as Hsub'.
        repeat split; try done.
        -- by etrans.
        -- intros q. rewrite Hd. by eapply remove_is_dir.
        -- intros u Hu n' [->|Hn']%elem_of_cons; [|by eapply Hok].
           apply isfile_after_remove in Hrm.
           destruct (Fs.isfile (cwd E) _ (fs (world st'))) eqn:Hf; [|done].
           apply (isfile_mono _ _ _ _ Hsub) in Hf. congruence.
    + intros Hrun. apply IH in Hrun as (Ht & Hs & Hc & Hsub & Hd & He & Hok).
      repeat split; try done.
      intros u Hu n' [->|Hn']%elem_of_cons; [|by eapply Hok].
      destruct (Fs.isfile (cwd E) _ (fs (world st'))) eqn:Hf; [|done].
      apply (isfile_mono _ _ _ _ Hsub) in Hf. congruence.
Qed.

Lemma listdir_error path fs e :
  Fs.listdir (cwd E) path fs = inl e -> exists msg, e = Exception msg.
Proof.
  unfold Fs.listdir, Fs.OSError, Fs.ValueError_null.
  repeat case_match; intros; simplify_eq; eauto.
Qed.

Lemma rmtree_error path fs e :
  Fs.rmtree (cwd E) path fs = inl e -> exists msg, e = Exception msg.
Proof.
  unfold Fs.rmtree, Fs.OSError, Fs.ValueError_null.
  repeat case_match; intros; simplify_eq; eauto.
Qed.

Lemma open_wb_error path content fs e :
  Fs.open_wb (cwd E) path content fs = inl e -> exists msg, e = Exception msg.
Proof.
  unfold Fs.open_wb, Fs.OSError, Fs.ValueError_null.
  repeat case_match; intros; simplify_eq; eauto.
Qed.

Lemma rmtree_is_dir fs fs' q :
  Fs.rmtree (cwd E) (Py.path_join "data/vector_store" VECTOR_STORE_NAME) fs = inr fs' ->
  ~ (vector_store_dir E `prefix_of` q) ->
  Fs.is_dir fs' q = Fs.is_dir fs q.
Proof.
  intros (p & Hres & ->)%rmtree_inv Hq. apply resolve_vector_store in Hres as ->.
  unfold Fs.is_dir. destruct q as [|c q]; [done|].
  destruct (fs !! (c :: q)) as [nd|] eqn:Hlk.
  - by rewrite (map_lookup_filter_Some_2 _ _ _ _ Hlk Hq).
  - by rewrite (map_lookup_filter_None_2 _ _ _ (or_introl Hlk)).
Qed.

Lemma path_join_upload_entry n :
  Py.contains "/" n = false ->
  Py.path_join UPLOAD_DIR n = "data/uploads/" ++ n.
Proof.
  intros Hn. unfold Py.path_join. by rewrite (startswith_plain _ Hn).
Qed.

Lemma upload_dirs_of_wf fs :
  Fs.wf fs -> Fs.is_dir fs (upload_dir E) = true ->
  Fs.is_dir fs (cwd E) = true /\ Fs.is_dir fs (cwd E ++ ["data"]) = true.
Proof.
  intros Hwf Hup. unfold upload_dir in Hup.
  change ["data"; "uploads"] with (["data"] ++ ["uploads"])%list in Hup.
  rewrite app_assoc in Hup. apply (wf_parent_dir _ _ _ Hwf) in Hup.
  split; [|done]. by apply (wf_parent_dir _ _ _ Hwf) in Hup.
Qed.

Lemma resolve_upload_path fs n :
  Fs.valid_name n ->
  Py.contains "000" (Py.path_join UPLOAD_DIR n) = false /\
  Fs.resolve (cwd E) fs (Py.path_join UPLOAD_DIR n) =
    Fs.walk fs (cwd E) ["data"; "uploads"; n].
Proof.
  intros (_ & _ & _ & Hslash & Hnull & Hlen).
  rewrite (path_join_upload_entry _ Hslash). split; [exact Hnull|].
  unfold Fs.resolve, Fs.start.
  change (String.eqb ("data/uploads/" ++ n) "") with false.
  change (Py.startswith "/" ("data/uploads/" ++ n)) with false.
  assert (Fs.path_too_long ("data/uploads/" ++ n) = false) as ->.
  { unfold Fs.path_too_long, Fs.name_too_long in *.
    apply Nat.leb_gt. apply Nat.ltb_ge in Hlen.
    rewrite string_length_app. change (String.length "data/uploads/") with 13%nat.
    unfold Fs.PATH_MAX, Fs.NAME_MAX in *. lia. }
  cbv beta iota.
  change ("data/uploads/" ++ n)
    with ("data" ++ String "/" ("uploads" ++ String "/" n)).
  rewrite !split_app_plain by done. by rewrite (split_plain _ Hslash).
Qed.

(** The joined path of a plain name does not end in a slash. *)
Lemma name_with_slash_upload_entry n :
  Fs.valid_name n -> Fs.name_with_slash (Py.path_join UPLOAD_DIR n) = None.
Proof.
  intros (Hne & _ & _ & Hslash & _).
  rewrite (path_join_upload_entry _ Hslash). unfold Fs.name_with_slash.
  change ("data/uploads/" ++ n)
    with ("data" ++ String "/" ("uploads" ++ String "/" n)).
  rewrite !split_app_plain by done. rewrite (split_plain _ Hslash).
  cbn [Fs.strip_trailing]. rewrite (proj2 (String.eqb_neq _ _) Hne).
  reflexivity.
Qed.

(** An entry of the upload directory is reached through its joined path. *)
Lemma resolve_upload_entry fs n :
  Fs.valid_name n ->
  Fs.is_dir fs (cwd E) = true ->
  Fs.is_dir fs (cwd E ++ ["data"]) = true ->
  Fs.is_dir fs (upload_dir E) = true ->
  Py.contains "000" (Py.path_join UPLOAD_DIR n) = false /\
  Fs.resolve (cwd E) fs (Py.path_join UPLOAD_DIR n) = inr (upload_dir E ++ [n])%list.
Proof.
  intros Hn Hcwd Hdata Hup.
  destruct (resolve_upload_path fs n Hn) as [Hnull ->]. split; [exact Hnull|].
  unfold upload_dir. rewrite <- app_assoc. cbn [app].
  apply resolve_entry; try done; by vm_compute.
Qed.

Lemma isfile_upload_entry fs n :
  Fs.wf fs -> Fs.is_dir fs (upload_dir E) = true -> Fs.valid_name n ->
  Fs.isfile (cwd E) (Py.path_join UPLOAD_DIR n) fs = Fs.is_file fs (upload_dir E ++ [n]).
Proof.
  intros Hwf Hup Hn. destruct (upload_dirs_of_wf _ Hwf Hup) as [Hcwd Hdata].
  destruct (resolve_upload_entry fs n Hn Hcwd Hdata Hup) as [Hnull Hres].
  unfold Fs.isfile. by rewrite Hnull, Hres.
Qed.

Lemma reset_system_outcome st r st' :
  reset_system E st = (r, st') ->
  trace st' = trace st /\
  cs (world st') = cs (world st) /\
  fs (world st') ⊆ fs (world st) /\
  (forall e, r = inl e ->
     session st' = session st /\
     exists msg, e = HTTPException 500 (PStr ("Reset failed: " ++ msg))) /\
  (forall body, r = inr body ->
     uninitialized st' /\
     (forall q, ~ (vector_store_dir E `prefix_of` q) ->
        Fs.is_dir (fs (world st')) q = Fs.is_dir (fs (world st)) q) /\
     exists names,
       Fs.listdir (cwd E) UPLOAD_DIR (fs (world st)) = inr names /\
       forall n, n ∈ names ->
         Fs.isfile (cwd E) (Py.path_join UPLOAD_DIR n) (fs (world st')) = false).
Proof.
  unfold reset_system, try_except. unfold bind at 1. unfold os_read at 1.
  destruct (Fs.listdir _ _ _) as [e|names] eqn:Hls.
  { apply listdir_error in Hls as [msg ->]. unfold_monad. cbn.
    intros [= <- <-]. repeat split; try done; simplify_eq; eauto. }
  unfold bind at 1.
  destruct (for_each names _ st) as [[e|[]] st1] eqn:Hloop;
    apply for_each_remove_outcome in Hloop as (Ht & Hs & Hc & Hsub & Hd & He & Hok).
  { destruct (He e eq_refl) as [msg ->]. unfold_monad. cbn.
    intros [= <- <-]. repeat split; try done; simplify_eq; eauto. }
  specialize (Hok () eq_refl).
  unfold_monad.
  destruct (Fs.exists_ _ _ _) eqn:Hex.
  - destruct (Fs.rmtree _ _ _) as [e|fs2] eqn:Hrm.
    + apply rmtree_error in Hrm as [msg ->]. cbn.
      intros [= <- <-]. repeat split; try done; simplify_eq; eauto.
    + pose proof (rmtree_subseteq _ _ _ _ Hrm) as Hsub2.
      intros [= <- <-]. cbn. repeat split; try done.
      * by etrans.
      * intros q Hq. rewrite <- Hd. by eapply rmtree_is_dir.
      * exists names. split; [done|]. intros n Hn.
        destruct (Fs.isfile (cwd E) _ fs2) eqn:Hf; [|done].
        apply (isfile_mono _ _ _ _ Hsub2) in Hf. rewrite Hok in Hf; done.
  - intros [= <- <-]. cbn. repeat split; try done. eauto.
Qed.

Lemma vector_store_dir_not_prefix l :
  (List.length l < 3)%nat -> ~ (vector_store_dir E `prefix_of` (cwd E ++ l)%list).
Proof.
  intros Hl Hp%prefix_length. unfold vector_store_dir in Hp.
  rewrite !length_app in Hp. simpl in Hp. lia.
Qed.

Lemma filter_none {A} (f : A -> bool) (l : list A) :
  (forall x, x ∈ l -> f x = false) -> List.filter f l = [].
Proof.
  induction l as [|x l IH]; [done|]. intros Hf. simpl.
  rewrite (Hf x) by apply list_elem_of_here.
  apply IH. intros y Hy. apply Hf. by apply list_elem_of_further.
Qed.

(** C3, as the handler meets it. After a successful reset the three
    globals are [None], no entry of the upload directory is a regular
    file, and GET /documents answers with an empty list.  Entries that
    are not regular files are not touched (the loop tests [isfile]). *)
Theorem reset_leaves_no_uploaded_file st body st' :
  Fs.wf (fs (world st)) ->
  reset_system E st = (inr body, st') ->
  uninitialized st' /\
  (forall n content,
     fs (world st') !! (upload_dir E ++ [n])%list <> Some (Fs.RegFile content)) /\
  handle E GET_documents st' =
    (inr (PDict [("documents", PList []); ("count", PInt 0)]), st').
Proof.
  intros Hwf Hrun.
  destruct (reset_system_outcome _ _ _ Hrun) as (_ & _ & Hsub & _ & Hok).
  destruct (Hok body eq_refl) as (Hun & Hdirs & names & Hls & Hgone).
  apply listdir_uploads_inv in Hls as (Hcwd & Hdata & Hup & ->).
  assert (Fs.is_dir (fs (world st')) (cwd E) = true) as Hcwd'.
  { rewrite <- (app_nil_r (cwd E)), Hdirs; [by rewrite app_nil_r|].
    apply vector_store_dir_not_prefix. simpl. lia. }
  assert (Fs.is_dir (fs (world st')) (cwd E ++ ["data"]) = true) as Hdata'.
  { rewrite Hdirs; [done|]. apply vector_store_dir_not_prefix. simpl. lia. }
  assert (Fs.is_dir (fs (world st')) (upload_dir E) = true) as Hup'.
  { rewrite Hdirs; [done|]. apply vector_store_dir_not_prefix. simpl. lia. }
  split; [done|]. split.
  - intros n content Hn.
    pose proof (lookup_weaken _ _ _ _ Hn Hsub) as Hn0.
    destruct (wf_lookup _ _ _ Hwf Hn0) as (_ & Hvalid & _).
    rewrite last_last in Hvalid.
    destruct (resolve_upload_entry (fs (world st')) n Hvalid Hcwd' Hdata' Hup')
      as [Hnull Hres].
    assert (n ∈ Fs.children (fs (world st)) (upload_dir E)) as Hin.
    { apply elem_of_children. exists (upload_dir E ++ [n])%list, (Fs.RegFile content).
      split; [done|]. split; [by destruct (upload_dir E)|].
      by rewrite removelast_last, last_last. }
    apply Hgone in Hin. unfold Fs.isfile, Fs.is_file in Hin.
    by rewrite Hnull, Hres, Hn in Hin.
  - simpl. unfold list_documents, uploaded_files. unfold_monad.
    rewrite (listdir_uploads_intro _ Hcwd' Hdata' Hup').
    rewrite filter_none; [done|].
    intros n Hn. apply Hgone. by eapply children_mono.
Qed.

(** *** Uploads *)

Lemma upload_empty_chunks_outcome file st r st' p :
  upload_document E file st = (r, st') ->
  EvProcessDocuments p (inr []) ∈ new_events st st' ->
  r = inl (HTTPException 500 extraction_failed) /\
  new_events st st' = [EvProcessDocuments p (inr [])] /\
  session st' = session st.
Proof.
  revert r st'. run_upload. intros r st'.
  repeat case_inner; intros Hrun Hev; simplify_eq;
    trace_simpl; trace_cases; done.
Qed.

Lemma not_supported ext : ext ∉ [".pdf"; ".txt"] -> supported ext = false.
Proof. intros H. unfold supported. by apply bool_decide_eq_false. Qed.

(** C1. An upload whose lowered extension is neither ".pdf" nor ".txt" is
    answered with status 400, and the handler leaves the whole state as
    it found it: nothing is written to the file system and the trace of
    collaborator calls does not grow. *)
Theorem upload_unsupported_extension_is_rejected file st :
  file_extension E (UploadFile.filename file) ∉ [".pdf"; ".txt"] ->
  let detail := unsupported_file_type (file_extension E (UploadFile.filename file)) in
  upload_document E file st = (inl (HTTPException 400 detail), st) /\
  fs (world (upload_document E file st).2) = fs (world st) /\
  new_events st (upload_document E file st).2 = [].
Proof.
  intros Hext. apply not_supported in Hext. simpl.
  rewrite (upload_rejected _ _ Hext). split; [reflexivity|].
  split; [reflexivity|]. unfold new_events. simpl. by rewrite drop_all.
Qed.



(** C7. When the ingestion collaborator returns no chunks, the upload is
    answered with status 500; the call to [process_documents] is the only
    collaborator call of the request, so the index is neither created nor
    extended nor loaded, and the session is as before. *)
Theorem upload_with_empty_chunks_fails file st r st' file_path :
  upload_document E file st = (r, st') ->
  EvProcessDocuments file_path (inr []) ∈ new_events st st' ->
  r = inl (HTTPException 500 extraction_failed) /\
  new_events st st' = [EvProcessDocuments file_path (inr [])] /\
  session st' = session st.
Proof. apply upload_empty_chunks_outcome. Qed.


(** C10. An upload that is rejected for its extension, or that fails
    because ingestion returned no chunks, leaves the three globals as
    they were before the request. *)
Theorem failed_upload_keeps_session file st r st' :
  upload_document E file st = (r, st') ->
  file_extension E (UploadFile.filename file) ∉ [".pdf"; ".txt"] \/
  (exists file_path, EvProcessDocuments file_path (inr []) ∈ new_events st st') ->
  (exists status detail, r = inl (HTTPException status detail)) /\
  vector_store st' = vector_store st /\
  rag_system st' = rag_system st /\
  quiz_generator st' = quiz_generator st.
Proof.
  intros Hrun [Hext | [p Hev]].
  - apply not_supported in Hext. rewrite (upload_rejected _ _ Hext) in Hrun.
    simplify_eq. repeat split; eauto.
  - destruct (upload_empty_chunks_outcome _ _ _ _ _ Hrun Hev) as (-> & _ & Hs).
    unfold session in Hs. simplify_eq. repeat split; eauto.
Qed.

Lemma upload_success_outcome file st body st' :
  upload_document E file st = (inr body, st') ->
  exists chunks v rag quiz,
    chunks <> [] /\
    new_events st st' =
      (EvProcessDocuments (Py.path_join UPLOAD_DIR (UploadFile.filename file))
                          (inr chunks)
       :: index_events (vector_store st) chunks v
       ++ [EvRAGSystem v (inr rag); EvQuizGenerator v (inr quiz)])%list /\
    session st' = (Some v, Some rag, Some quiz).
Proof.
  revert st'. run_upload. intros st'.
  repeat case_inner; intros Hrun; simplify_eq; trace_simpl.
  all: match goal with H : _ = _ :> option VectorStore |- _ => rewrite H end.
  all: repeat match goal with u : unit |- _ => destruct u end.
  all: eexists _, _, _, _; refine (conj _ (conj eq_refl eq_refl)); done.
Qed.

Lemma upload_index_call file st r st' p chunks :
  upload_document E file st = (r, st') ->
  chunks <> [] ->
  EvProcessDocuments p (inr chunks) ∈ new_events st st' ->
  new_events st st' !! 0%nat = Some (EvProcessDocuments p (inr chunks)) /\
  index_call_follows (vector_store st) chunks (new_events st st').
Proof.
  unfold index_call_follows. revert r st'. run_upload. intros r st'.
  repeat case_inner; intros Hrun Hne Hev; simplify_eq;
    trace_simpl; trace_cases; try done.
  all: split; [reflexivity|].
  all: first [ by eexists
             | eexists; split; [reflexivity|]; intros ?;
               first [ discriminate | by eexists ] ].
Qed.

(** A successful upload leaves all three globals set. *)
Lemma upload_success_initializes file st body st' :
  upload_document E file st = (inr body, st') -> initialized st'.
Proof.
  intros (chunks & v & rag & quiz & _ & _ & Hs)%upload_success_outcome.
  unfold session in Hs. injection Hs as Hv Hr Hq.
  unfold initialized. by rewrite Hv, Hr, Hq.
Qed.

(** *** Exceptions of collaborators *)

Ltac run_handler :=
  cbv beta iota zeta delta
    [handle root ask_question summarize get_definitions generate_quiz grade_quiz
     list_documents uploaded_files reset_system] in *;
  run_upload.

(** What becomes of an exception that a collaborator raises, by class. *)
Lemma collaborator_exception_outcome req st r st' ev e :
  handle E req st = (r, st') ->
  ev ∈ new_events st st' ->
  raised ev = Some e ->
  match e with
  | Exception msg => exists prefix, r = inl (HTTPException 500 (PStr (prefix ++ msg)))
  | HTTPException _ _ =>
      r = inl e \/
      exists prefix, r = inl (HTTPException 500 (PStr (prefix ++ str E e)))
  | BaseException _ => r = inl e
  end.
Proof.
  destruct req; revert r st'.
  9: { intros r st' Hrun Hev. simpl in Hrun.
       apply reset_system_outcome in Hrun as (Ht & _).
       unfold new_events in Hev. rewrite Ht, drop_all in Hev.
       by apply elem_of_nil in Hev. }
  all: run_handler; intros r st'.
  all: repeat case_inner; intros Hrun Hev Hr; simplify_eq;
    trace_simpl; trace_cases.
  all: cbn [raised raised_of is_Exception is_HTTPException str] in *; simplify_eq.
  all: first [ reflexivity | by eexists | left; reflexivity | right; by eexists ].
Qed.

(** *** Uploading over an existing file *)

Lemma upload_saved file st fs1 :
  supported (file_extension E (UploadFile.filename file)) = true ->
  Fs.open_wb (cwd E) (Py.path_join UPLOAD_DIR (UploadFile.filename file))
             (UploadFile.file file) (fs (world st)) = inr fs1 ->
  upload_document E file st =
    try_except
      (process_upload E file (Py.path_join UPLOAD_DIR (UploadFile.filename file)))
      (except_HTTPException_raise (fun e =>
         raise (HTTPException 500 (PStr ("Upload failed: " ++ str E e)))))
      (set_fs fs1 st).
Proof.
  intros Hext Hopen. unfold upload_document, save_upload.
  rewrite Hext. unfold try_except, bind, os_update, ret. by rewrite Hopen.
Qed.

Lemma open_wb_upload_entry fs n content :
  Fs.valid_name n ->
  Fs.is_dir fs (cwd E) = true ->
  Fs.is_dir fs (cwd E ++ ["data"]) = true ->
  Fs.is_dir fs (upload_dir E) = true ->
  Fs.is_dir fs (upload_dir E ++ [n]) = false ->
  Fs.open_wb (cwd E) (Py.path_join UPLOAD_DIR n) content fs =
    inr (<[(upload_dir E ++ [n])%list := Fs.RegFile content]> fs).
Proof.
  intros Hn Hcwd Hdata Hup Hfile.
  destruct (resolve_upload_entry fs n Hn Hcwd Hdata Hup) as [Hnull Hres].
  unfold Fs.open_wb.
  by rewrite Hnull, (name_with_slash_upload_entry _ Hn), Hres, Hfile.
Qed.

Lemma is_dir_entry_false fs d n :
  fs !! (d ++ [n])%list <> Some Fs.Directory -> Fs.is_dir fs (d ++ [n]) = false.
Proof.
  unfold Fs.is_dir. intros Hne. destruct (d ++ [n])%list eqn:Hd.
  - by destruct d.
  - by destruct (fs !! _) as [[]|].
Qed.

Lemma is_dir_delete_file fs p q :
  Fs.is_file fs p = true -> Fs.is_dir (delete p fs) q = Fs.is_dir fs q.
Proof.
  unfold Fs.is_file, Fs.is_dir. intros Hp. destruct q as [|c q]; [done|].
  destruct (decide (p = c :: q)) as [->|Hne].
  - rewrite lookup_delete_eq. by destruct (fs !! (c :: q)) as [[]|].
  - by rewrite lookup_delete_ne.
Qed.

(** An upload fails for one of four reasons: the extension, the write,
    an exception of a collaborator, or an empty result of ingestion; in
    the last two cases the call in question is the last one made. *)
Lemma upload_failure_cause file st e st' :
  upload_document E file st = (inl e, st') ->
  supported (file_extension E (UploadFile.filename file)) = false \/
  (exists e', Fs.open_wb (cwd E) (Py.path_join UPLOAD_DIR (UploadFile.filename file))
                (UploadFile.file file) (fs (world st)) = inl e') \/
  (exists ev, last (new_events st st') = Some ev /\
     (raised ev <> None \/ exists p, ev = EvProcessDocuments p (inr []))).
Proof.
  revert st'. run_upload. intros st'.
  repeat case_inner; intros Hrun; simplify_eq; trace_simpl.
  all: first [ by left | by right; left; eexists | right; right ].
  all: cbn [app]; eexists; (split; [reflexivity|]).
  all: first [ by left | right; by eexists ].
Qed.

(** *** Listing an upload *)

Lemma same_uploads_refl fs : same_uploads E fs fs.
Proof. by repeat split. Qed.

Lemma same_uploads_trans fs1 fs2 fs3 :
  same_uploads E fs1 fs2 -> same_uploads E fs2 fs3 -> same_uploads E fs1 fs3.
Proof.
  intros (H1 & H2 & H3 & H4) (H1' & H2' & H3' & H4').
  repeat split; try congruence.
Qed.

Lemma keeps_ret {A} (x : A) : keeps_uploads E (ret x).
Proof. intros st. apply same_uploads_refl. Qed.

Lemma keeps_raise {A} (e : exn) : keeps_uploads E (@raise _ _ _ _ _ A e).
Proof. intros st. apply same_uploads_refl. Qed.

Lemma keeps_gets {A} (f : State _ _ _ _ _ -> A) : keeps_uploads E (gets f).
Proof. intros st. apply same_uploads_refl. Qed.

Lemma keeps_bind {A B} (m : M A) (f : A -> M B) :
  keeps_uploads E m -> (forall x, keeps_uploads E (f x)) -> keeps_uploads E (bind m f).
Proof.
  intros Hm Hf st. unfold bind. specialize (Hm st).
  destruct (m st) as [[e|x] st1]; [done|].
  eapply same_uploads_trans; [exact Hm|apply Hf].
Qed.

Lemma keeps_try_except {A} (m : M A) (h : exn -> M A) :
  keeps_uploads E m -> (forall e, keeps_uploads E (h e)) -> keeps_uploads E (try_except m h).
Proof.
  intros Hm Hh st. unfold try_except. specialize (Hm st).
  destruct (m st) as [[e|x] st1]; [|done].
  eapply same_uploads_trans; [exact Hm|apply Hh].
Qed.

Lemma keeps_call {A} (ev : exn + A -> event _ _ _ _) (c : Call A) :
  leaves_uploads_alone E c -> keeps_uploads E (call ev c).
Proof.
  intros Hc st. unfold call. specialize (Hc (world st)).
  by destruct (c (world st)) as [r w].
Qed.

Lemma keeps_set_vector_store v : keeps_uploads E (set_vector_store v).
Proof. intros st. apply same_uploads_refl. Qed.

Lemma keeps_set_rag_system r : keeps_uploads E (set_rag_system r).
Proof. intros st. apply same_uploads_refl. Qed.

Lemma keeps_set_quiz_generator q : keeps_uploads E (set_quiz_generator q).
Proof. intros st. apply same_uploads_refl. Qed.

Lemma keeps_except_Exception {A} (h : exn -> M A) e :
  (forall e', keeps_uploads E (h e')) -> keeps_uploads E (except_Exception h e).
Proof.
  intros Hh. unfold except_Exception.
  destruct (is_Exception e); [apply Hh|apply keeps_raise].
Qed.

Create HintDb keeps.
#[local] Hint Resolve keeps_ret keeps_raise keeps_gets keeps_call keeps_set_vector_store
  keeps_set_rag_system keeps_set_quiz_generator : keeps.

(** What follows the save step leaves the upload directory alone when
    the collaborators do. *)
Lemma process_upload_keeps_uploads file file_path :
  ingestion_leaves_uploads_alone E ->
  keeps_uploads E (process_upload E file file_path).
Proof.
  intros (Hpd & Hcreate & Hadd & Hload & Hrag & Hquiz).
  unfold process_upload.
  apply keeps_bind; [auto with keeps|]. intros [|c chunks]; [auto with keeps|].
  apply keeps_bind.
  { unfold create_or_update. apply keeps_try_except.
    - apply keeps_bind; [auto with keeps|]. intros [v|].
      + repeat (apply keeps_bind; [auto with keeps|intros ?]). auto with keeps.
      + repeat (apply keeps_bind; [auto with keeps|intros ?]). auto with keeps.
    - intros e. apply keeps_except_Exception. auto with keeps. }
  intros v.
  repeat (apply keeps_bind; [auto with keeps|intros ?]). auto with keeps.
Qed.

Lemma walk_upload_entry_inv fs n p :
  Fs.valid_name n ->
  Fs.walk fs (cwd E) ["data"; "uploads"; n] = inr p ->
  Fs.is_dir fs (cwd E) = true /\
  Fs.is_dir fs (cwd E ++ ["data"]) = true /\
  Fs.is_dir fs (upload_dir E) = true /\
  p = (upload_dir E ++ [n])%list.
Proof.
  intros (Hn1 & Hn2 & Hn3 & _). unfold upload_dir. cbn [Fs.walk].
  rewrite !(proj2 (String.eqb_neq n _)) by done.
  cbn [String.eqb Ascii.eqb Bool.eqb orb].
  rewrite <- (app_assoc (cwd E) ["data"] ["uploads"]). cbn [app].
  repeat case_match; intros; simplify_eq.
  by rewrite <- (app_assoc (cwd E) ["data"; "uploads"] [n]).
Qed.

Lemma open_wb_upload_entry_inv fs n content fs1 :
  Fs.valid_name n ->
  Fs.open_wb (cwd E) (Py.path_join UPLOAD_DIR n) content fs = inr fs1 ->
  Fs.is_dir fs (cwd E) = true /\
  Fs.is_dir fs (cwd E ++ ["data"]) = true /\
  Fs.is_dir fs (upload_dir E) = true /\
  fs1 = <[(upload_dir E ++ [n])%list := Fs.RegFile content]> fs.
Proof.
  intros Hn. destruct (resolve_upload_path fs n Hn) as [Hnull Hres].
  unfold Fs.open_wb. rewrite Hnull, (name_with_slash_upload_entry _ Hn), Hres.
  destruct (Fs.walk _ _ _) as [e|p] eqn:Hwalk; [done|].
  apply (walk_upload_entry_inv _ _ _ Hn) in Hwalk as (Hcwd & Hdata & Hup & ->).
  case_match; [done|]. by intros [= <-].
Qed.

Lemma is_dir_insert_file fs p content q :
  q <> p -> Fs.is_dir (<[p := Fs.RegFile content]> fs) q = Fs.is_dir fs q.
Proof.
  unfold Fs.is_dir. intros Hne. destruct q as [|c q]; [done|].
  by rewrite lookup_insert_ne.
Qed.

Lemma upload_entry_ne l n :
  (List.length l < 3)%nat -> (cwd E ++ l)%list <> (upload_dir E ++ [n])%list.
Proof.
  intros Hl Heq%(f_equal List.length). unfold upload_dir in Heq.
  rewrite !length_app in Heq. simpl in Heq. lia.
Qed.

(** With a plain file name, and collaborators that keep out of the upload
    directory, a successful upload is listed by GET /documents. *)
Lemma upload_then_listed file st body st' :
  Fs.valid_name (UploadFile.filename file) ->
  ingestion_leaves_uploads_alone E ->
  upload_document E file st = (inr body, st') ->
  exists files,
    handle E GET_documents st' =
      (inr (PDict [("documents", PList (List.map PStr files));
                   ("count", PInt (Z.of_nat (List.length files)))]), st') /\
    UploadFile.filename file ∈ files.
Proof.
  intros Hn Hquiet Hrun.
  destruct (supported (file_extension E (UploadFile.filename file))) eqn:Hsup;
    [|by rewrite (upload_rejected _ _ Hsup) in Hrun].
  destruct (Fs.open_wb (cwd E) (Py.path_join UPLOAD_DIR (UploadFile.filename file))
              (UploadFile.file file) (fs (world st))) as [e|fs1] eqn:Hopen.
  { exfalso. revert Hrun. unfold upload_document, save_upload. rewrite Hsup.
    unfold_monad. rewrite Hopen. by repeat case_match. }
  rewrite (upload_saved _ _ _ Hsup Hopen) in Hrun.
  pose proof (process_upload_keeps_uploads file
                (Py.path_join UPLOAD_DIR (UploadFile.filename file))
                Hquiet (set_fs fs1 st)) as Hsame.
  unfold try_except in Hrun.
  destruct (process_upload E file _ (set_fs fs1 st)) as [[e|body'] st1] eqn:Hpu.
  { exfalso. revert Hrun. unfold_monad. by repeat case_match. }
  injection Hrun as <- <-. cbn [fs world set_fs snd] in Hsame.
  destruct Hsame as (Hcwd & Hdata & Hup & Hentries).
  apply (open_wb_upload_entry_inv _ _ _ _ Hn) in Hopen as (Hcwd0 & Hdata0 & Hup0 & ->).
  set (n := UploadFile.filename file) in *.
  set (entry := (upload_dir E ++ [n])%list) in *.
  rewrite is_dir_insert_file, <- (app_nil_r (cwd E)) in Hcwd
    by (rewrite <- (app_nil_r (cwd E)); apply upload_entry_ne; simpl; lia).
  rewrite is_dir_insert_file in Hdata by (apply upload_entry_ne; simpl; lia).
  rewrite is_dir_insert_file in Hup by (apply upload_entry_ne; simpl; lia).
  rewrite app_nil_r, Hcwd0 in Hcwd. rewrite Hdata0 in Hdata. rewrite Hup0 in Hup.
  simpl. unfold list_documents, uploaded_files. unfold_monad.
  rewrite (listdir_uploads_intro _ Hcwd Hdata Hup).
  eexists. split; [reflexivity|].
  assert (fs (world st1) !! entry = Some (Fs.RegFile (UploadFile.file file))) as Hentry
    by (unfold entry; rewrite Hentries; apply lookup_insert_eq).
  apply list_elem_of_In, filter_In. split.
  - apply list_elem_of_In, elem_of_children. exists entry, (Fs.RegFile (UploadFile.file file)).
    split; [done|]. split; [by destruct (upload_dir E)|].
    unfold entry. by rewrite removelast_last, last_last.
  - destruct (resolve_upload_entry (fs (world st1)) n Hn Hcwd Hdata Hup)
      as [Hnull Hres].
    unfold Fs.isfile, Fs.is_file. fold entry in Hres. by rewrite Hnull, Hres, Hentry.
Qed.

End Properties.

(** * Further properties of the handlers *)

(** The tactics of the previous section, for the sections that follow. *)
Ltac unfold_monad :=
  cbv beta iota zeta delta
    [bind ret raise try_except gets lift call os_read os_update
     set_vector_store set_rag_system set_quiz_generator
     except_HTTPException_raise except_Exception HTTPException_500] in *.
Ltac inner_scrutinee x :=
  lazymatch x with
  | context [match ?y with _ => _ end] => inner_scrutinee y
  | _ => x
  end.
Ltac case_inner :=
  match goal with
  | |- context [match ?x with _ => _ end] =>
      let y := inner_scrutinee x in destruct y eqn:?
  end.
Ltac trace_simpl :=
  cbv beta iota zeta delta [new_events session with_world set_fs
    trace vector_store rag_system quiz_generator world fst snd] in *;
  rewrite <- ?app_assoc in *; rewrite ?drop_app_length, ?drop_all in *.
Ltac trace_cases :=
  cbn [app] in *;
  repeat match goal with
         | H : _ ∈ [] |- _ => by apply elem_of_nil in H
         | H : _ ∈ _ :: _ |- _ => apply elem_of_cons in H as [H|H]; simplify_eq
         end.
Ltac run_upload :=
  cbv beta iota zeta delta
    [upload_document save_upload process_upload create_or_update] in *;
  unfold_monad.
Ltac run_handler :=
  cbv beta iota zeta delta
    [handle root ask_question summarize get_definitions generate_quiz grade_quiz
     list_documents uploaded_files reset_system] in *;
  run_upload.

Ltac run_query :=
  cbv beta iota zeta delta
    [handle root ask_question summarize get_definitions generate_quiz grade_quiz
     list_documents uploaded_files] in *;
  unfold_monad.

(** ** The query endpoints *)

Section Queries.

Context {Chunk VectorStore RAGSystem QuizGenerator CS : Type}.
Variable E : Env Chunk VectorStore RAGSystem QuizGenerator CS.
Implicit Type st : State Chunk VectorStore RAGSystem QuizGenerator CS.

(** *** What the query endpoints return *)

Lemma py_getitem_error d key e :
  py_getitem d key = inl e -> exists msg, e = Exception msg.
Proof. unfold py_getitem, KeyError. case_match; intros; simplify_eq; eauto. Qed.

Lemma py_len_error v e : py_len v = inl e -> exists msg, e = Exception msg.
Proof. destruct v; simpl; intros; simplify_eq; eauto. Qed.

(** The exceptions of [d[key]] and [len(v)] are ordinary exceptions, and
    two evaluations of one expression agree. *)
Ltac py_errors :=
  repeat match goal with
         | H1 : ?x = _, H2 : ?x = _ |- _ => rewrite H1 in H2; simplify_eq
         | H : py_getitem _ _ = inl ?e |- _ =>
             is_var e; destruct (py_getitem_error _ _ _ H) as [? ->]
         | H : py_len _ = inl ?e |- _ =>
             is_var e; destruct (py_len_error _ _ H) as [? ->]
         end;
  cbn [is_Exception is_HTTPException str] in *; simplify_eq.

(** An upload calls ingestion, the index and the engine constructors,
    and nothing else. *)
Lemma upload_events file st r st' ev :
  upload_document E file st = (r, st') ->
  ev ∈ new_events st st' -> upload_event ev = true.
Proof.
  revert r st'. run_upload. intros r st'.
  repeat case_inner; intros Hrun Hev; simplify_eq;
    trace_simpl; trace_cases; done.
Qed.

Lemma reset_no_events st r st' :
  reset_system E st = (r, st') -> new_events st st' = [].
Proof.
  intros (Ht & _)%reset_system_outcome. unfold new_events.
  by rewrite Ht, drop_all.
Qed.

Lemma rag_answer_outcome req st r st' ev d :
  handle E req st = (r, st') ->
  ev ∈ new_events st st' ->
  answered ev = Some d ->
  new_events st st' = [ev] /\
  session st' = session st /\
  match sources_len d with
  | inr _ => r = inr (PDict d)
  | inl e => exists prefix, r = inl (HTTPException 500 (PStr (prefix ++ str E e)))
  end.
Proof.
  unfold sources_len. destruct req; revert r st'.
  2: { intros r st' Hrun Hev Hans. simpl in Hrun.
       pose proof (upload_events _ _ _ _ _ Hrun Hev) as Hup.
       by destruct ev as [| | | | | | |? ? ? []|? ? ? ? []|? ? []| |]. }
  8: { intros r st' Hrun Hev. simpl in Hrun.
       rewrite (reset_no_events _ _ _ Hrun) in Hev. by apply elem_of_nil in Hev. }
  all: run_query; intros r st'.
  all: repeat case_inner; intros Hrun Hev Hans; simplify_eq;
    trace_simpl; trace_cases; cbn [answered] in *; simplify_eq; py_errors.
  all: repeat split; first [ reflexivity | by eexists ].
Qed.

(** X1. Whatever dict the RAG engine returns to /ask, /summarize or
    /definitions is the body of the response, unchanged, as soon as its
    "sources" entry has a length; the engine is called once and the
    session stays as it is. *)
Theorem rag_answer_is_returned_unchanged req st r st' ev d n :
  handle E req st = (r, st') ->
  ev ∈ new_events st st' ->
  answered ev = Some d ->
  sources_len d = inr n ->
  r = inr (PDict d) /\ new_events st st' = [ev] /\ session st' = session st.
Proof.
  intros Hrun Hev Hans Hlen.
  destruct (rag_answer_outcome _ _ _ _ _ _ Hrun Hev Hans) as (Hone & Hs & Hr).
  by rewrite Hlen in Hr.
Qed.

(** X2. A dict of the RAG engine that has no "sources" entry never
    reaches the client: the [KeyError] of the log line that reads
    [result['sources']] turns the answer into a 500 whose detail ends
    with the quoted key. *)
Theorem rag_answer_without_sources_fails req st r st' ev d :
  handle E req st = (r, st') ->
  ev ∈ new_events st st' ->
  answered ev = Some d ->
  dict_get d "sources" = None ->
  exists prefix, r = inl (HTTPException 500 (PStr (prefix ++ "'sources'"))).
Proof.
  intros Hrun Hev Hans Hnone.
  destruct (rag_answer_outcome _ _ _ _ _ _ Hrun Hev Hans) as (_ & _ & Hr).
  unfold sources_len, py_getitem in Hr. by rewrite Hnone in Hr.
Qed.

Lemma quiz_outcome req st r st' ev quiz :
  handle E req st = (r, st') ->
  ev ∈ new_events st st' ->
  quiz_generated ev = Some quiz ->
  new_events st st' = [ev] /\
  session st' = session st /\
  match dict_get quiz "error" with
  | Some detail => r = inl (HTTPException_500 detail)
  | None =>
      match questions_len quiz with
      | inr _ => r = inr (PDict quiz)
      | inl e =>
          r = inl (HTTPException 500 (PStr ("Quiz generation failed: " ++ str E e)))
      end
  end.
Proof.
  unfold questions_len. destruct req; revert r st'.
  2: { intros r st' Hrun Hev Hans. simpl in Hrun.
       pose proof (upload_events _ _ _ _ _ Hrun Hev) as Hup.
       by destruct ev as [| | | | | | | | | |? ? ? ? []|]. }
  8: { intros r st' Hrun Hev. simpl in Hrun.
       rewrite (reset_no_events _ _ _ Hrun) in Hev. by apply elem_of_nil in Hev. }
  all: run_query; intros r st'.
  all: repeat case_inner; intros Hrun Hev Hans; simplify_eq;
    trace_simpl; trace_cases; cbn [quiz_generated] in *; simplify_eq; py_errors.
  all: repeat split; reflexivity.
Qed.

(** X3. A quiz dict with an "error" entry is answered with status 500,
    whatever else the dict holds.  The detail is the value of that entry
    as it is, without a prefix; only for an entry that is [None] the
    constructor of the exception puts "Internal Server Error" in its
    place. *)
Theorem quiz_error_entry_becomes_500 req st r st' ev quiz detail :
  handle E req st = (r, st') ->
  ev ∈ new_events st st' ->
  quiz_generated ev = Some quiz ->
  dict_get quiz "error" = Some detail ->
  (detail <> PNone -> r = inl (HTTPException 500 detail)) /\
  (detail = PNone -> r = inl (HTTPException 500 (PStr "Internal Server Error"))) /\
  session st' = session st.
Proof.
  intros Hrun Hev Hq Herr.
  destruct (quiz_outcome _ _ _ _ _ _ Hrun Hev Hq) as (_ & Hs & Hr).
  rewrite Herr in Hr. subst r.
  split; [|split; [|exact Hs]].
  - intros Hne. by destruct detail.
  - by intros ->.
Qed.

(** X4. A quiz dict without an "error" entry is the body of the
    response, unchanged, when its "questions" entry is missing or has a
    length; a "questions" entry without a length (such as [None]) makes
    the response a 500. *)
Theorem quiz_is_returned_unchanged req st r st' ev quiz :
  handle E req st = (r, st') ->
  ev ∈ new_events st st' ->
  quiz_generated ev = Some quiz ->
  dict_get quiz "error" = None ->
  new_events st st' = [ev] /\
  match questions_len quiz with
  | inr _ => r = inr (PDict quiz)
  | inl e => r = inl (HTTPException 500 (PStr ("Quiz generation failed: " ++ str E e)))
  end.
Proof.
  intros Hrun Hev Hq Herr.
  destruct (quiz_outcome _ _ _ _ _ _ Hrun Hev Hq) as (Hone & _ & Hr).
  by rewrite Herr in Hr.
Qed.

Lemma grade_outcome req st r st' ev results :
  handle E req st = (r, st') ->
  ev ∈ new_events st st' ->
  quiz_graded ev = Some results ->
  new_events st st' = [ev] /\
  session st' = session st /\
  match dict_get results "score" with
  | Some _ => r = inr (PDict results)
  | None => r = inl (HTTPException 500 (PStr "Quiz grading failed: 'score'"))
  end.
Proof.
  destruct req; revert r st'.
  2: { intros r st' Hrun Hev Hans. simpl in Hrun.
       pose proof (upload_events _ _ _ _ _ Hrun Hev) as Hup.
       by destruct ev as [| | | | | | | | | | |? ? ? []]. }
  8: { intros r st' Hrun Hev. simpl in Hrun.
       rewrite (reset_no_events _ _ _ Hrun) in Hev. by apply elem_of_nil in Hev. }
  all: run_query; unfold py_getitem, KeyError; intros r st'.
  all: repeat case_inner; intros Hrun Hev Hans; simplify_eq;
    trace_simpl; trace_cases; cbn [quiz_graded] in *; simplify_eq; py_errors.
  all: repeat split; reflexivity.
Qed.

(** X5. The dict of the grading collaborator is the body of the
    response exactly when it has a "score" entry; without one the
    response is the 500 of the [KeyError]. *)
Theorem graded_result_is_returned_iff_scored req st r st' ev results :
  handle E req st = (r, st') ->
  ev ∈ new_events st st' ->
  quiz_graded ev = Some results ->
  (r = inr (PDict results) <-> is_Some (dict_get results "score")) /\
  (dict_get results "score" = None ->
   r = inl (HTTPException 500 (PStr "Quiz grading failed: 'score'"))).
Proof.
  intros Hrun Hev Hg.
  destruct (grade_outcome _ _ _ _ _ _ Hrun Hev Hg) as (_ & _ & Hr).
  destruct (dict_get results "score") as [v|]; subst r.
  - split; [|done]. split; eauto.
  - split; [|done]. split; [done|]. by intros [? ?].
Qed.

(** *** What the handlers leave alone *)

(** X6. Only /upload and /reset assign the globals: every other request
    leaves the three of them as they are, whatever the collaborators do. *)
Theorem only_upload_and_reset_change_session req st :
  is_upload req = false ->
  req <> DELETE_reset ->
  session (handle E req st).2 = session st.
Proof.
  intros Hup Hreset. destruct req; try discriminate Hup; try done.
  all: run_query; repeat case_inner; reflexivity.
Qed.

(** X7. GET / and GET /documents are read-only: they return the state
    they were given, so they touch neither the file system nor a
    collaborator, whether they succeed or not. *)
Theorem status_and_listing_are_read_only st :
  (handle E GET_root st).2 = st /\ (handle E GET_documents st).2 = st.
Proof.
  split; [reflexivity|]. run_query. repeat case_inner; reflexivity.
Qed.

End Queries.

(** ** The document list *)

Section Listing.

Context {Chunk VectorStore RAGSystem QuizGenerator CS : Type}.
Variable E : Env Chunk VectorStore RAGSystem QuizGenerator CS.
Implicit Type st : State Chunk VectorStore RAGSystem QuizGenerator CS.

(** *** The listing *)

(** X8. In a well-formed file system whose upload directory exists,
    GET /documents succeeds and lists exactly the names of the regular
    files that are entries of the upload directory: subdirectories are
    left out, and nothing from elsewhere gets in. *)
Theorem documents_are_the_regular_files st :
  Fs.wf (fs (world st)) ->
  Fs.is_dir (fs (world st)) (upload_dir E) = true ->
  exists files,
    list_documents E st = (inr (documents_body files), st) /\
    forall n, n ∈ files <->
      exists content,
        fs (world st) !! (upload_dir E ++ [n])%list = Some (Fs.RegFile content).
Proof.
  intros Hwf Hup. destruct (upload_dirs_of_wf _ _ Hwf Hup) as [Hcwd Hdata].
  unfold list_documents, uploaded_files. unfold_monad.
  rewrite (listdir_uploads_intro _ _ Hcwd Hdata Hup).
  eexists. split; [reflexivity|]. intros n.
  rewrite list_elem_of_In, filter_In, <- list_elem_of_In, elem_of_children.
  split.
  - intros [(p & nd & Hp & Hne & Hparent & Hlast) Hfile].
    destruct (wf_lookup _ _ _ Hwf Hp) as (_ & Hvalid & _). rewrite Hlast in Hvalid.
    rewrite (isfile_upload_entry _ _ _ Hwf Hup Hvalid) in Hfile.
    unfold Fs.is_file in Hfile.
    destruct (fs (world st) !! (upload_dir E ++ [n])%list) as [[content|]|]; eauto; done.
  - intros [content Hn].
    destruct (wf_lookup _ _ _ Hwf Hn) as (_ & Hvalid & _).
    rewrite last_last in Hvalid. split.
    + exists (upload_dir E ++ [n])%list, (Fs.RegFile content).
      split; [done|]. split; [by destruct (upload_dir E)|].
      by rewrite removelast_last, last_last.
    + rewrite (isfile_upload_entry _ _ _ Hwf Hup Hvalid).
      unfold Fs.is_file. by rewrite Hn.
Qed.

(** X9. When the upload directory is missing, or is not a directory,
    GET /documents answers with status 500 and a detail that starts with
    "Failed to list documents: ", and leaves the state as it is. *)
Theorem listing_fails_without_upload_directory st :
  Fs.is_dir (fs (world st)) (upload_dir E) = false ->
  exists msg,
    list_documents E st =
      (inl (HTTPException 500 (PStr ("Failed to list documents: " ++ msg))), st).
Proof.
  intros Hup. unfold list_documents, uploaded_files. unfold_monad.
  destruct (Fs.listdir _ _ _) as [e|names] eqn:Hls.
  - destruct (listdir_error _ _ _ _ Hls) as [msg ->]. by exists msg.
  - apply listdir_uploads_inv in Hls as (_ & _ & Hup' & _). congruence.
Qed.

End Listing.

(** ** Uploads *)

Section Uploads.

Context {Chunk VectorStore RAGSystem QuizGenerator CS : Type}.
Variable E : Env Chunk VectorStore RAGSystem QuizGenerator CS.
Implicit Type st : State Chunk VectorStore RAGSystem QuizGenerator CS.

(** *** Uploads that fail half way *)

(** Where the upload stands when the constructor of the RAG engine has
    raised: the store is installed, the engines are not. *)
Lemma rag_failure_outcome file st r st' v e :
  upload_document E file st = (r, st') ->
  EvRAGSystem v (inl e) ∈ new_events st st' ->
  (exists e', r = inl e') /\
  vector_store st' = Some v /\
  rag_system st' = rag_system st /\
  quiz_generator st' = quiz_generator st.
Proof.
  revert r st'. run_upload. intros r st'.
  repeat case_inner; intros Hrun Hev; simplify_eq;
    trace_simpl; trace_cases; eauto.
Qed.

(** X10. Nothing is rolled back when the RAG engine cannot be built: the
    upload is answered with an error, but [vector_store] already is the
    new store, while both engines are the ones from before the request. *)
Theorem rag_failure_keeps_new_store file st r st' v e :
  upload_document E file st = (r, st') ->
  EvRAGSystem v (inl e) ∈ new_events st st' ->
  (exists e', r = inl e') /\
  vector_store st' = Some v /\
  rag_system st' = rag_system st /\
  quiz_generator st' = quiz_generator st.
Proof.
  exact (rag_failure_outcome file st r st' v e).
Qed.

(** X11. Likewise when the quiz engine cannot be built: the upload is
    answered with an error, the store and the RAG engine are the new
    ones, and the quiz engine is the one from before the request, built
    on the store from before. *)
Theorem quiz_failure_keeps_new_rag file st r st' v e :
  upload_document E file st = (r, st') ->
  EvQuizGenerator v (inl e) ∈ new_events st st' ->
  (exists e', r = inl e') /\
  vector_store st' = Some v /\
  (exists rag, rag_system st' = Some rag /\ EvRAGSystem v (inr rag) ∈ new_events st st') /\
  quiz_generator st' = quiz_generator st.
Proof.
  revert r st'. run_upload. intros r st'.
  repeat case_inner; intros Hrun Hev; simplify_eq;
    trace_simpl; trace_cases.
  all: repeat split; eauto.
  all: eexists; split; [reflexivity|]; cbn [app]; set_solver.
Qed.

(** X12. An ordinary exception of [create_vector_store],
    [add_documents_to_existing_store] or [load_vector_store] is answered
    with status 500 and the detail "Failed to create/update vector
    store: " followed by its message; the session is not touched, also
    when the index on disk was already extended. *)
Theorem index_failure_keeps_session file st r st' ev msg :
  upload_document E file st = (r, st') ->
  ev ∈ new_events st st' ->
  index_event ev = true ->
  raised ev = Some (Exception msg) ->
  r = inl (HTTPException 500
             (PStr ("Failed to create/update vector store: " ++ msg))) /\
  session st' = session st.
Proof.
  revert r st'. run_upload. intros r st'.
  repeat case_inner; intros Hrun Hev Hidx Hr; simplify_eq;
    trace_simpl; trace_cases;
    cbn [index_event raised raised_of is_Exception is_HTTPException str] in *;
    simplify_eq; done.
Qed.

(** X13. When the bytes cannot be written, the upload is answered with
    status 500 and the detail "Upload failed: " followed by the message
    of the operating system, and nothing else happens: the state is the
    one before the request and no collaborator is called. *)
Theorem unwritable_upload_fails file st e :
  supported (file_extension E (UploadFile.filename file)) = true ->
  Fs.open_wb (cwd E) (Py.path_join UPLOAD_DIR (UploadFile.filename file))
             (UploadFile.file file) (fs (world st)) = inl e ->
  upload_document E file st =
    (inl (HTTPException 500 (PStr ("Upload failed: " ++ str E e))), st).
Proof.
  intros Hsup Hopen. destruct (open_wb_error _ _ _ _ _ Hopen) as [msg ->].
  unfold upload_document, save_upload. rewrite Hsup. unfold_monad.
  by rewrite Hopen.
Qed.

(** A name that is a directory of the upload directory cannot be written. *)
Lemma open_wb_onto_directory fs n content :
  Fs.wf fs ->
  fs !! (upload_dir E ++ [n])%list = Some Fs.Directory ->
  Fs.open_wb (cwd E) (Py.path_join UPLOAD_DIR n) content fs =
    inl (Fs.OSError Fs.EISDIR (Py.path_join UPLOAD_DIR n)).
Proof.
  intros Hwf Hn. destruct (wf_lookup _ _ _ Hwf Hn) as (_ & Hvalid & Hup).
  rewrite last_last in Hvalid. rewrite removelast_last in Hup.
  destruct (upload_dirs_of_wf _ _ Hwf Hup) as [Hcwd Hdata].
  destruct (resolve_upload_entry _ fs n Hvalid Hcwd Hdata Hup) as [Hnull Hres].
  unfold Fs.open_wb. rewrite Hnull, (name_with_slash_upload_entry _ Hvalid), Hres.
  assert (Fs.is_dir fs (upload_dir E ++ [n]) = true) as ->; [|done].
  unfold Fs.is_dir. rewrite Hn. by destruct (upload_dir E ++ [n])%list.
Qed.

(** The file of an upload stays where it was written, and is listed. *)
Lemma upload_keeps_saved_file file st r st' :
  let n := UploadFile.filename file in
  let entry := (upload_dir E ++ [n])%list in
  Fs.valid_name n ->
  supported (file_extension E n) = true ->
  Fs.wf (fs (world st)) ->
  Fs.is_dir (fs (world st)) (upload_dir E) = true ->
  fs (world st) !! entry <> Some Fs.Directory ->
  ingestion_leaves_uploads_alone E ->
  upload_document E file st = (r, st') ->
  fs (world st') !! entry = Some (Fs.RegFile (UploadFile.file file)) /\
  exists files,
    list_documents E st' = (inr (documents_body files), st') /\ n ∈ files.
Proof.
  intros n entry Hn Hsup Hwf Hup Hnodir Hquiet Hrun.
  destruct (upload_dirs_of_wf _ _ Hwf Hup) as [Hcwd Hdata].
  assert (Fs.open_wb (cwd E) (Py.path_join UPLOAD_DIR n) (UploadFile.file file)
            (fs (world st))
          = inr (<[entry := Fs.RegFile (UploadFile.file file)]> (fs (world st))))
    as Hopen.
  { apply open_wb_upload_entry; try done. by apply is_dir_entry_false. }
  rewrite (upload_saved _ _ _ _ Hsup Hopen) in Hrun.
  pose proof (process_upload_keeps_uploads _ file (Py.path_join UPLOAD_DIR n)
                Hquiet (set_fs (<[entry := Fs.RegFile (UploadFile.file file)]>
                                  (fs (world st))) st)) as Hsame.
  assert (fs (world st') =
          fs (world (process_upload E file (Py.path_join UPLOAD_DIR n)
                       (set_fs (<[entry := Fs.RegFile (UploadFile.file file)]>
                                  (fs (world st))) st)).2)) as Hfs.
  { revert Hrun. unfold try_except. fold n.
    destruct (process_upload E file _ _) as [[e|body] st1]; simpl.
    - unfold_monad. repeat case_match; by intros [= _ <-].
    - by intros [= _ <-]. }
  fold n in Hsame. rewrite <- Hfs in Hsame. cbn [fs world set_fs] in Hsame.
  destruct Hsame as (Hcwd' & Hdata' & Hup' & Hentries).
  rewrite is_dir_insert_file, <- (app_nil_r (cwd E)) in Hcwd'
    by (rewrite <- (app_nil_r (cwd E)); apply upload_entry_ne; simpl; lia).
  rewrite is_dir_insert_file in Hdata' by (apply upload_entry_ne; simpl; lia).
  rewrite is_dir_insert_file in Hup' by (apply upload_entry_ne; simpl; lia).
  rewrite app_nil_r, Hcwd in Hcwd'. rewrite Hdata in Hdata'. rewrite Hup in Hup'.
  assert (fs (world st') !! entry = Some (Fs.RegFile (UploadFile.file file))) as Hentry
    by (unfold entry; rewrite Hentries; apply lookup_insert_eq).
  split; [exact Hentry|].
  unfold list_documents, uploaded_files. unfold_monad.
  rewrite (listdir_uploads_intro _ _ Hcwd' Hdata' Hup').
  eexists. split; [reflexivity|].
  apply list_elem_of_In, filter_In. split.
  - apply list_elem_of_In, elem_of_children.
    exists entry, (Fs.RegFile (UploadFile.file file)).
    split; [done|]. split; [by destruct (upload_dir E)|].
    unfold entry. by rewrite removelast_last, last_last.
  - destruct (resolve_upload_entry _ (fs (world st')) n Hn Hcwd' Hdata' Hup')
      as [Hnull Hres].
    unfold Fs.isfile, Fs.is_file. fold entry in Hres. by rewrite Hnull, Hres, Hentry.
Qed.

(** X14. The file of an upload stays where it was written whatever
    becomes of the request afterwards: with a plain name that the file
    system takes (at most [NAME_MAX] bytes), an existing upload directory
    and collaborators that keep out of it, the new bytes are stored and
    GET /documents lists the name, also when the upload was answered
    with an error. *)
Theorem saved_upload_stays_listed file st r st' :
  let n := UploadFile.filename file in
  let entry := (upload_dir E ++ [n])%list in
  Fs.valid_name n ->
  supported (file_extension E n) = true ->
  Fs.wf (fs (world st)) ->
  Fs.is_dir (fs (world st)) (upload_dir E) = true ->
  fs (world st) !! entry <> Some Fs.Directory ->
  ingestion_leaves_uploads_alone E ->
  upload_document E file st = (r, st') ->
  fs (world st') !! entry = Some (Fs.RegFile (UploadFile.file file)) /\
  exists files,
    list_documents E st' = (inr (documents_body files), st') /\ n ∈ files.
Proof.
  intros n entry. exact (upload_keeps_saved_file file st r st').
Qed.

(** X15. The body of a successful upload reports the file name as the
    client sent it and, as "chunks_created", the number of chunks that
    ingestion returned for the saved path. *)
Theorem upload_reports_name_and_chunks file st body st' :
  upload_document E file st = (inr body, st') ->
  exists chunks,
    new_events st st' !! 0%nat =
      Some (EvProcessDocuments (Py.path_join UPLOAD_DIR (UploadFile.filename file))
                               (inr chunks)) /\
    body = upload_success_body (UploadFile.filename file) (List.length chunks).
Proof.
  revert st'. run_upload. intros st'.
  repeat case_inner; intros Hrun; simplify_eq; trace_simpl.
  all: eexists; split; reflexivity.
Qed.

(** *** The index step *)

Lemma world_with_world (w : World CS) evs st : world (with_world w evs st) = w.
Proof. reflexivity. Qed.

(** C5, as the handler meets it.  An upload that is written to disk and
    for which ingestion returns chunks goes on to the index: it calls
    [create_vector_store] when no index is active, and otherwise
    [add_documents_to_existing_store] and, when that returned,
    [load_vector_store].  When these calls and the two constructors
    return, the upload succeeds and the session is replaced as a whole:
    the store is the one that [create_vector_store] returned, or the one
    that [load_vector_store] read back from the persisted index, and
    both engines are built anew from that store. *)
Theorem upload_builds_or_extends_index file st fs1 chunks w1 :
  let file_path := Py.path_join UPLOAD_DIR (UploadFile.filename file) in
  supported (file_extension E (UploadFile.filename file)) = true ->
  Fs.open_wb (cwd E) file_path (UploadFile.file file) (fs (world st)) = inr fs1 ->
  process_documents E file_path {| fs := fs1; cs := cs (world st) |} = (inr chunks, w1) ->
  chunks <> [] ->
  let out := upload_document E file st in
  let calls := new_events st out.2 in
  calls !! 0%nat = Some (EvProcessDocuments file_path (inr chunks)) /\
  index_call_follows (vector_store st) chunks calls /\
  forall v w2 rag w3 quiz w4,
    match vector_store st with
    | None => create_vector_store E chunks VECTOR_STORE_NAME w1 = (inr v, w2)
    | Some _ =>
        exists w,
          add_documents_to_existing_store E chunks VECTOR_STORE_NAME w1 = (inr tt, w) /\
          load_vector_store E VECTOR_STORE_NAME w = (inr v, w2)
    end ->
    RAGSystem_init E v w2 = (inr rag, w3) ->
    QuizGenerator_init E v w3 = (inr quiz, w4) ->
    out = (inr (upload_success_body (UploadFile.filename file) (List.length chunks)),
           {| vector_store := Some v; rag_system := Some rag;
              quiz_generator := Some quiz; world := w4;
              trace := (trace st ++
                        EvProcessDocuments file_path (inr chunks)
                        :: index_events (vector_store st) chunks v
                        ++ [EvRAGSystem v (inr rag); EvQuizGenerator v (inr quiz)])%list |}).
Proof.
  intros file_path Hsup Hopen Hpd Hne out calls. subst calls out.
  destruct (upload_document E file st) as [r st'] eqn:Hrun. cbn [snd].
  assert (new_events st st' !! 0%nat = Some (EvProcessDocuments file_path (inr chunks)))
    as Hfirst.
  { revert Hrun. rewrite (upload_saved E _ _ _ Hsup Hopen). fold file_path.
    unfold try_except, process_upload. unfold bind at 1. unfold call at 1.
    cbn [world set_fs]. rewrite Hpd. unfold create_or_update. unfold_monad.
    repeat case_inner; intros [= <- <-]; trace_simpl; reflexivity. }
  split; [exact Hfirst|]. split.
  { apply (upload_index_call E _ _ _ _ file_path _ Hrun Hne).
    by apply list_elem_of_lookup_2 in Hfirst. }
  intros v w2 rag w3 quiz w4 Hindex Hrag Hquiz.
  revert Hrun. rewrite (upload_saved E _ _ _ Hsup Hopen). fold file_path.
  unfold try_except, process_upload. unfold bind at 1. unfold call at 1.
  cbn [world set_fs]. rewrite Hpd.
  destruct chunks as [|c chunks]; [done|].
  set (cs := c :: chunks) in *.
  unfold create_or_update, upload_success_body. unfold_monad.
  cbn [vector_store with_world set_fs world fst snd].
  rewrite ?world_with_world.
  destruct (vector_store st) as [v0|] eqn:Hvs.
  - destruct Hindex as (w & Hadd & Hload).
    repeat first [ rewrite world_with_world | rewrite Hadd | rewrite Hload
                 | rewrite Hrag | rewrite Hquiz
                 | progress cbn [world fst snd] | progress cbv beta iota ].
    cbn [with_world world trace vector_store rag_system quiz_generator index_events].
    rewrite <- !app_assoc. by intros [= <- <-].
  - repeat first [ rewrite world_with_world | rewrite Hindex
                 | rewrite Hrag | rewrite Hquiz
                 | progress cbn [world fst snd] | progress cbv beta iota ].
    cbn [with_world world trace vector_store rag_system quiz_generator index_events].
    rewrite <- !app_assoc. by intros [= <- <-].
Qed.

(** *** Uploading over a stored file *)

(** C8, as the handler meets it.  When the upload directory already
    holds a regular file of the uploaded name, the write goes through:
    ingestion is called, and the file holds the bytes of the new upload
    when the request is over, whatever its outcome, as long as the
    collaborators keep out of the upload directory.  The request itself
    succeeds when no collaborator raises and ingestion returns chunks;
    it fails only where any upload can fail after the write, by an
    exception of a collaborator or an empty result of ingestion. *)
Theorem reupload_overwrites_stored_file st file old r st' :
  let name := UploadFile.filename file in
  let file_path := Py.path_join UPLOAD_DIR name in
  let entry := (upload_dir E ++ [name])%list in
  Fs.wf (fs (world st)) ->
  fs (world st) !! entry = Some (Fs.RegFile old) ->
  file_extension E name ∈ [".pdf"; ".txt"] ->
  ingestion_leaves_uploads_alone E ->
  upload_document E file st = (r, st') ->
  let calls := new_events st st' in
  (exists res, calls !! 0%nat = Some (EvProcessDocuments file_path res)) /\
  fs (world st') !! entry = Some (Fs.RegFile (UploadFile.file file)) /\
  ((forall ev, ev ∈ calls ->
      raised ev = None /\ forall p, ev <> EvProcessDocuments p (inr [])) ->
   exists body, r = inr body /\ initialized st') /\
  (forall e, r = inl e ->
     exists ev, last calls = Some ev /\
       (raised ev <> None \/ exists p, ev = EvProcessDocuments p (inr []))).
Proof.
  intros name file_path entry Hwf Hold Hext Hquiet Hrun calls.
  assert (supported (file_extension E name) = true) as Hsup
    by (by apply bool_decide_eq_true).
  destruct (wf_lookup _ _ _ Hwf Hold) as (_ & Hvalid & Hup).
  unfold entry in Hvalid, Hup. rewrite last_last in Hvalid.
  rewrite removelast_last in Hup.
  destruct (upload_dirs_of_wf E _ Hwf Hup) as [Hcwd Hdata].
  assert (fs (world st) !! entry <> Some Fs.Directory) as Hnodir
    by (by rewrite Hold).
  assert (Fs.open_wb (cwd E) file_path (UploadFile.file file) (fs (world st))
          = inr (<[entry := Fs.RegFile (UploadFile.file file)]> (fs (world st))))
    as Hopen.
  { apply open_wb_upload_entry; try done. by apply is_dir_entry_false. }
  assert (forall e, r = inl e ->
            exists ev, last calls = Some ev /\
              (raised ev <> None \/ exists p, ev = EvProcessDocuments p (inr [])))
    as Hcause.
  { intros e ->.
    destruct (upload_failure_cause E _ _ _ _ Hrun) as [Hno|[[e' Hfail]|Hcause]].
    - fold name in Hno. congruence.
    - fold name file_path in Hfail. congruence.
    - exact Hcause. }
  split; [|split; [|split; [|exact Hcause]]].
  - revert Hrun. rewrite (upload_saved E _ _ _ Hsup Hopen). fold name file_path.
    unfold calls, try_except, process_upload, create_or_update. unfold_monad.
    repeat case_inner; intros [= <- <-]; trace_simpl; by eexists.
  - exact (proj1 (upload_keeps_saved_file file st r st' Hvalid Hsup Hwf Hup Hnodir
                    Hquiet Hrun)).
  - intros Hall. destruct r as [e|body].
    + exfalso. destruct (Hcause e eq_refl) as (ev & Hlast & Hev).
      apply last_Some_elem_of in Hlast. destruct (Hall ev Hlast) as [Hraised Hchunks].
      destruct Hev as [Hev|[p ->]]; [done|]. by apply (Hchunks p).
    + exists body. split; [done|]. by eapply upload_success_initializes.
Qed.

End Uploads.

(** ** The reset *)

Section Reset.

Context {Chunk VectorStore RAGSystem QuizGenerator CS : Type}.
Variable E : Env Chunk VectorStore RAGSystem QuizGenerator CS.
Implicit Type st : State Chunk VectorStore RAGSystem QuizGenerator CS.

(** X16. A reset that fails does not clear the session: the response is
    a 500 whose detail starts with "Reset failed: ", the three globals
    are the ones from before, and no collaborator is called. *)
Theorem failed_reset_keeps_session st e st' :
  reset_system E st = (inl e, st') ->
  (exists msg, e = HTTPException 500 (PStr ("Reset failed: " ++ msg))) /\
  session st' = session st /\
  new_events st st' = [].
Proof.
  intros Hrun. pose proof (reset_no_events _ _ _ _ Hrun) as Hnone.
  destruct (reset_system_outcome _ _ _ _ Hrun) as (_ & _ & _ & Herr & _).
  destruct (Herr e eq_refl) as [Hs Hmsg]. done.
Qed.

(** The steps of a reset that succeeds. *)
Lemma reset_system_steps st body st' :
  reset_system E st = (inr body, st') ->
  exists names st1,
    Fs.listdir (cwd E) UPLOAD_DIR (fs (world st)) = inr names /\
    for_each names (remove_if_file E) st = (inr tt, st1) /\
    let path := Py.path_join "data/vector_store" VECTOR_STORE_NAME in
    if Fs.exists_ (cwd E) path (fs (world st1))
    then Fs.rmtree (cwd E) path (fs (world st1)) = inr (fs (world st'))
    else fs (world st') = fs (world st1).
Proof.
  unfold reset_system, try_except. unfold bind at 1. unfold os_read at 1.
  destruct (Fs.listdir _ _ _) as [e|names] eqn:Hls.
  { unfold_monad. by case_match. }
  unfold bind at 1.
  destruct (for_each names _ st) as [[e|[]] st1] eqn:Hloop.
  { unfold_monad. by case_match. }
  intros Hrun. exists names, st1. split; [done|]. split; [done|].
  revert Hrun. unfold_monad. cbv zeta.
  destruct (Fs.exists_ _ _ _) eqn:Hex.
  - destruct (Fs.rmtree _ _ _) as [e|fs2] eqn:Hrm.
    + by case_match.
    + by intros [= _ <-].
  - by intros [= _ <-].
Qed.

Lemma wf_ancestor_dir fs p k :
  Fs.wf fs -> k <> [] -> is_Some (fs !! (p ++ k)%list) -> Fs.is_dir fs p = true.
Proof.
  intros Hwf. induction k as [|c k IH] using rev_ind; [done|]. intros _ [nd Hq].
  apply (wf_lookup _ _ _ Hwf) in Hq as (_ & _ & Hparent).
  rewrite app_assoc, removelast_last in Hparent.
  destruct k as [|c' k]; [by rewrite app_nil_r in Hparent|].
  apply IH; [done|]. exists Fs.Directory.
  apply is_dir_lookup; [|done]. by destruct p.
Qed.

Lemma is_dir_present fs p : Fs.is_dir fs p = true -> Fs.present fs p = true.
Proof.
  unfold Fs.is_dir, Fs.present. destruct p; [done|].
  by destruct (fs !! _) as [[]|].
Qed.

Lemma exists_vector_store fs :
  Fs.is_dir fs (cwd E) = true ->
  Fs.is_dir fs (cwd E ++ ["data"]) = true ->
  Fs.is_dir fs (cwd E ++ ["data"; "vector_store"]) = true ->
  Fs.exists_ (cwd E) (Py.path_join "data/vector_store" VECTOR_STORE_NAME) fs =
    Fs.present fs (vector_store_dir E).
Proof.
  intros Hcwd Hdata Hvs. unfold Fs.exists_, Fs.resolve, Fs.start, vector_store_dir.
  change (Py.path_join "data/vector_store" VECTOR_STORE_NAME)
    with "data/vector_store/study_materials".
  change (Py.contains "000" "data/vector_store/study_materials") with false.
  change (String.eqb "data/vector_store/study_materials" "") with false.
  change (Fs.path_too_long "data/vector_store/study_materials") with false.
  change (Py.startswith "/" "data/vector_store/study_materials") with false.
  change (Py.split "/" "data/vector_store/study_materials")
    with ["data"; "vector_store"; "study_materials"].
  cbn [Fs.walk String.eqb Ascii.eqb Bool.eqb orb].
  change (Fs.name_too_long "data") with false.
  change (Fs.name_too_long "vector_store") with false.
  change (Fs.name_too_long "study_materials") with false.
  cbv iota.
  rewrite Hcwd, Hdata.
  rewrite <- (app_assoc (cwd E) ["data"] ["vector_store"]). cbn [app].
  rewrite Hvs. by rewrite <- !app_assoc.
Qed.

(** X17. After a successful reset nothing is left of the persisted
    index: in a well-formed file system no path at or below
    [data/vector_store/study_materials] has an entry any more. *)
Theorem reset_removes_persisted_index st body st' q :
  Fs.wf (fs (world st)) ->
  reset_system E st = (inr body, st') ->
  vector_store_dir E `prefix_of` q ->
  fs (world st') !! q = None.
Proof.
  intros Hwf Hrun [k ->].
  destruct (reset_system_steps _ _ _ Hrun) as (names & st1 & _ & Hloop & Hrest).
  apply for_each_remove_outcome in Hloop as (_ & _ & _ & Hsub & Hd & _ & _).
  cbv zeta in Hrest.
  destruct (Fs.exists_ _ _ (fs (world st1))) eqn:Hex.
  - apply rmtree_inv in Hrest as (p & Hres & Hfs).
    apply resolve_vector_store in Hres as ->. rewrite Hfs.
    apply map_lookup_filter_None_2. right. intros nd _ Hnot. apply Hnot.
    by exists k.
  - rewrite Hrest.
    destruct (fs (world st1) !! (vector_store_dir E ++ k)%list) as [nd|] eqn:Hq;
      [exfalso|done].
    pose proof (lookup_weaken _ _ _ _ Hq Hsub) as Hq0.
    assert (Fs.present (fs (world st1)) (vector_store_dir E) = true) as Hpresent.
    { destruct k as [|c k].
      - rewrite app_nil_r in Hq. unfold Fs.present.
        destruct (vector_store_dir E) eqn:Hv; [done|].
        apply bool_decide_eq_true. by rewrite Hq.
      - apply is_dir_present. rewrite Hd.
        by apply (wf_ancestor_dir _ _ (c :: k) Hwf). }
    assert (Fs.is_dir (fs (world st)) (cwd E ++ ["data"; "vector_store"]) = true)
      as Hvs.
    { apply (wf_ancestor_dir _ _ ("study_materials" :: k) Hwf); [done|].
      exists nd. rewrite <- Hq0. f_equal. unfold vector_store_dir.
      by rewrite <- !app_assoc. }
    assert (Fs.is_dir (fs (world st)) (cwd E ++ ["data"]) = true) as Hdata.
    { apply (wf_parent_dir _ _ "vector_store" Hwf). by rewrite <- app_assoc. }
    assert (Fs.is_dir (fs (world st)) (cwd E) = true) as Hcwd
      by (by apply (wf_parent_dir _ _ "data" Hwf)).
    rewrite exists_vector_store in Hex by (by rewrite Hd).
    congruence.
Qed.

(** The reset loop changes the file system only at paths that one of the
    listed names resolves to and that hold a regular file. *)
Lemma for_each_remove_only_files names st r st' q :
  for_each names (remove_if_file E) st = (r, st') ->
  fs (world st') !! q = fs (world st) !! q \/
  exists n, n ∈ names /\
    Fs.resolve (cwd E) (fs (world st)) (Py.path_join UPLOAD_DIR n) = inr q /\
    Fs.is_file (fs (world st)) q = true.
Proof.
  revert st. induction names as [|n names IH]; intros st; simpl.
  - unfold ret. intros [= _ <-]. by left.
  - unfold bind at 1. unfold remove_if_file at 1. unfold_monad.
    destruct (Fs.isfile _ _ _) eqn:Hfile.
    + destruct (Fs.remove _ _ _) as [e|fs'] eqn:Hrm.
      * intros [= _ <-]. by left.
      * intros Hrun. pose proof (remove_subseteq _ _ _ _ Hrm) as Hsub.
        destruct (remove_inv _ _ _ _ Hrm) as (p & Hres & Hp & ->).
        apply IH in Hrun as [Hsame|(n' & Hn' & Hres' & Hfile')]; simpl in *.
        -- destruct (decide (p = q)) as [->|Hne].
           ++ right. exists n. split; [apply list_elem_of_here|done].
           ++ left. by rewrite Hsame, lookup_delete_ne.
        -- right. exists n'. split; [by apply list_elem_of_further|]. split.
           ++ by apply (resolve_mono _ _ _ _ _ Hsub).
           ++ by apply (is_file_mono _ _ _ Hsub).
    + intros Hrun. apply IH in Hrun as [Hsame|(n' & Hn' & Hres' & Hfile')].
      * by left.
      * right. exists n'. split; [by apply list_elem_of_further|done].
Qed.

(** X18. A successful reset deletes nothing else: in a well-formed file
    system, an entry that is different afterwards lies at or below the
    directory of the persisted index, or was a regular file directly in
    the upload directory.  Subdirectories of the upload directory and
    what they hold, and everything outside, stay. *)
Theorem reset_touches_nothing_else st body st' q :
  Fs.wf (fs (world st)) ->
  reset_system E st = (inr body, st') ->
  fs (world st') !! q = fs (world st) !! q \/
  vector_store_dir E `prefix_of` q \/
  exists n content,
    q = (upload_dir E ++ [n])%list /\
    fs (world st) !! q = Some (Fs.RegFile content).
Proof.
  intros Hwf Hrun.
  destruct (reset_system_steps _ _ _ Hrun) as (names & st1 & Hls & Hloop & Hrest).
  apply listdir_uploads_inv in Hls as (Hcwd & Hdata & Hup & ->).
  assert (fs (world st') !! q = fs (world st1) !! q \/
          vector_store_dir E `prefix_of` q) as [Hstep|Hunder]; [| |by right; left].
  { cbv zeta in Hrest. destruct (Fs.exists_ _ _ _).
    - apply rmtree_inv in Hrest as (p & Hres & ->).
      apply resolve_vector_store in Hres as ->.
      destruct (decide (vector_store_dir E `prefix_of` q)) as [Hpre|Hpre]; [by right|].
      left. destruct (fs (world st1) !! q) as [nd|] eqn:Hq.
      + by apply map_lookup_filter_Some_2.
      + apply map_lookup_filter_None_2. by left.
    - left. by rewrite Hrest. }
  rewrite Hstep.
  destruct (for_each_remove_only_files _ _ _ _ q Hloop)
    as [Hsame|(n & Hn & Hres & Hfile)]; [by left|].
  right. right.
  apply elem_of_children in Hn as (p & nd & Hp & _ & _ & Hlast).
  destruct (wf_lookup _ _ _ Hwf Hp) as (_ & Hvalid & _). rewrite Hlast in Hvalid.
  destruct (resolve_upload_entry _ (fs (world st)) n Hvalid Hcwd Hdata Hup)
    as [_ Hres'].
  rewrite Hres' in Hres. injection Hres as <-.
  unfold Fs.is_file in Hfile.
  destruct (fs (world st) !! (upload_dir E ++ [n])%list) as [[content|]|] eqn:Hq;
    try done.
  by exists n, content.
Qed.

End Reset.

(** ** The extension test *)

Section Extension.

Context {Chunk VectorStore RAGSystem QuizGenerator CS : Type}.
Variable E : Env Chunk VectorStore RAGSystem QuizGenerator CS.
Implicit Type st : State Chunk VectorStore RAGSystem QuizGenerator CS.

(** Lowering a character neither makes nor unmakes a separator or a dot. *)
Lemma lower_ascii_slash c : Ascii.eqb (Py.lower_ascii c) "/" = Ascii.eqb c "/".
Proof. by destruct c as [[] [] [] [] [] [] [] []]. Qed.

Lemma lower_ascii_dot c : Ascii.eqb (Py.lower_ascii c) "." = Ascii.eqb c ".".
Proof. by destruct c as [[] [] [] [] [] [] [] []]. Qed.

Lemma lower_ascii_idemp c : Py.lower_ascii (Py.lower_ascii c) = Py.lower_ascii c.
Proof. by destruct c as [[] [] [] [] [] [] [] []]. Qed.

Lemma lower_idemp s : Py.ascii_lower (Py.ascii_lower s) = Py.ascii_lower s.
Proof. induction s as [|c s IH]; [done|]. simpl. by rewrite lower_ascii_idemp, IH. Qed.

Lemma lower_length s : String.length (Py.ascii_lower s) = String.length s.
Proof. induction s as [|c s IH]; [done|]. simpl. by rewrite IH. Qed.

Lemma lower_substring s : forall i n,
  String.substring i n (Py.ascii_lower s) = Py.ascii_lower (String.substring i n s).
Proof.
  induction s as [|c s IH]; intros [|i] [|n]; simpl; rewrite ?IH; done.
Qed.

Lemma lower_rfind_dot s : Py.rfind "." (Py.ascii_lower s) = Py.rfind "." s.
Proof.
  induction s as [|c s IH]; [done|]. simpl. rewrite IH.
  destruct (Py.rfind "." s); [done|]. by rewrite lower_ascii_dot.
Qed.

Lemma lower_name_suffix name :
  Py.name_suffix (Py.ascii_lower name) = Py.ascii_lower (Py.name_suffix name).
Proof.
  unfold Py.name_suffix. rewrite lower_rfind_dot, lower_length.
  destruct (Py.rfind "." name) as [i|]; [|done].
  case_match; [|done]. apply lower_substring.
Qed.

Lemma lower_split s :
  Py.split "/" (Py.ascii_lower s) = List.map Py.ascii_lower (Py.split "/" s).
Proof.
  induction s as [|c s IH]; [done|]. simpl. rewrite lower_ascii_slash, IH.
  destruct (Ascii.eqb c "/"); [done|]. simpl.
  by destruct (Py.split "/" s).
Qed.

Lemma lower_eqb_empty s : String.eqb (Py.ascii_lower s) "" = String.eqb s "".
Proof. by destruct s. Qed.

Lemma lower_eqb_dot s : String.eqb (Py.ascii_lower s) "." = String.eqb s ".".
Proof.
  destruct s as [|c s]; [done|]. cbn [Py.ascii_lower String.eqb].
  by rewrite lower_ascii_dot, lower_eqb_empty.
Qed.

Lemma last_cons {A} (a : A) l d : List.last (a :: l) d = List.last l a.
Proof.
  revert a d. induction l as [|b l IH]; intros a d; [done|].
  change (List.last (a :: b :: l) d) with (List.last (b :: l) d).
  by rewrite !IH.
Qed.

Lemma lower_last_component l : forall d,
  List.last (List.filter (fun x => negb (String.eqb x "" || String.eqb x "."))
                         (List.map Py.ascii_lower l)) (Py.ascii_lower d) =
  Py.ascii_lower (List.last (List.filter (fun x => negb (String.eqb x "" || String.eqb x "."))
                                   l) d).
Proof.
  induction l as [|x l IH]; intros d; [done|]. cbn [List.map List.filter].
  rewrite lower_eqb_empty, lower_eqb_dot.
  destruct (negb _); [|apply IH]. by rewrite !last_cons, IH.
Qed.

Lemma lower_path_name s : Py.path_name (Py.ascii_lower s) = Py.ascii_lower (Py.path_name s).
Proof.
  unfold Py.path_name. rewrite lower_split. exact (lower_last_component _ "").
Qed.

(** Lowering and the path operations keep an ASCII string ASCII. *)
Lemma is_ascii_lower_ascii c :
  (nat_of_ascii (Py.lower_ascii c) <? 128)%nat = (nat_of_ascii c <? 128)%nat.
Proof. by destruct c as [[] [] [] [] [] [] [] []]. Qed.

Lemma is_ascii_ascii_lower s : Py.is_ascii (Py.ascii_lower s) = Py.is_ascii s.
Proof.
  induction s as [|c s IH]; [done|]. cbn [Py.ascii_lower Py.is_ascii].
  by rewrite is_ascii_lower_ascii, IH.
Qed.

Lemma is_ascii_substring s : forall i n,
  Py.is_ascii s = true -> Py.is_ascii (String.substring i n s) = true.
Proof.
  induction s as [|c s IH]; intros [|i] [|n]; try done.
  - cbn [String.substring Py.is_ascii]. intros [Hc Hs]%andb_prop.
    by rewrite Hc, (IH 0%nat n Hs).
  - cbn [String.substring Py.is_ascii]. intros [_ Hs]%andb_prop. by apply IH.
  - cbn [String.substring Py.is_ascii]. intros [_ Hs]%andb_prop. by apply IH.
Qed.

Lemma is_ascii_name_suffix name :
  Py.is_ascii name = true -> Py.is_ascii (Py.name_suffix name) = true.
Proof.
  intros Hname. unfold Py.name_suffix. repeat case_match; try done.
  by apply is_ascii_substring.
Qed.

Lemma is_ascii_split s :
  Py.is_ascii s = true -> Forall (fun x => Py.is_ascii x = true) (Py.split "/" s).
Proof.
  induction s as [|c s IH]; [by repeat constructor|].
  cbn [Py.is_ascii Py.split]. intros [Hc Hs]%andb_prop. specialize (IH Hs).
  destruct (Ascii.eqb c "/"); [by constructor|].
  destruct (Py.split "/" s) as [|x l]; cbn [List.hd List.tl].
  - constructor; [|done]. cbn [Py.is_ascii]. by rewrite Hc.
  - inversion IH; subst. constructor; [|done]. cbn [Py.is_ascii]. by rewrite Hc.
Qed.

Lemma is_ascii_last l : forall d,
  Forall (fun x => Py.is_ascii x = true) l -> Py.is_ascii d = true ->
  Py.is_ascii (List.last l d) = true.
Proof.
  induction l as [|x l IH]; intros d Hl Hd; [done|].
  inversion Hl; subst. rewrite last_cons. by apply IH.
Qed.

Lemma is_ascii_path_name s :
  Py.is_ascii s = true -> Py.is_ascii (Py.path_name s) = true.
Proof.
  intros Hs. unfold Py.path_name. apply is_ascii_last; [|done].
  apply Forall_forall. intros x Hx.
  apply list_elem_of_In, filter_In in Hx as [Hx _].
  pose proof (is_ascii_split s Hs) as Hall.
  rewrite Forall_forall in Hall. by apply Hall, list_elem_of_In.
Qed.

Lemma lower_of_ascii s :
  Py.is_ascii s = true -> Py.lower (str_lower E) s = Py.ascii_lower s.
Proof. intros Hs. unfold Py.lower. by rewrite Hs. Qed.

(** X19. On ASCII file names the extension test does not look at letter
    case: such a name and its lower-case form have the same lowered
    suffix, so /upload takes "NOTES.PDF" and "Notes.Txt" as it takes
    "notes.pdf". *)
Theorem extension_test_ignores_case (filename : string) :
  Py.is_ascii filename = true ->
  file_extension E (Py.lower (str_lower E) filename) = file_extension E filename /\
  supported (file_extension E (Py.lower (str_lower E) filename)) =
    supported (file_extension E filename).
Proof.
  intros Hascii.
  assert (file_extension E (Py.lower (str_lower E) filename) =
          file_extension E filename) as Heq.
  { pose proof (is_ascii_name_suffix _ (is_ascii_path_name _ Hascii)) as Hsuf.
    unfold file_extension, Py.suffix in *.
    rewrite (lower_of_ascii filename Hascii).
    rewrite lower_path_name, lower_name_suffix.
    rewrite !lower_of_ascii; [by rewrite lower_idemp|done|].
    by rewrite is_ascii_ascii_lower. }
  by rewrite Heq.
Qed.

Lemma rfind_none c s : Py.contains c s = false -> Py.rfind c s = None.
Proof.
  induction s as [|a s IH]; [done|]. simpl.
  intros [Ha Hs]%orb_false_elim. by rewrite (IH Hs), Ha.
Qed.

(** X20. A plain file name with no dot after its first character has no
    extension for the handler: names such as "README", and also ".txt"
    and ".pdf", are turned away with status 400 like any unsupported
    type, and nothing is written. *)
Theorem upload_without_extension_is_rejected c rest content_type body st :
  Py.contains "/" (String c rest) = false ->
  Py.contains "." rest = false ->
  upload_document E {| UploadFile.filename := String c rest;
                       UploadFile.content_type := content_type;
                       UploadFile.file := body |} st =
    (inl (HTTPException 400
            (PStr "Unsupported file type: . Only .pdf and .txt are supported.")),
     st).
Proof.
  intros Hslash Hdot.
  assert (file_extension E (String c rest) = "") as Hext.
  { unfold file_extension, Py.suffix, Py.path_name.
    rewrite (split_plain _ Hslash). cbn [List.filter].
    assert (Py.name_suffix (String c rest) = "") as Hname.
    { unfold Py.name_suffix. cbn [Py.rfind]. rewrite (rfind_none _ _ Hdot).
      by destruct (Ascii.eqb c "."). }
    destruct (negb _); cbn [List.last]; [by rewrite Hname|done]. }
  rewrite (upload_rejected E); cbn [UploadFile.filename]; by rewrite Hext.
Qed.

End Extension.

(** ** Requests one after the other *)

Section Sequences.

Context {Chunk VectorStore RAGSystem QuizGenerator CS : Type}.
Variable E : Env Chunk VectorStore RAGSystem QuizGenerator CS.
Implicit Type st : State Chunk VectorStore RAGSystem QuizGenerator CS.

(** [os.makedirs] on the way to the upload directory leaves the entries
    of that directory alone. *)
Lemma makedirs_uploads fs fs' :
  Fs.makedirs (cwd E) UPLOAD_DIR fs = inr fs' ->
  Fs.is_dir fs' (upload_dir E) = true /\
  Fs.is_dir fs' (cwd E ++ ["data"]) = true /\
  forall n, fs' !! (upload_dir E ++ [n])%list = fs !! (upload_dir E ++ [n])%list.
Proof.
  unfold Fs.makedirs, upload_dir.
  change (Py.split "/" UPLOAD_DIR) with ["data"; "uploads"].
  cbn [Fs.mkdirs]. rewrite <- (app_assoc (cwd E) ["data"] ["uploads"]). cbn [app].
  assert (forall l n, (List.length l < 3)%nat ->
            (cwd E ++ l)%list <> (cwd E ++ ["data"; "uploads"] ++ [n])%list) as Hne.
  { intros l n Hl Heq%(f_equal List.length). rewrite !length_app in Heq.
    simpl in Heq. lia. }
  assert (forall (m : Fs.FS) p, p <> [] -> Fs.is_dir (<[p := Fs.Directory]> m) p = true)
    as Hnew.
  { intros m p Hp. unfold Fs.is_dir. destruct p; [done|]. by rewrite lookup_insert_eq. }
  assert (forall (m : Fs.FS) p q, p <> q -> Fs.is_dir m q = true ->
            Fs.is_dir (<[p := Fs.Directory]> m) q = true) as Hold.
  { intros m p q Hpq. unfold Fs.is_dir. destruct q; [done|].
    by rewrite lookup_insert_ne. }
  repeat case_match; intros [= <-]; repeat split; try done.
  all: try (apply Hnew; by destruct (cwd E)).
  all: try (apply Hold; [|done]; intros Heq%(f_equal List.length);
            rewrite !length_app in Heq; simpl in Heq; lia).
  all: try (apply Hold; [|apply Hnew; by destruct (cwd E)];
            intros Heq%(f_equal List.length);
            rewrite !length_app in Heq; simpl in Heq; lia).
  all: intros n; rewrite <- app_assoc; rewrite ?lookup_insert_ne; try done.
  all: try (apply (Hne ["data"; "uploads"]) || apply (Hne ["data"]); simpl; lia).
Qed.

(** X21. A restart keeps the files and drops the session: provided the
    constructor of the ingestion object keeps out of the upload
    directory, when the module body has run the upload directory exists
    and every entry it had before is still there, but the three globals
    are [None] and /ask asks for an upload first. *)
Theorem restart_keeps_files_and_drops_session w st ask :
  leaves_uploads_alone E (DocumentIngestion_init E) ->
  start E w = (inr tt, st) ->
  Fs.is_dir (fs (world st)) (upload_dir E) = true /\
  (forall n, fs (world st) !! (upload_dir E ++ [n])%list =
             fs w !! (upload_dir E ++ [n])%list) /\
  uninitialized st /\
  handle E (POST_ask ask) st = (inl (HTTPException 400 no_documents), st).
Proof.
  intros Hinit. unfold start, module_init, blank. unfold_monad. cbn [world].
  specialize (Hinit w). destruct (DocumentIngestion_init E w) as [[e|[]] w1]; [done|].
  cbn [world fs snd with_world] in *.
  destruct (Fs.makedirs _ _ _) as [e|fs'] eqn:Hmk; [done|].
  intros [= <-]. apply makedirs_uploads in Hmk as (Hup & _ & Hentries).
  destruct Hinit as (_ & _ & _ & Hsame).
  split; [done|]. split; [intros n; cbn; by rewrite Hentries|].
  split; [done|]. simpl. by rewrite ask_question_guard.
Qed.

(** X22. After a successful upload /ask goes to the engine that this
    upload has built, on the store that this upload has installed: the
    one call that /ask makes is [ask_question] of that engine, with the
    question and [k] of the request. *)
Theorem ask_after_upload_uses_new_engine file st body st' ask :
  upload_document E file st = (inr body, st') ->
  exists v rag res,
    vector_store st' = Some v /\
    EvRAGSystem v (inr rag) ∈ new_events st st' /\
    new_events st' (handle E (POST_ask ask) st').2 =
      [EvAskQuestion rag (QuestionRequest.question ask) (QuestionRequest.k ask) res].
Proof.
  intros (chunks & v & rag & quiz & _ & Hev & Hs)%upload_success_outcome.
  unfold session in Hs. injection Hs as Hv Hr Hq.
  exists v, rag. cbn [handle]. unfold ask_question. unfold_monad. rewrite Hr.
  destruct (rag_ask_question E rag _ _ (world st')) as [res w] eqn:Hask.
  exists res. split; [done|]. split; [rewrite Hev; set_solver|].
  repeat case_inner; trace_simpl; reflexivity.
Qed.

(** X23. The status page and the query endpoints test different
    globals.  When the first upload has built the index and then fails
    to build the RAG engine, GET / reports "documents_loaded": true,
    while /ask still answers that no documents were uploaded. *)
Theorem status_says_loaded_while_ask_refuses file st r st' v e ask :
  rag_system st = None ->
  upload_document E file st = (r, st') ->
  EvRAGSystem v (inl e) ∈ new_events st st' ->
  (exists body,
     handle E GET_root st' = (inr (PDict body), st') /\
     dict_get body "documents_loaded" = Some (PBool true)) /\
  handle E (POST_ask ask) st' = (inl (HTTPException 400 no_documents), st').
Proof.
  intros Hnone Hrun Hev.
  destruct (rag_failure_outcome E _ _ _ _ _ _ Hrun Hev) as (_ & Hv & Hr & _).
  split.
  - cbn [handle]. unfold root. unfold_monad. rewrite Hv.
    eexists. split; [reflexivity|]. reflexivity.
  - simpl. apply ask_question_guard. congruence.
Qed.

(** X24. Ingestion, the index and the engine constructors are called by
    /upload only: no other request ever creates, extends or loads the
    index or builds an engine, and /reset, GET / and GET /documents call
    no collaborator at all. *)
Theorem only_upload_calls_ingestion req st ev :
  is_upload req = false ->
  ev ∈ new_events st (handle E req st).2 ->
  upload_event ev = false /\
  req <> GET_root /\ req <> GET_documents /\ req <> DELETE_reset.
Proof.
  intros Hreq. destruct req; try discriminate Hreq.
  8: { intros Hev. exfalso. destruct (reset_system E st) as [r st'] eqn:Hrun.
       simpl in Hev. rewrite Hrun in Hev. simpl in Hev.
       rewrite (reset_no_events E _ _ _ Hrun) in Hev. by apply elem_of_nil in Hev. }
  all: run_query; repeat case_inner; intros Hev; trace_simpl; trace_cases; done.
Qed.

End Sequences.

(** ** Runs of requests *)

Section Runs.

Context {Chunk VectorStore RAGSystem QuizGenerator CS : Type}.
Variable E : Env Chunk VectorStore RAGSystem QuizGenerator CS.
Implicit Type st : State Chunk VectorStore RAGSystem QuizGenerator CS.

(** The trace only grows. *)
Lemma handle_trace req st :
  trace (handle E req st).2 = (trace st ++ new_events st (handle E req st).2)%list.
Proof.
  destruct req.
  9: { destruct (handle E DELETE_reset st) as [r st'] eqn:Hrun. simpl in *.
       rewrite (reset_no_events E _ _ _ Hrun).
       apply reset_system_outcome in Hrun as (-> & _). by rewrite app_nil_r. }
  all: run_handler.
  all: repeat case_inner; trace_simpl; cbn [snd trace];
    rewrite <- ?app_assoc, ?drop_app_length, ?drop_all, ?app_nil_r; reflexivity.
Qed.

Lemma serve_trace reqs : forall st,
  trace (serve E reqs st) = (trace st ++ new_events st (serve E reqs st))%list.
Proof.
  induction reqs as [|req reqs IH]; intros st; cbn [serve].
  - unfold new_events. by rewrite drop_all, app_nil_r.
  - unfold new_events at 1. rewrite IH, (handle_trace req st), <- app_assoc.
    by rewrite drop_app_length.
Qed.

Lemma new_events_serve req reqs st :
  new_events st (serve E (req :: reqs) st) =
    (new_events st (handle E req st).2 ++
     new_events (handle E req st).2 (serve E reqs (handle E req st).2))%list.
Proof.
  cbn [serve]. unfold new_events at 1.
  rewrite (serve_trace reqs), (handle_trace req st), <- app_assoc.
  by rewrite drop_app_length.
Qed.

(** The RAG engine of the session comes from a call of its constructor
    that returned. *)
Lemma handle_rag_system req st :
  rag_system (handle E req st).2 = rag_system st \/
  rag_system (handle E req st).2 = None \/
  existsb rag_built (new_events st (handle E req st).2) = true.
Proof.
  destruct req.
  9: { destruct (handle E DELETE_reset st) as [r st'] eqn:Hrun. simpl in *.
       apply reset_system_outcome in Hrun as (_ & _ & _ & Herr & Hok).
       destruct r as [e|body].
       - left. destruct (Herr e eq_refl) as [Hs _]. unfold session in Hs. congruence.
       - right; left. by destruct (Hok body eq_refl) as ((_ & ? & _) & _). }
  all: run_handler.
  all: repeat case_inner; trace_simpl; cbn [snd rag_system];
    first [ by left
          | right; right; cbn [existsb rag_built app orb]; reflexivity
          | right; right; cbn [existsb rag_built app orb];
            rewrite ?orb_true_r; reflexivity ].
Qed.

(** The quiz engine of the session comes from an upload that succeeded. *)
Lemma handle_quiz_generator req st :
  quiz_generator (handle E req st).2 = quiz_generator st \/
  quiz_generator (handle E req st).2 = None \/
  upload_succeeded (req, (handle E req st).1) = true.
Proof.
  destruct req.
  9: { destruct (handle E DELETE_reset st) as [r st'] eqn:Hrun. simpl in *.
       apply reset_system_outcome in Hrun as (_ & _ & _ & Herr & Hok).
       destruct r as [e|body].
       - left. destruct (Herr e eq_refl) as [Hs _]. unfold session in Hs. congruence.
       - right; left. by destruct (Hok body eq_refl) as ((_ & _ & ?) & _). }
  all: run_handler.
  all: repeat case_inner; cbn [snd fst quiz_generator upload_succeeded];
    first [ by left | by right; right ].
Qed.

Lemma serve_rag_system reqs : forall st,
  rag_system st = None ->
  no_rag_built E reqs st = true ->
  rag_system (serve E reqs st) = None.
Proof.
  unfold no_rag_built.
  induction reqs as [|req reqs IH]; intros st Hnone Hno; [done|].
  rewrite new_events_serve, forallb_app in Hno.
  apply andb_prop in Hno as [Hfirst Hrest].
  cbn [serve]. apply IH; [|done].
  destruct (handle_rag_system req st) as [Heq|[Heq|Hbuilt]]; [congruence|done|].
  exfalso. apply existsb_exists in Hbuilt as (ev & Hin & Hev).
  rewrite forallb_forall in Hfirst. specialize (Hfirst ev Hin).
  by rewrite Hev in Hfirst.
Qed.

Lemma serve_quiz_generator reqs : forall st,
  quiz_generator st = None ->
  no_successful_upload E reqs st = true ->
  quiz_generator (serve E reqs st) = None.
Proof.
  unfold no_successful_upload.
  induction reqs as [|req reqs IH]; intros st Hnone Hno; [done|].
  cbn [responses forallb] in Hno. apply andb_prop in Hno as [Hfirst Hrest].
  cbn [serve]. apply IH; [|done].
  destruct (handle_quiz_generator req st) as [Heq|[Heq|Hup]]; [congruence|done|].
  by rewrite Hup in Hfirst.
Qed.

(** C2, as the handlers meet it.  Each guard tests one global.  /ask,
    /summarize and /definitions answer with the 400 that asks for an
    upload, and leave the state and the trace as they are, as long as no
    upload since the start or the last reset has got as far as building
    the RAG engine; /quiz/generate does so as long as no upload since
    then has succeeded.  The runs start in a state with the three
    globals [None], as the module body and a successful reset leave
    them, and go through any requests. *)
Theorem queries_before_upload_are_rejected st0 reqs ask sum topic quiz :
  uninitialized st0 ->
  let st := serve E reqs st0 in
  let upload_first := (inl (HTTPException 400 no_documents), st) in
  (no_rag_built E reqs st0 = true ->
   handle E (POST_ask ask) st = upload_first /\
   handle E (POST_summarize sum) st = upload_first /\
   handle E (POST_definitions topic) st = upload_first) /\
  (no_successful_upload E reqs st0 = true ->
   handle E (POST_quiz_generate quiz) st = upload_first).
Proof.
  intros (_ & Hrag & Hquiz). split.
  - intros Hno. pose proof (serve_rag_system _ _ Hrag Hno) as Hnone. simpl.
    by rewrite (ask_question_guard E), (summarize_guard E), (get_definitions_guard E).
  - intros Hno. pose proof (serve_quiz_generator _ _ Hquiz Hno) as Hnone. simpl.
    by rewrite (generate_quiz_guard E).
Qed.

End Runs.

(** ** Exceptions by class *)

Section Exceptions.

Context {Chunk VectorStore RAGSystem QuizGenerator CS : Type}.
Variable E : Env Chunk VectorStore RAGSystem QuizGenerator CS.
Implicit Type st : State Chunk VectorStore RAGSystem QuizGenerator CS.

(** X25. An exception of a collaborator that derives from
    [BaseException] only, such as [KeyboardInterrupt] or [SystemExit],
    is caught by no handler: it leaves the handler as it is, and no
    response is made of it. *)
Theorem base_exception_escapes req st r st' ev msg :
  handle E req st = (r, st') ->
  ev ∈ new_events st st' ->
  raised ev = Some (BaseException msg) ->
  r = inl (BaseException msg).
Proof.
  intros Hrun Hev Hr.
  exact (collaborator_exception_outcome E _ _ _ _ _ _ Hrun Hev Hr).
Qed.

(** What becomes of an [HTTPException] of a collaborator, by the place of
    the call. *)
Lemma http_exception_outcome req st r st' ev status detail :
  handle E req st = (r, st') ->
  ev ∈ new_events st st' ->
  raised ev = Some (HTTPException status detail) ->
  if under_http_reraise ev
  then r = inl (HTTPException status detail)
  else exists prefix,
         r = inl (HTTPException 500
                    (PStr (prefix ++ HTTPException_str E status detail))).
Proof.
  destruct req; revert r st'.
  9: { intros r st' Hrun Hev. simpl in Hrun.
       rewrite (reset_no_events E _ _ _ Hrun) in Hev. by apply elem_of_nil in Hev. }
  all: run_handler; intros r st'.
  all: repeat case_inner; intros Hrun Hev Hr; simplify_eq;
    trace_simpl; trace_cases.
  all: cbn [raised raised_of is_Exception is_HTTPException str under_http_reraise] in *;
    simplify_eq.
  all: first [ reflexivity | by eexists ].
Qed.

(** X26. What becomes of an [HTTPException] that a collaborator raises
    depends on the place of the call.  Ingestion, the engine constructors
    and the quiz generation sit under [except HTTPException: raise], and
    the exception reaches the client with its own status and detail; for
    every other call it is caught as an [Exception], and the response is
    a 500 whose detail ends with [str] of the exception. *)
Theorem http_exception_by_call_site req st r st' ev status detail :
  handle E req st = (r, st') ->
  ev ∈ new_events st st' ->
  raised ev = Some (HTTPException status detail) ->
  if under_http_reraise ev
  then r = inl (HTTPException status detail)
  else exists prefix,
         r = inl (HTTPException 500
                    (PStr (prefix ++ HTTPException_str E status detail))).
Proof.
  exact (http_exception_outcome req st r st' ev status detail).
Qed.

(** C6, as the handlers meet it.  An exception that a collaborator raises
    during a request and that derives from [Exception] is caught by the
    handler and answered with status 500; the detail is a fixed prefix
    followed by [str] of the exception.  The one exception to this is an
    [HTTPException] raised by ingestion, by the constructor of an engine
    or by the quiz generation: these calls sit under
    [except HTTPException: raise]. *)
Theorem collaborator_exception_becomes_500 req st r st' ev e :
  handle E req st = (r, st') ->
  ev ∈ new_events st st' ->
  raised ev = Some e ->
  is_Exception e = true ->
  is_HTTPException e && under_http_reraise ev = false ->
  exists prefix, r = inl (HTTPException 500 (PStr (prefix ++ str E e))).
Proof.
  intros Hrun Hev Hr Hexc Hsite. destruct e as [status detail|msg|msg].
  - cbn [is_HTTPException andb] in Hsite.
    pose proof (http_exception_outcome _ _ _ _ _ _ _ Hrun Hev Hr) as Hout.
    by rewrite Hsite in Hout.
  - exact (collaborator_exception_outcome E _ _ _ _ _ _ Hrun Hev Hr).
  - discriminate Hexc.
Qed.

End Exceptions.

(** * The handlers at work on the concrete deployment *)

Example suffix_lowered : file_extension Demo.ok_env "Notes.V2.PDF" = ".pdf".
Proof. reflexivity. Qed.

Example suffix_of_trailing_slash : file_extension Demo.ok_env "notes.txt/" = ".txt".
Proof. reflexivity. Qed.

Example suffix_of_hidden_file : Py.suffix ".txt" = "".
Proof. reflexivity. Qed.

Example suffix_sees_through_dot : Py.suffix "a.txt/." = ".txt".
Proof. reflexivity. Qed.

Example join_relative : Py.path_join "data/uploads" "../x.txt" = "data/uploads/../x.txt".
Proof. reflexivity. Qed.

Example join_absolute : Py.path_join "data/uploads" "/etc/x.txt" = "/etc/x.txt".
Proof. reflexivity. Qed.

Example demo_file_systems_are_well_formed :
  Fs.wf Demo.fs0 /\ Fs.wf Demo.fs1 /\ Fs.wf Demo.fs2.
Proof. split; [|split]; apply (bool_decide_unpack _); by vm_compute. Qed.

(** A name that ends in a slash is refused by [open], whether or not the
    name is there. *)
Example upload_with_trailing_slash_fails :
  (upload_document Demo.ok_env (Demo.upload "notes.txt/" "new notes")
     (Demo.state0 Demo.fs0)).1 =
    inl (HTTPException 500
           (PStr "Upload failed: [Errno 21] Is a directory: 'data/uploads/notes.txt/'")) /\
  (upload_document Demo.ok_env (Demo.upload "notes.txt/" "new notes")
     (Demo.state0 Demo.fs1)).1 =
    inl (HTTPException 500
           (PStr "Upload failed: [Errno 21] Is a directory: 'data/uploads/notes.txt/'")).
Proof. split; by vm_compute. Qed.

(** A name of 256 bytes is one byte too long for a directory entry. *)
Example upload_with_long_name_fails :
  String.length Demo.long_name = 256%nat /\
  upload_document Demo.ok_env (Demo.upload Demo.long_name "new notes")
    (Demo.state0 Demo.fs0) =
    (inl (HTTPException 500
            (PStr ("Upload failed: [Errno 36] File name too long: 'data/uploads/"
                   ++ Demo.long_name ++ "'"))),
     Demo.state0 Demo.fs0).
Proof. split; by vm_compute. Qed.

Example http_exception_without_detail :
  HTTPException_500 PNone = HTTPException 500 (PStr "Internal Server Error") /\
  HTTPException_500 (PStr "model unavailable") =
    HTTPException 500 (PStr "model unavailable").
Proof. split; reflexivity. Qed.

(** A presentation file is turned away and the state stays as it was. *)
Lemma upload_unsupported_extension_is_rejected_witness :
  let file := Demo.upload "slides.pptx" "..." in
  let st := Demo.state0 Demo.fs1 in
  (file_extension Demo.ok_env (UploadFile.filename file) ∉ [".pdf"; ".txt"]) /\
  upload_document Demo.ok_env file st =
    (inl (HTTPException 400
            (PStr "Unsupported file type: .pptx. Only .pdf and .txt are supported.")),
     st) /\
  fs (world (upload_document Demo.ok_env file st).2) = fs (world st) /\
  new_events st (upload_document Demo.ok_env file st).2 = [].
Proof.
  intros file st.
  assert (file_extension Demo.ok_env (UploadFile.filename file) ∉ [".pdf"; ".txt"])
    as Hext by (apply (bool_decide_unpack _); by vm_compute).
  split; [exact Hext|].
  exact (upload_unsupported_extension_is_rejected Demo.ok_env file st Hext).
Defined.

(** C2 as stated fails.  The first upload builds the index and the RAG
    engine and fails in the constructor of the quiz generator.  No
    upload has succeeded, yet /ask goes to the engine and answers. *)
Lemma failed_upload_opens_ask :
  let answer := [("answer", PStr "A piece of text."); ("sources", PList [])] in
  let env := Demo.faulty_env None None (Some (Exception "model not found")) answer in
  let upload := POST_upload (Demo.upload "notes.txt" "new notes") in
  let st0 := Demo.state0 Demo.fs0 in
  let st := serve env [upload] st0 in
  responses env [upload] st0 =
    [(upload, inl (HTTPException 500 (PStr "Upload failed: model not found")))] /\
  session st = (Some 2%nat, Some 2%nat, None) /\
  (handle env (POST_ask Demo.question) st).1 = inr (PDict answer) /\
  ~ queries_need_successful_upload env [upload] st0.
Proof.
  intros answer env upload st0 st.
  split; [by vm_compute|]. split; [by vm_compute|]. split; [by vm_compute|].
  intros Hclaim.
  assert (uninitialized st0) as Hun by (by vm_compute).
  specialize (Hclaim Hun eq_refl (POST_ask Demo.question) eq_refl).
  apply (f_equal fst) in Hclaim. vm_compute in Hclaim. discriminate Hclaim.
Qed.

(** The first upload fails in the index step, before an engine is built:
    after it, and a look at the status page, every query endpoint still
    asks for an upload first. *)
Lemma queries_before_upload_are_rejected_witness :
  let env := Demo.faulty_env (Some (Exception "disk full")) None None [] in
  let st0 := Demo.state0 Demo.fs0 in
  let reqs := [POST_upload (Demo.upload "notes.txt" "new notes"); GET_root] in
  let st := serve env reqs st0 in
  let ask := Demo.question in
  let sum := {| SummarizeRequest.topic := None;
                SummarizeRequest.summary_type := "bullets";
                SummarizeRequest.k := 10 |} in
  let quiz := {| QuizRequest.topic := "chunks"; QuizRequest.num_questions := 10;
                 QuizRequest.difficulty := "medium" |} in
  let upload_first := (inl (HTTPException 400 no_documents), st) in
  uninitialized st0 /\
  no_rag_built env reqs st0 = true /\
  no_successful_upload env reqs st0 = true /\
  (handle env (POST_ask ask) st = upload_first /\
   handle env (POST_summarize sum) st = upload_first /\
   handle env (POST_definitions None) st = upload_first) /\
  handle env (POST_quiz_generate quiz) st = upload_first.
Proof.
  intros env st0 reqs st ask sum quiz upload_first.
  assert (uninitialized st0) as Hun by (by vm_compute).
  assert (no_rag_built env reqs st0 = true) as Hrag by (by vm_compute).
  assert (no_successful_upload env reqs st0 = true) as Hup by (by vm_compute).
  split; [exact Hun|]. split; [exact Hrag|]. split; [exact Hup|].
  pose proof (queries_before_upload_are_rejected env st0 reqs ask sum None quiz Hun)
    as [Hqueries Hquiz].
  exact (conj (Hqueries Hrag) (Hquiz Hup)).
Defined.


(** A text file from which ingestion extracts nothing: the answer is the
    500 of the handler, and ingestion is the only collaborator called. *)
Lemma upload_with_empty_chunks_fails_witness :
  let file := Demo.upload "blank.txt" "" in
  let st := Demo.loaded Demo.fs1 in
  let out := upload_document Demo.no_chunks_env file st in
  let ev := EvProcessDocuments "data/uploads/blank.txt" (inr []) in
  ev ∈ new_events st out.2 /\
  out.1 = inl (HTTPException 500 extraction_failed) /\
  new_events st out.2 = [ev] /\
  session out.2 = session st.
Proof.
  intros file st out ev.
  assert (ev ∈ new_events st out.2) as Hev
    by (vm_compute; apply list_elem_of_here).
  split; [exact Hev|].
  exact (upload_with_empty_chunks_fails Demo.no_chunks_env file st out.1 out.2
           "data/uploads/blank.txt" (surjective_pairing out) Hev).
Defined.

(** The same failed upload leaves the loaded session in place. *)
Lemma failed_upload_keeps_session_witness :
  let file := Demo.upload "blank.txt" "" in
  let st := Demo.loaded Demo.fs1 in
  let out := upload_document Demo.no_chunks_env file st in
  (exists file_path, EvProcessDocuments file_path (inr []) ∈ new_events st out.2) /\
  (exists status detail, out.1 = inl (HTTPException status detail)) /\
  vector_store out.2 = Some 2%nat /\
  rag_system out.2 = Some 2%nat /\
  quiz_generator out.2 = Some 2%nat.
Proof.
  intros file st out.
  assert (exists file_path,
            EvProcessDocuments file_path (inr []) ∈ new_events st out.2) as Hev
    by (exists "data/uploads/blank.txt"; vm_compute; apply list_elem_of_here).
  split; [exact Hev|].
  exact (failed_upload_keeps_session Demo.no_chunks_env file st out.1 out.2
           (surjective_pairing out) (or_intror Hev)).
Defined.

(** C5 as stated fails.  The first upload builds the index and takes the
    store that [create_vector_store] returns; the persisted index is not
    loaded, in this request or before the engines are built. *)
Lemma first_upload_does_not_reload :
  let file := Demo.upload "notes.txt" "new notes" in
  let st := Demo.state0 Demo.fs0 in
  let out := upload_document Demo.ok_env file st in
  let chunks := ["chunk one"; "chunk two"] in
  out.1 = inr (upload_success_body "notes.txt" 2) /\
  new_events st out.2 =
    [EvProcessDocuments "data/uploads/notes.txt" (inr chunks);
     EvCreateVectorStore chunks "study_materials" (inr 2%nat);
     EvRAGSystem 2%nat (inr 2%nat);
     EvQuizGenerator 2%nat (inr 2%nat)] /\
  ~ upload_reloads_index Demo.ok_env file st.
Proof.
  intros file st out chunks.
  split; [by vm_compute|]. split; [by vm_compute|].
  intros [_ (v & Hin & _)]. vm_compute in Hin.
  repeat (apply elem_of_cons in Hin as [Hin|Hin]; [discriminate Hin|]).
  by apply elem_of_nil in Hin.
Qed.

(** The first upload builds the index, a second one extends it and loads
    it again; each time the engines are built on the store of the
    session. *)
Lemma upload_builds_or_extends_index_witness :
  let chunks := ["chunk one"; "chunk two"] in
  let first := Demo.upload "notes.txt" "new notes" in
  let st1 := Demo.state0 Demo.fs0 in
  let fs1 := <[(Demo.uploads ++ ["notes.txt"])%list := Fs.RegFile "new notes"]> Demo.fs0 in
  let w1 := {| fs := fs1; cs := tt |} in
  let second := Demo.upload "more.txt" "more notes" in
  let st2 := Demo.loaded Demo.fs1 in
  let fs2 := <[(Demo.uploads ++ ["more.txt"])%list := Fs.RegFile "more notes"]> Demo.fs1 in
  let w2 := {| fs := fs2; cs := tt |} in
  (Fs.open_wb Demo.cwd "data/uploads/notes.txt" "new notes" Demo.fs0 = inr fs1 /\
   Fs.open_wb Demo.cwd "data/uploads/more.txt" "more notes" Demo.fs1 = inr fs2) /\
  (index_call_follows None chunks
     (new_events st1 (upload_document Demo.ok_env first st1).2) /\
   upload_document Demo.ok_env first st1 =
     (inr (upload_success_body "notes.txt" 2),
      {| vector_store := Some 2%nat; rag_system := Some 2%nat;
         quiz_generator := Some 2%nat; world := w1;
         trace := [EvProcessDocuments "data/uploads/notes.txt" (inr chunks);
                   EvCreateVectorStore chunks "study_materials" (inr 2%nat);
                   EvRAGSystem 2%nat (inr 2%nat);
                   EvQuizGenerator 2%nat (inr 2%nat)] |})) /\
  (index_call_follows (Some 2%nat) chunks
     (new_events st2 (upload_document Demo.ok_env second st2).2) /\
   upload_document Demo.ok_env second st2 =
     (inr (upload_success_body "more.txt" 2),
      {| vector_store := Some 7%nat; rag_system := Some 7%nat;
         quiz_generator := Some 7%nat; world := w2;
         trace := [EvProcessDocuments "data/uploads/more.txt" (inr chunks);
                   EvAddDocuments chunks "study_materials" (inr tt);
                   EvLoadVectorStore "study_materials" (inr 7%nat);
                   EvRAGSystem 7%nat (inr 7%nat);
                   EvQuizGenerator 7%nat (inr 7%nat)] |})).
Proof.
  intros chunks first st1 fs1 w1 second st2 fs2 w2.
  assert (Fs.open_wb Demo.cwd "data/uploads/notes.txt" "new notes" Demo.fs0 = inr fs1)
    as Hopen1.
  { apply (open_wb_upload_entry Demo.ok_env Demo.fs0 "notes.txt" "new notes");
      first [ apply (bool_decide_unpack _); by vm_compute | by vm_compute ]. }
  assert (Fs.open_wb Demo.cwd "data/uploads/more.txt" "more notes" Demo.fs1 = inr fs2)
    as Hopen2.
  { apply (open_wb_upload_entry Demo.ok_env Demo.fs1 "more.txt" "more notes");
      first [ apply (bool_decide_unpack _); by vm_compute | by vm_compute ]. }
  assert (chunks <> []) as Hne by discriminate.
  split; [exact (conj Hopen1 Hopen2)|]. split.
  - destruct (upload_builds_or_extends_index Demo.ok_env first st1 fs1 chunks w1
                eq_refl Hopen1 eq_refl Hne) as (_ & Hcall & Hok).
    exact (conj Hcall (Hok 2%nat w1 2%nat w1 2%nat w1 eq_refl eq_refl eq_refl)).
  - destruct (upload_builds_or_extends_index Demo.ok_env second st2 fs2 chunks w2
                eq_refl Hopen2 eq_refl Hne) as (_ & Hcall & Hok).
    exact (conj Hcall (Hok 7%nat w2 7%nat w2 7%nat w2
                         (ex_intro _ w2 (conj eq_refl eq_refl)) eq_refl eq_refl)).
Defined.

(** C6 as stated fails.  Ingestion raises an [HTTPException] with status
    404; /upload re-raises it unchanged ([except HTTPException: raise]),
    so the response is that 404 and not a 500 carrying the message.  And
    a [KeyboardInterrupt] during /ask is caught by nothing. *)
Lemma collaborator_http_exception_passes_through :
  let e := HTTPException 404 (PStr "no such document") in
  let req := POST_upload (Demo.upload "notes.txt" "new notes") in
  let st := Demo.state0 Demo.fs0 in
  let interrupt := BaseException "KeyboardInterrupt" in
  (handle (Demo.raising_env e) req st).1 = inl e /\
  ~ collaborator_exceptions_become_500 (Demo.raising_env e) req st /\
  ~ collaborator_exceptions_become_500 (Demo.raising_env interrupt)
      (POST_ask Demo.question) (Demo.loaded Demo.fs1).
Proof.
  intros e req st interrupt. split; [by vm_compute|]. split.
  - intros Hclaim.
    destruct (Hclaim (EvProcessDocuments "data/uploads/notes.txt" (inl e)) e)
      as [prefix Hr].
    + vm_compute. apply list_elem_of_here.
    + reflexivity.
    + vm_compute in Hr. discriminate Hr.
  - intros Hclaim.
    destruct (Hclaim (EvAskQuestion 2%nat "What is a chunk?" 5 (inl interrupt)) interrupt)
      as [prefix Hr].
    + vm_compute. apply list_elem_of_here.
    + reflexivity.
    + vm_compute in Hr. discriminate Hr.
Qed.

(** The same [HTTPException] raised by the RAG engine during /ask is
    caught as an [Exception]: the response is a 500 whose detail ends
    with [str] of the exception. *)
Lemma collaborator_exception_becomes_500_witness :
  let e := HTTPException 404 (PStr "no such document") in
  let req := POST_ask Demo.question in
  let st := Demo.loaded Demo.fs1 in
  let out := handle (Demo.raising_env e) req st in
  let ev := EvAskQuestion 2%nat "What is a chunk?" 5 (inl e) in
  ev ∈ new_events st out.2 /\
  raised ev = Some e /\
  is_Exception e = true /\
  is_HTTPException e && under_http_reraise ev = false /\
  out.1 = inl (HTTPException 500
                 (PStr "Question answering failed: 404: no such document")) /\
  exists prefix,
    out.1 = inl (HTTPException 500 (PStr (prefix ++ "404: no such document"))).
Proof.
  intros e req st out ev.
  assert (ev ∈ new_events st out.2) as Hev
    by (vm_compute; apply list_elem_of_here).
  split; [exact Hev|]. split; [reflexivity|]. split; [reflexivity|].
  split; [reflexivity|]. split; [by vm_compute|].
  exact (collaborator_exception_becomes_500 (Demo.raising_env e) req st out.1 out.2
           ev e (surjective_pairing out) Hev eq_refl eq_refl eq_refl).
Defined.

(** C3 as stated fails. The upload directory holds a subdirectory; the
    reset succeeds and clears the session, and the subdirectory is still
    listed afterwards. *)
Lemma reset_keeps_subdirectory :
  let st := Demo.loaded Demo.fs2 in
  let out := reset_system Demo.ok_env st in
  Fs.listdir Demo.cwd UPLOAD_DIR (fs (world out.2)) = inr ["archive"] /\
  ~ reset_empties_upload_dir Demo.ok_env st.
Proof.
  intros st out. split; [by vm_compute|].
  intros Hclaim.
  destruct (Hclaim (PDict [("message", PStr "System reset successfully");
                           ("status", PStr "success")]) out.2) as [Hls _].
  - pose proof (surjective_pairing out) as Hout.
    assert (out.1 = inr (PDict [("message", PStr "System reset successfully");
                                ("status", PStr "success")])) as Hbody
      by (by vm_compute).
    rewrite Hbody in Hout. exact Hout.
  - vm_compute in Hls. discriminate Hls.
Qed.

(** On the same directory the reset removes the stored file, clears the
    session, and leaves nothing for GET /documents to list. *)
Lemma reset_leaves_no_uploaded_file_witness :
  let st := Demo.loaded Demo.fs2 in
  let out := reset_system Demo.ok_env st in
  Fs.wf (fs (world st)) /\
  fs (world st) !! (Demo.uploads ++ ["notes.txt"])%list = Some (Fs.RegFile "old notes") /\
  uninitialized out.2 /\
  (forall n content,
     fs (world out.2) !! (Demo.uploads ++ [n])%list <> Some (Fs.RegFile content)) /\
  handle Demo.ok_env GET_documents out.2 =
    (inr (PDict [("documents", PList []); ("count", PInt 0)]), out.2).
Proof.
  intros st out.
  assert (Fs.wf (fs (world st))) as Hwf
    by (apply (bool_decide_unpack _); by vm_compute).
  split; [exact Hwf|]. split; [by vm_compute|].
  pose proof (surjective_pairing out) as Hout.
  assert (out.1 = inr (PDict [("message", PStr "System reset successfully");
                              ("status", PStr "success")])) as Hbody
    by (by vm_compute).
  rewrite Hbody in Hout.
  exact (reset_leaves_no_uploaded_file Demo.ok_env st _ out.2 Hwf Hout).
Defined.

(** C8 as stated fails.  [notes.txt] is uploaded again, with bytes from
    which ingestion extracts nothing: the stored bytes are replaced, and
    the request is answered with status 500. *)
Lemma reupload_with_empty_ingestion_fails :
  let file := Demo.upload "notes.txt" "" in
  let st := Demo.loaded Demo.fs1 in
  let entry := (Demo.uploads ++ ["notes.txt"])%list in
  let out := upload_document Demo.no_chunks_env file st in
  fs (world st) !! entry = Some (Fs.RegFile "old notes") /\
  out.1 = inl (HTTPException 500 extraction_failed) /\
  fs (world out.2) !! entry = Some (Fs.RegFile "") /\
  ~ reupload_succeeds Demo.no_chunks_env file st.
Proof.
  intros file st entry out.
  split; [by vm_compute|]. split; [by vm_compute|]. split; [by vm_compute|].
  intros Hclaim.
  destruct Hclaim as (body & Hbody & _).
  - exists "old notes". by vm_compute.
  - reflexivity.
  - vm_compute in Hbody. discriminate Hbody.
Qed.

(** A second upload of [notes.txt] replaces the stored bytes and
    succeeds. *)
Lemma reupload_overwrites_stored_file_witness :
  let file := Demo.upload "notes.txt" "new notes" in
  let st := Demo.loaded Demo.fs1 in
  let entry := (Demo.uploads ++ ["notes.txt"])%list in
  let out := upload_document Demo.ok_env file st in
  Fs.wf (fs (world st)) /\
  fs (world st) !! entry = Some (Fs.RegFile "old notes") /\
  (file_extension Demo.ok_env "notes.txt" ∈ [".pdf"; ".txt"]) /\
  ingestion_leaves_uploads_alone Demo.ok_env /\
  (exists res,
     new_events st out.2 !! 0%nat =
       Some (EvProcessDocuments "data/uploads/notes.txt" res)) /\
  fs (world out.2) !! entry = Some (Fs.RegFile "new notes") /\
  (exists body, out.1 = inr body /\ initialized out.2).
Proof.
  intros file st entry out.
  assert (Fs.wf (fs (world st))) as Hwf
    by (apply (bool_decide_unpack _); by vm_compute).
  assert (fs (world st) !! entry = Some (Fs.RegFile "old notes")) as Hold
    by (by vm_compute).
  assert (file_extension Demo.ok_env "notes.txt" ∈ [".pdf"; ".txt"]) as Hext
    by (apply (bool_decide_unpack _); by vm_compute).
  assert (ingestion_leaves_uploads_alone Demo.ok_env) as Hquiet
    by (repeat split; reflexivity).
  assert (forall ev, ev ∈ new_events st out.2 ->
            raised ev = None /\ forall p, ev <> EvProcessDocuments p (inr []))
    as Hcalls.
  { intros ev Hev. vm_compute in Hev.
    repeat (apply elem_of_cons in Hev as [->|Hev]; [by split|]).
    by apply elem_of_nil in Hev. }
  split; [exact Hwf|]. split; [exact Hold|]. split; [exact Hext|].
  split; [exact Hquiet|].
  destruct (reupload_overwrites_stored_file Demo.ok_env st file "old notes" out.1 out.2
              Hwf Hold Hext Hquiet (surjective_pairing out))
    as (Hcalled & Hstored & Hok & _).
  exact (conj Hcalled (conj Hstored (Hok Hcalls))).
Defined.

(** C4 at a file name that carries a path. The upload of ["../notes.txt"]
    succeeds and reports that name, the session is set, the bytes land in
    [data/], outside the upload directory, and GET /documents does not
    list the upload. *)
Theorem upload_with_path_in_filename_is_not_listed :
  let file := Demo.upload "../notes.txt" "new notes" in
  let st := Demo.state0 Demo.fs0 in
  let out := upload_document Demo.ok_env file st in
  out.1 = inr (PDict [
    ("message", PStr "Document uploaded and processed successfully");
    ("filename", PStr "../notes.txt");
    ("chunks_created", PInt 2);
    ("status", PStr "success")]) /\
  initialized out.2 /\
  fs (world out.2) !! (Demo.data ++ ["notes.txt"])%list = Some (Fs.RegFile "new notes") /\
  Fs.children (fs (world out.2)) Demo.uploads = [] /\
  (handle Demo.ok_env GET_documents out.2).1 =
    inr (PDict [("documents", PList []); ("count", PInt 0)]).
Proof.
  intros file st out.
  assert (out.1 = inr (PDict [
    ("message", PStr "Document uploaded and processed successfully");
    ("filename", PStr "../notes.txt");
    ("chunks_created", PInt 2);
    ("status", PStr "success")])) as Hbody by (by vm_compute).
  split; [exact Hbody|]. split.
  - pose proof (surjective_pairing out) as Hout. rewrite Hbody in Hout.
    exact (upload_success_initializes Demo.ok_env file st _ out.2 Hout).
  - by vm_compute.
Qed.

(** The same bytes under the plain name ["notes.txt"] are listed. *)
Example upload_with_plain_filename_is_listed :
  let file := Demo.upload "notes.txt" "new notes" in
  let st := Demo.state0 Demo.fs0 in
  let out := upload_document Demo.ok_env file st in
  exists files,
    handle Demo.ok_env GET_documents out.2 =
      (inr (PDict [("documents", PList (List.map PStr files));
                   ("count", PInt (Z.of_nat (List.length files)))]), out.2) /\
    "notes.txt" ∈ files.
Proof.
  intros file st out.
  assert (out.1 = inr (PDict [
    ("message", PStr "Document uploaded and processed successfully");
    ("filename", PStr "notes.txt");
    ("chunks_created", PInt 2);
    ("status", PStr "success")])) as Hbody by (by vm_compute).
  pose proof (surjective_pairing out) as Hout. rewrite Hbody in Hout.
  refine (upload_then_listed Demo.ok_env file st _ out.2 _ _ Hout).
  - by vm_compute.
  - repeat split; reflexivity.
Qed.

(** * The further properties on the concrete deployment *)

(** /ask on a loaded session returns the dict of the engine. *)
Lemma rag_answer_is_returned_unchanged_witness :
  let req := POST_ask Demo.question in
  let st := Demo.loaded Demo.fs1 in
  let out := handle Demo.ok_env req st in
  let d := [("sources", PList [])] in
  let ev := EvAskQuestion 2%nat "What is a chunk?" 5 (inr d) in
  ev ∈ new_events st out.2 /\
  sources_len d = inr 0 /\
  out.1 = inr (PDict d) /\ new_events st out.2 = [ev] /\ session out.2 = session st.
Proof.
  intros req st out d ev.
  assert (ev ∈ new_events st out.2) as Hev by (vm_compute; apply list_elem_of_here).
  split; [exact Hev|]. split; [reflexivity|].
  exact (rag_answer_is_returned_unchanged Demo.ok_env req st out.1 out.2 ev d 0
           (surjective_pairing out) Hev eq_refl eq_refl).
Defined.

(** A summary without "sources" becomes a 500. *)
Lemma rag_answer_without_sources_fails_witness :
  let env := Demo.answering_env [("summary", PStr "Chunks are pieces of text.")] in
  let req := POST_summarize Demo.summary in
  let st := Demo.loaded Demo.fs1 in
  let out := handle env req st in
  let d := [("summary", PStr "Chunks are pieces of text.")] in
  let ev := EvSummarize 2%nat (Some "chunks") "bullets" 10 (inr d) in
  ev ∈ new_events st out.2 /\
  dict_get d "sources" = None /\
  out.1 = inl (HTTPException 500 (PStr "Summarization failed: 'sources'")) /\
  exists prefix, out.1 = inl (HTTPException 500 (PStr (prefix ++ "'sources'"))).
Proof.
  intros env req st out d ev.
  assert (ev ∈ new_events st out.2) as Hev by (vm_compute; apply list_elem_of_here).
  split; [exact Hev|]. split; [reflexivity|]. split; [by vm_compute|].
  exact (rag_answer_without_sources_fails env req st out.1 out.2 ev d
           (surjective_pairing out) Hev eq_refl eq_refl).
Defined.

(** A quiz dict with an "error" entry, and one whose entry is [None]. *)
Lemma quiz_error_entry_becomes_500_witness :
  let quiz := [("questions", PList []); ("error", PStr "model unavailable")] in
  let failed := [("error", PNone)] in
  let req := POST_quiz_generate Demo.quiz in
  let st := Demo.loaded Demo.fs1 in
  let out := handle (Demo.answering_env quiz) req st in
  let out' := handle (Demo.answering_env failed) req st in
  let ev := EvGenerateQuiz 2%nat "chunks" 3 "easy" (inr quiz) in
  let ev' := EvGenerateQuiz 2%nat "chunks" 3 "easy" (inr failed) in
  ev ∈ new_events st out.2 /\
  ev' ∈ new_events st out'.2 /\
  out.1 = inl (HTTPException 500 (PStr "model unavailable")) /\
  out'.1 = inl (HTTPException 500 (PStr "Internal Server Error")) /\
  session out.2 = session st.
Proof.
  intros quiz failed req st out out' ev ev'.
  assert (ev ∈ new_events st out.2) as Hev by (vm_compute; apply list_elem_of_here).
  assert (ev' ∈ new_events st out'.2) as Hev' by (vm_compute; apply list_elem_of_here).
  split; [exact Hev|]. split; [exact Hev'|].
  destruct (quiz_error_entry_becomes_500 (Demo.answering_env quiz) req st out.1 out.2
              ev quiz (PStr "model unavailable") (surjective_pairing out) Hev
              eq_refl eq_refl) as (Hdetail & _ & Hsession).
  destruct (quiz_error_entry_becomes_500 (Demo.answering_env failed) req st out'.1 out'.2
              ev' failed PNone (surjective_pairing out') Hev' eq_refl eq_refl)
    as (_ & Hnone & _).
  assert (PStr "model unavailable" <> PNone) as Hne by discriminate.
  exact (conj (Hdetail Hne) (conj (Hnone eq_refl) Hsession)).
Defined.

(** A quiz dict with one question. *)
Lemma quiz_is_returned_unchanged_witness :
  let quiz := [("questions", PList [PDict [("question", PStr "What is a chunk?")]])] in
  let env := Demo.answering_env quiz in
  let req := POST_quiz_generate Demo.quiz in
  let st := Demo.loaded Demo.fs1 in
  let out := handle env req st in
  let ev := EvGenerateQuiz 2%nat "chunks" 3 "easy" (inr quiz) in
  ev ∈ new_events st out.2 /\
  dict_get quiz "error" = None /\
  new_events st out.2 = [ev] /\
  out.1 = inr (PDict quiz).
Proof.
  intros quiz env req st out ev.
  assert (ev ∈ new_events st out.2) as Hev by (vm_compute; apply list_elem_of_here).
  split; [exact Hev|]. split; [reflexivity|].
  exact (quiz_is_returned_unchanged env req st out.1 out.2 ev quiz
           (surjective_pairing out) Hev eq_refl eq_refl).
Defined.

(** A grading with a score. *)
Lemma graded_result_is_returned_iff_scored_witness :
  let results := [("score", PInt 100); ("correct", PInt 1); ("total", PInt 1)] in
  let env := Demo.answering_env results in
  let req := POST_quiz_grade Demo.grading in
  let st := Demo.loaded Demo.fs1 in
  let out := handle env req st in
  let ev := EvGradeQuiz 2%nat (GradeQuizRequest.questions Demo.grading)
                        (GradeQuizRequest.user_answers Demo.grading) (inr results) in
  ev ∈ new_events st out.2 /\
  (out.1 = inr (PDict results) <-> is_Some (dict_get results "score")) /\
  (dict_get results "score" = None ->
   out.1 = inl (HTTPException 500 (PStr "Quiz grading failed: 'score'"))).
Proof.
  intros results env req st out ev.
  assert (ev ∈ new_events st out.2) as Hev by (vm_compute; apply list_elem_of_here).
  split; [exact Hev|].
  exact (graded_result_is_returned_iff_scored env req st out.1 out.2 ev results
           (surjective_pairing out) Hev eq_refl).
Defined.

(** A question leaves the loaded session in place. *)
Lemma only_upload_and_reset_change_session_witness :
  let req := POST_ask Demo.question in
  let st := Demo.loaded Demo.fs1 in
  is_upload req = false /\ req <> DELETE_reset /\
  session (handle Demo.ok_env req st).2 = (Some 2%nat, Some 2%nat, Some 2%nat).
Proof.
  intros req st.
  assert (req <> DELETE_reset) as Hreq by discriminate.
  split; [reflexivity|]. split; [exact Hreq|].
  exact (only_upload_and_reset_change_session Demo.ok_env req st eq_refl Hreq).
Defined.

(** The directory with a stored file and a subdirectory lists the file. *)
Lemma documents_are_the_regular_files_witness :
  let st := Demo.loaded Demo.fs2 in
  Fs.wf (fs (world st)) /\
  Fs.is_dir (fs (world st)) Demo.uploads = true /\
  exists files,
    list_documents Demo.ok_env st = (inr (documents_body files), st) /\
    forall n, n ∈ files <->
      exists content,
        fs (world st) !! (Demo.uploads ++ [n])%list = Some (Fs.RegFile content).
Proof.
  intros st.
  assert (Fs.wf (fs (world st))) as Hwf
    by (apply (bool_decide_unpack _); by vm_compute).
  split; [exact Hwf|]. split; [reflexivity|].
  exact (documents_are_the_regular_files Demo.ok_env st Hwf eq_refl).
Defined.

(** Without [data/] the listing fails. *)
Lemma listing_fails_without_upload_directory_witness :
  let st := Demo.state0 Demo.fs_bare in
  Fs.is_dir (fs (world st)) Demo.uploads = false /\
  exists msg,
    list_documents Demo.ok_env st =
      (inl (HTTPException 500 (PStr ("Failed to list documents: " ++ msg))), st).
Proof.
  intros st. split; [reflexivity|].
  exact (listing_fails_without_upload_directory Demo.ok_env st eq_refl).
Defined.

(** The first upload builds the index; the RAG engine cannot be built. *)
Lemma rag_failure_keeps_new_store_witness :
  let e := Exception "model not found" in
  let env := Demo.faulty_env None (Some e) None [] in
  let file := Demo.upload "notes.txt" "new notes" in
  let st := Demo.state0 Demo.fs0 in
  let out := upload_document env file st in
  EvRAGSystem 2%nat (inl e) ∈ new_events st out.2 /\
  (exists e', out.1 = inl e') /\
  vector_store out.2 = Some 2%nat /\
  rag_system out.2 = None /\
  quiz_generator out.2 = None.
Proof.
  intros e env file st out.
  assert (EvRAGSystem 2%nat (inl e) ∈ new_events st out.2) as Hev
    by (vm_compute; set_solver).
  split; [exact Hev|].
  exact (rag_failure_keeps_new_store env file st out.1 out.2 2%nat e
           (surjective_pairing out) Hev).
Defined.

(** A second upload loads the index; the quiz engine cannot be built. *)
Lemma quiz_failure_keeps_new_rag_witness :
  let e := Exception "model not found" in
  let env := Demo.faulty_env None None (Some e) [] in
  let file := Demo.upload "more.txt" "more notes" in
  let st := Demo.loaded Demo.fs1 in
  let out := upload_document env file st in
  EvQuizGenerator 7%nat (inl e) ∈ new_events st out.2 /\
  (exists e', out.1 = inl e') /\
  vector_store out.2 = Some 7%nat /\
  (exists rag, rag_system out.2 = Some rag /\
               EvRAGSystem 7%nat (inr rag) ∈ new_events st out.2) /\
  quiz_generator out.2 = Some 2%nat.
Proof.
  intros e env file st out.
  assert (EvQuizGenerator 7%nat (inl e) ∈ new_events st out.2) as Hev
    by (vm_compute; set_solver).
  split; [exact Hev|].
  exact (quiz_failure_keeps_new_rag env file st out.1 out.2 7%nat e
           (surjective_pairing out) Hev).
Defined.

(** The index cannot be created. *)
Lemma index_failure_keeps_session_witness :
  let e := Exception "disk full" in
  let env := Demo.faulty_env (Some e) None None [] in
  let file := Demo.upload "notes.txt" "new notes" in
  let st := Demo.state0 Demo.fs0 in
  let out := upload_document env file st in
  let ev := EvCreateVectorStore ["chunk one"; "chunk two"] "study_materials" (inl e) in
  ev ∈ new_events st out.2 /\
  out.1 = inl (HTTPException 500
                 (PStr "Failed to create/update vector store: disk full")) /\
  session out.2 = session st.
Proof.
  intros e env file st out ev.
  assert (ev ∈ new_events st out.2) as Hev by (vm_compute; set_solver).
  split; [exact Hev|].
  exact (index_failure_keeps_session env file st out.1 out.2 ev "disk full"
           (surjective_pairing out) Hev eq_refl eq_refl).
Defined.

(** [notes.txt] is a directory of the upload directory. *)
Lemma unwritable_upload_fails_witness :
  let file := Demo.upload "notes.txt" "new notes" in
  let st := Demo.loaded Demo.fs3 in
  let e := Fs.OSError Fs.EISDIR "data/uploads/notes.txt" in
  Fs.open_wb Demo.cwd "data/uploads/notes.txt" "new notes" (fs (world st)) = inl e /\
  upload_document Demo.ok_env file st =
    (inl (HTTPException 500
            (PStr "Upload failed: [Errno 21] Is a directory: 'data/uploads/notes.txt'")),
     st).
Proof.
  intros file st e.
  assert (Fs.open_wb Demo.cwd "data/uploads/notes.txt" "new notes" (fs (world st))
          = inl e) as Hopen by (by vm_compute).
  split; [exact Hopen|].
  exact (unwritable_upload_fails Demo.ok_env file st e eq_refl Hopen).
Defined.

(** An upload that fails in ingestion is listed all the same. *)
Lemma saved_upload_stays_listed_witness :
  let file := Demo.upload "blank.txt" "" in
  let st := Demo.loaded Demo.fs1 in
  let out := upload_document Demo.no_chunks_env file st in
  Fs.valid_name "blank.txt" /\
  Fs.wf (fs (world st)) /\
  ingestion_leaves_uploads_alone Demo.no_chunks_env /\
  out.1 = inl (HTTPException 500 extraction_failed) /\
  fs (world out.2) !! (Demo.uploads ++ ["blank.txt"])%list = Some (Fs.RegFile "") /\
  exists files,
    list_documents Demo.no_chunks_env out.2 = (inr (documents_body files), out.2) /\
    "blank.txt" ∈ files.
Proof.
  intros file st out.
  assert (Fs.valid_name "blank.txt") as Hn by (by vm_compute).
  assert (Fs.wf (fs (world st))) as Hwf
    by (apply (bool_decide_unpack _); by vm_compute).
  assert (ingestion_leaves_uploads_alone Demo.no_chunks_env) as Hquiet
    by (repeat split; reflexivity).
  assert (fs (world st) !! (Demo.uploads ++ ["blank.txt"])%list <> Some Fs.Directory)
    as Hnodir by (by vm_compute).
  split; [exact Hn|]. split; [exact Hwf|]. split; [exact Hquiet|].
  split; [by vm_compute|].
  exact (saved_upload_stays_listed Demo.no_chunks_env file st out.1 out.2
           Hn eq_refl Hwf eq_refl Hnodir Hquiet (surjective_pairing out)).
Defined.

(** The body of a successful upload. *)
Lemma upload_reports_name_and_chunks_witness :
  let file := Demo.upload "notes.txt" "new notes" in
  let st := Demo.state0 Demo.fs0 in
  let out := upload_document Demo.ok_env file st in
  out.1 = inr (upload_success_body "notes.txt" 2) /\
  exists chunks,
    new_events st out.2 !! 0%nat =
      Some (EvProcessDocuments "data/uploads/notes.txt" (inr chunks)) /\
    upload_success_body "notes.txt" 2 =
      upload_success_body "notes.txt" (List.length chunks).
Proof.
  intros file st out.
  assert (out.1 = inr (upload_success_body "notes.txt" 2)) as Hbody by (by vm_compute).
  split; [exact Hbody|].
  pose proof (surjective_pairing out) as Hout. rewrite Hbody in Hout.
  exact (upload_reports_name_and_chunks Demo.ok_env file st _ out.2 Hout).
Defined.

(** A reset without an upload directory fails, and the session stays. *)
Lemma failed_reset_keeps_session_witness :
  let st := Demo.loaded Demo.fs_bare in
  let out := reset_system Demo.ok_env st in
  let e := HTTPException 500
             (PStr "Reset failed: [Errno 2] No such file or directory: 'data/uploads'") in
  out.1 = inl e /\
  (exists msg, e = HTTPException 500 (PStr ("Reset failed: " ++ msg))) /\
  session out.2 = session st /\
  new_events st out.2 = [].
Proof.
  intros st out e.
  assert (out.1 = inl e) as Hbody by (by vm_compute).
  split; [exact Hbody|].
  pose proof (surjective_pairing out) as Hout. rewrite Hbody in Hout.
  exact (failed_reset_keeps_session Demo.ok_env st e out.2 Hout).
Defined.

(** The index file of the persisted store is gone after the reset. *)
Lemma reset_removes_persisted_index_witness :
  let st := Demo.loaded Demo.fs4 in
  let out := reset_system Demo.ok_env st in
  let q := (Demo.data ++ ["vector_store"; "study_materials"; "index.faiss"])%list in
  Fs.wf (fs (world st)) /\
  (exists body, out.1 = inr body) /\
  vector_store_dir Demo.ok_env `prefix_of` q /\
  fs (world st) !! q = Some (Fs.RegFile "index") /\
  fs (world out.2) !! q = None.
Proof.
  intros st out q.
  assert (Fs.wf (fs (world st))) as Hwf
    by (apply (bool_decide_unpack _); by vm_compute).
  assert (out.1 = inr (PDict [("message", PStr "System reset successfully");
                              ("status", PStr "success")]))
    as Hbody by (by vm_compute).
  assert (vector_store_dir Demo.ok_env `prefix_of` q) as Hq
    by (exists ["index.faiss"]; reflexivity).
  split; [exact Hwf|]. split; [eexists; exact Hbody|]. split; [exact Hq|].
  split; [by vm_compute|].
  pose proof (surjective_pairing out) as Hout. rewrite Hbody in Hout.
  exact (reset_removes_persisted_index Demo.ok_env st _ out.2 q Hwf Hout Hq).
Defined.

(** The subdirectory of the upload directory is none of the deleted
    entries. *)
Lemma reset_touches_nothing_else_witness :
  let st := Demo.loaded Demo.fs2 in
  let out := reset_system Demo.ok_env st in
  let q := (Demo.uploads ++ ["archive"])%list in
  Fs.wf (fs (world st)) /\
  (exists body, out.1 = inr body) /\
  (fs (world out.2) !! q = fs (world st) !! q \/
   vector_store_dir Demo.ok_env `prefix_of` q \/
   exists n content,
     q = (upload_dir Demo.ok_env ++ [n])%list /\
     fs (world st) !! q = Some (Fs.RegFile content)).
Proof.
  intros st out q.
  assert (Fs.wf (fs (world st))) as Hwf
    by (apply (bool_decide_unpack _); by vm_compute).
  assert (out.1 = inr (PDict [("message", PStr "System reset successfully");
                              ("status", PStr "success")]))
    as Hbody by (by vm_compute).
  split; [exact Hwf|]. split; [eexists; exact Hbody|].
  pose proof (surjective_pairing out) as Hout. rewrite Hbody in Hout.
  exact (reset_touches_nothing_else Demo.ok_env st _ out.2 q Hwf Hout).
Defined.

(** "Notes.V2.PDF" and its lower-case form. *)
Lemma extension_test_ignores_case_witness :
  let lowered := Py.lower (str_lower Demo.ok_env) "Notes.V2.PDF" in
  Py.is_ascii "Notes.V2.PDF" = true /\
  lowered = "notes.v2.pdf" /\
  file_extension Demo.ok_env lowered = file_extension Demo.ok_env "Notes.V2.PDF" /\
  supported (file_extension Demo.ok_env lowered) =
    supported (file_extension Demo.ok_env "Notes.V2.PDF").
Proof.
  intros lowered. split; [reflexivity|]. split; [reflexivity|].
  exact (extension_test_ignores_case Demo.ok_env "Notes.V2.PDF" eq_refl).
Defined.

(** "README" has no extension. *)
Lemma upload_without_extension_is_rejected_witness :
  let st := Demo.state0 Demo.fs0 in
  Py.contains "/" "README" = false /\
  Py.contains "." "EADME" = false /\
  upload_document Demo.ok_env (Demo.upload "README" "read me") st =
    (inl (HTTPException 400
            (PStr "Unsupported file type: . Only .pdf and .txt are supported.")),
     st).
Proof.
  intros st. split; [reflexivity|]. split; [reflexivity|].
  exact (upload_without_extension_is_rejected Demo.ok_env "R" "EADME" None "read me" st
           eq_refl eq_refl).
Defined.

(** A restart over the directory with one stored upload. *)
Lemma restart_keeps_files_and_drops_session_witness :
  let w := {| fs := Demo.fs1; cs := tt |} in
  let out := start Demo.ok_env w in
  leaves_uploads_alone Demo.ok_env (DocumentIngestion_init Demo.ok_env) /\
  out.1 = inr tt /\
  Fs.is_dir (fs (world out.2)) (upload_dir Demo.ok_env) = true /\
  (forall n, fs (world out.2) !! (upload_dir Demo.ok_env ++ [n])%list =
             fs w !! (upload_dir Demo.ok_env ++ [n])%list) /\
  uninitialized out.2 /\
  handle Demo.ok_env (POST_ask Demo.question) out.2 =
    (inl (HTTPException 400 no_documents), out.2).
Proof.
  intros w out.
  assert (leaves_uploads_alone Demo.ok_env (DocumentIngestion_init Demo.ok_env))
    as Hquiet by (intros w0; repeat split; reflexivity).
  assert (out.1 = inr tt) as Hbody by (by vm_compute).
  split; [exact Hquiet|]. split; [exact Hbody|].
  pose proof (surjective_pairing out) as Hout. rewrite Hbody in Hout.
  exact (restart_keeps_files_and_drops_session Demo.ok_env w out.2 Demo.question
           Hquiet Hout).
Defined.

(** The question after the first upload goes to the engine on store 2. *)
Lemma ask_after_upload_uses_new_engine_witness :
  let file := Demo.upload "notes.txt" "new notes" in
  let st := Demo.state0 Demo.fs0 in
  let out := upload_document Demo.ok_env file st in
  out.1 = inr (upload_success_body "notes.txt" 2) /\
  exists v rag res,
    vector_store out.2 = Some v /\
    EvRAGSystem v (inr rag) ∈ new_events st out.2 /\
    new_events out.2 (handle Demo.ok_env (POST_ask Demo.question) out.2).2 =
      [EvAskQuestion rag "What is a chunk?" 5 res].
Proof.
  intros file st out.
  assert (out.1 = inr (upload_success_body "notes.txt" 2)) as Hbody by (by vm_compute).
  split; [exact Hbody|].
  pose proof (surjective_pairing out) as Hout. rewrite Hbody in Hout.
  exact (ask_after_upload_uses_new_engine Demo.ok_env file st _ out.2 Demo.question Hout).
Defined.

(** The index is built, the RAG engine is not. *)
Lemma status_says_loaded_while_ask_refuses_witness :
  let e := Exception "model not found" in
  let env := Demo.faulty_env None (Some e) None [] in
  let file := Demo.upload "notes.txt" "new notes" in
  let st := Demo.state0 Demo.fs0 in
  let out := upload_document env file st in
  rag_system st = None /\
  EvRAGSystem 2%nat (inl e) ∈ new_events st out.2 /\
  (exists body,
     handle env GET_root out.2 = (inr (PDict body), out.2) /\
     dict_get body "documents_loaded" = Some (PBool true)) /\
  handle env (POST_ask Demo.question) out.2 =
    (inl (HTTPException 400 no_documents), out.2).
Proof.
  intros e env file st out.
  assert (EvRAGSystem 2%nat (inl e) ∈ new_events st out.2) as Hev
    by (vm_compute; set_solver).
  split; [reflexivity|]. split; [exact Hev|].
  exact (status_says_loaded_while_ask_refuses env file st out.1 out.2 2%nat e
           Demo.question eq_refl (surjective_pairing out) Hev).
Defined.

(** The one call of a question is no call of /upload. *)
Lemma only_upload_calls_ingestion_witness :
  let req := POST_ask Demo.question in
  let st := Demo.loaded Demo.fs1 in
  let ev := EvAskQuestion 2%nat "What is a chunk?" 5 (inr [("sources", PList [])]) in
  is_upload req = false /\
  ev ∈ new_events st (handle Demo.ok_env req st).2 /\
  upload_event ev = false /\
  req <> GET_root /\ req <> GET_documents /\ req <> DELETE_reset.
Proof.
  intros req st ev.
  assert (ev ∈ new_events st (handle Demo.ok_env req st).2) as Hev
    by (vm_compute; apply list_elem_of_here).
  split; [reflexivity|]. split; [exact Hev|].
  exact (only_upload_calls_ingestion Demo.ok_env req st ev eq_refl Hev).
Defined.

(** A [KeyboardInterrupt] during /ask. *)
Lemma base_exception_escapes_witness :
  let e := BaseException "KeyboardInterrupt" in
  let env := Demo.raising_env e in
  let req := POST_ask Demo.question in
  let st := Demo.loaded Demo.fs1 in
  let out := handle env req st in
  let ev := EvAskQuestion 2%nat "What is a chunk?" 5 (inl e) in
  ev ∈ new_events st out.2 /\
  raised ev = Some e /\
  out.1 = inl e.
Proof.
  intros e env req st out ev.
  assert (ev ∈ new_events st out.2) as Hev by (vm_compute; apply list_elem_of_here).
  split; [exact Hev|]. split; [reflexivity|].
  exact (base_exception_escapes env req st out.1 out.2 ev "KeyboardInterrupt"
           (surjective_pairing out) Hev eq_refl).
Defined.

(** An [HTTPException] of the RAG engine during /ask is wrapped. *)
Lemma http_exception_by_call_site_witness :
  let e := HTTPException 404 (PStr "no such model") in
  let env := Demo.raising_env e in
  let req := POST_ask Demo.question in
  let st := Demo.loaded Demo.fs1 in
  let out := handle env req st in
  let ev := EvAskQuestion 2%nat "What is a chunk?" 5 (inl e) in
  ev ∈ new_events st out.2 /\
  raised ev = Some e /\
  under_http_reraise ev = false /\
  exists prefix,
    out.1 = inl (HTTPException 500 (PStr (prefix ++ "404: no such model"))).
Proof.
  intros e env req st out ev.
  assert (ev ∈ new_events st out.2) as Hev by (vm_compute; apply list_elem_of_here).
  split; [exact Hev|]. split; [reflexivity|]. split; [reflexivity|].
  exact (http_exception_by_call_site env req st out.1 out.2 ev 404 (PStr "no such model")
           (surjective_pairing out) Hev eq_refl).
Defined.
